(** * Risk simulation core of ai-pm-buddy-v2

    A shallow embedding of [src/modules/simulation/risk_simulator.py]:
    the Monte Carlo schedule simulator, the risk impact scorer, the
    mitigation strategy ranking and the level-to-score conversion.

    Conventions of the embedding.
    - Python numbers are exact rationals ([Q]); statements about them use
      [==] ([Qeq]).  Rounding of binary floating point is not modelled.
    - The process-wide generator behind [random.random()] is an explicit
      state: an infinite supply of draws and a cursor into it.
    - Python exceptions are values of [exn]; a computation is a function
      from the generator state to a result and the new generator state.
    - [math.sqrt] is a parameter of the development (any function on
      rationals), raising [ValueError] on negative arguments as in Python.
    - A [datetime] is a count of microseconds since 0001-01-01 00:00 that
      lies within the years 1 to 9999, a [timedelta] a count of
      microseconds; date arithmetic that leaves these ranges raises
      [OverflowError], as in Python.
    - A [str] is the sequence of bytes of its UTF-8 encoding. *)

From Stdlib Require Import QArith Qround Qabs ZArith List String Ascii Bool Lia Lqa.
From Stdlib Require Import Permutation Sorted DecimalString Eqdep_dec.
Import ListNotations.

Local Open Scope string_scope.
Local Open Scope list_scope.
Local Open Scope Q_scope.

(** ** Python runtime: exceptions, generator state, the computation monad *)

(** [ZeroDivisionError], [ValueError], [KeyError], [IndexError] and
    [OverflowError] are the exceptions the embedded code can meet.
    [InvalidInput] is the error name of the specification's taxonomy; no
    path of the source raises it. *)
Inductive exn : Type :=
  | ZeroDivisionError
  | ValueError
  | KeyError
  | IndexError
  | OverflowError
  | InvalidInput.

Inductive res (A : Type) : Type :=
  | Ok (a : A)
  | Err (e : exn).
Arguments Ok {A} a.
Arguments Err {A} e.

Record rng : Type := mkRng { source : nat -> Q; cursor : nat }.

(** Every draw of [random.random()] lies in [0, 1). *)
Definition rng_ok (g : rng) : Prop := forall i, 0 <= source g i /\ source g i < 1.

Definition advance (k : nat) (g : rng) : rng := mkRng (source g) (k + cursor g).

Definition M (A : Type) : Type := rng -> res A * rng.

Definition ret {A} (a : A) : M A := fun g => (Ok a, g).

Definition bind {A B} (m : M A) (f : A -> M B) : M B :=
  fun g => match m g with
           | (Ok a, g') => f a g'
           | (Err e, g') => (Err e, g')
           end.

Definition raise {A} (e : exn) : M A := fun g => (Err e, g).

(** [try: m  except e: h] for one exception class. *)
Definition try_except {A} (m : M A) (caught : exn -> bool) (h : M A) : M A :=
  fun g => match m g with
           | (Ok a, g') => (Ok a, g')
           | (Err e, g') => if caught e then h g' else (Err e, g')
           end.

Declare Scope py_scope.
Delimit Scope py_scope with py.
Notation "x <- m ;; k" := (bind m (fun x => k))
  (at level 61, m at next level, right associativity) : py_scope.
Local Open Scope py_scope.

Definition is_zde (e : exn) : bool :=
  match e with ZeroDivisionError => true | _ => false end.

(** [random.random()] *)
Definition random : M Q :=
  fun g => (Ok (source g (cursor g)), mkRng (source g) (S (cursor g))).

(** True division [a / b]. *)
Definition py_div (a b : Q) : M Q :=
  if Qeq_bool b 0 then raise ZeroDivisionError else ret (a / b).

(** [sum(xs)]: left to right, starting from the integer 0. *)
Definition py_sum (xs : list Q) : Q := fold_left Qplus xs 0.

(** ** datetime and timedelta *)

Definition us_per_day : Z := 86400000000.

(** [datetime.max] is the last microsecond of 9999-12-31, day 3652059 when
    0001-01-01 is day 1; [timedelta.max.days] is 999999999. *)
Definition max_ordinal : Z := 3652059.
Definition max_delta_days : Z := 999999999.

(** The microsecond counts of the years 1 to 9999. *)
Definition in_range (us : Z) : bool :=
  ((0 <=? us) && (us <? max_ordinal * us_per_day))%Z.

Record datetime : Type := mkDatetime { dt_us : Z; dt_ok : in_range dt_us = true }.

Definition timedelta : Type := Z.

Definition round_half_even (x : Q) : Z :=
  let f := Qfloor x in
  match Qcompare (x - inject_Z f) (1 # 2) with
  | Lt => f
  | Gt => (f + 1)%Z
  | Eq => if Z.even f then f else (f + 1)%Z
  end.

(** The microseconds of a number of days, ties to even.  The rounding is
    that of the exact product: CPython rounds a product computed in double
    precision, which can differ from it by one microsecond. *)
Definition days_to_us (d : Q) : Z := round_half_even (d * inject_Z us_per_day).

(** [timedelta(days=d)]: the constructor refuses more than 999999999 days
    in either direction. *)
Definition timedelta_days (d : Q) : M timedelta :=
  let us := days_to_us d in
  if (Z.abs (us / us_per_day) <=? max_delta_days)%Z then ret us
  else raise OverflowError.

(** The datetime of a microsecond count, when there is one. *)
Definition datetime_at (us : Z) : option datetime :=
  match bool_dec (in_range us) true with
  | left ok => Some (mkDatetime us ok)
  | right _ => None
  end.

(** [t + d]: "date value out of range" outside the years 1 to 9999. *)
Definition datetime_add (t : datetime) (d : timedelta) : M datetime :=
  match datetime_at (dt_us t + d) with
  | Some c => ret c
  | None => raise OverflowError
  end.

(** ** Data model *)

(** A task dictionary; the simulator reads [duration] (default 0) and its
    caller reads [critical] (default False). *)
Record task : Type := mkTask {
  task_duration : option Q;
  task_critical : option bool
}.

Definition get_duration (t : task) : Q :=
  match task_duration t with Some d => d | None => 0 end.

Record simulation_result : Type := mkResult {
  durations : list Q;
  completion_dates : list datetime
}.

Section Simulator.

(** [math.sqrt] on non-negative arguments. *)
Variable sqrtQ : Q -> Q.

Definition py_sqrt (x : Q) : M Q :=
  if Qle_bool 0 x then ret (sqrtQ x) else raise ValueError.

(** [random.triangular(low, high, mode)] of CPython's [Lib/random.py]:
    the draw is taken first, a zero-width interval is caught through
    [ZeroDivisionError] and answers [low]. *)
Definition triangular (low high : Q) (mode : option Q) : M Q :=
  u <- random ;;
  c <- try_except
         (match mode with
          | None => ret (Some (1 # 2))
          | Some m => q <- py_div (m - low) (high - low) ;; ret (Some q)
          end)
         is_zde (ret None) ;;
  match c with
  | None => ret low
  | Some c =>
      let '(u, c, low, high) :=
        if Qle_bool u c then (u, c, low, high) else (1 - u, 1 - c, high, low) in
      s <- py_sqrt (u * c) ;;
      ret (low + (high - low) * s)
  end.

(** The inner loop of a trial: one triangular sample per task, in task
    order.  [baseline_durations] and [simulated_durations] are dictionaries
    keyed by the task's position, held here as lists in key order. *)
Fixpoint sample_durations (uncertainty : Q) (baseline : list Q) : M (list Q) :=
  match baseline with
  | [] => ret []
  | base_duration :: rest =>
      let min_duration := base_duration * (1 - uncertainty) in
      let max_duration := base_duration * (1 + uncertainty) in
      x <- triangular min_duration max_duration (Some base_duration) ;;
      xs <- sample_durations uncertainty rest ;;
      ret (x :: xs)
  end.

(** The outer loop: [for _ in range(num_iterations)], appending to the two
    result lists. *)
Fixpoint trials (baseline_start : datetime) (uncertainty : Q) (baseline : list Q)
         (n : nat) (acc : simulation_result) : M simulation_result :=
  match n with
  | O => ret acc
  | S n' =>
      simulated <- sample_durations uncertainty baseline ;;
      let total_duration := py_sum simulated in
      delta <- timedelta_days total_duration ;;
      completion_date <- datetime_add baseline_start delta ;;
      trials baseline_start uncertainty baseline n'
             (mkResult (durations acc ++ [total_duration])
                       (completion_dates acc ++ [completion_date]))
  end.

(** [run_monte_carlo_simulation(tasks, uncertainty, num_iterations)];
    [baseline_start] is the reading of [datetime.datetime.now()]. *)
Definition run_monte_carlo_simulation (baseline_start : datetime)
           (tasks : list task) (uncertainty : Q) (num_iterations : Z)
  : M simulation_result :=
  let baseline_durations := map get_duration tasks in
  trials baseline_start uncertainty baseline_durations
         (Z.to_nat num_iterations) (mkResult [] []).




End Simulator.

(** ** Strings and dictionaries *)

(** [str.lower()] on the ASCII range; bytes outside A-Z are kept.  Of the
    characters beyond ASCII only U+212A and U+0130 have a lower case with
    an ASCII letter, k and i followed by U+0307: neither yields a spelling
    that [convert_level_to_score] knows. *)
Definition lower_ascii (c : ascii) : ascii :=
  let n := nat_of_ascii c in
  if (65 <=? n)%nat && (n <=? 90)%nat then ascii_of_nat (n + 32) else c.

Fixpoint lower (s : string) : string :=
  match s with
  | EmptyString => EmptyString
  | String c r => String (lower_ascii c) (lower r)
  end.

(** [x in [a, b, ...]] on strings. *)
Definition str_in (x : string) (l : list string) : bool := existsb (String.eqb x) l.

(** A Python dictionary with string keys, in insertion order. *)
Definition dict (V : Type) : Type := list (string * V).

Fixpoint dict_get {V} (d : dict V) (k : string) : option V :=
  match d with
  | [] => None
  | (k', v) :: r => if String.eqb k' k then Some v else dict_get r k
  end.

(** [d.get(k, default)] *)
Definition dict_get_default {V} (d : dict V) (k : string) (default : V) : V :=
  match dict_get d k with Some v => v | None => default end.

(** [d[k] = v]: an existing key keeps its place, a new key goes last. *)
Fixpoint dict_set {V} (d : dict V) (k : string) (v : V) : dict V :=
  match d with
  | [] => [(k, v)]
  | (k', v') :: r =>
      if String.eqb k' k then (k, v) :: r else (k', v') :: dict_set r k v
  end.

(** [d[k]] *)
Definition dict_index {V} (d : dict V) (k : string) : M V :=
  match dict_get d k with Some v => ret v | None => raise KeyError end.

(** ** Level-to-score conversion *)

(** [convert_level_to_score(level)] *)
Definition convert_level_to_score (level : string) : Z :=
  let level_lower := lower level in
  if str_in level_lower ["high"; "h"]%string then 3%Z
  else if str_in level_lower ["medium"; "med"; "m"]%string then 2%Z
  else if str_in level_lower ["low"; "l"]%string then 1%Z
  else 2%Z.

(** ** Risks *)

(** A risk dictionary of the RAID log: every field is an optional string. *)
Definition risk : Type := dict string.

(** [calculate_risk_score(risk)] *)
Definition calculate_risk_score (r : risk) : Z :=
  let probability := convert_level_to_score (dict_get_default r "probability" "Medium") in
  let impact := convert_level_to_score (dict_get_default r "impact" "Medium") in
  (probability * impact)%Z.

(** ** Risk impact scorer *)

Definition category_impact : dict (dict Q) :=
  [ ("technical", [("Schedule", 7#10); ("Budget", 5#10); ("Scope", 3#10);
                   ("Quality", 8#10); ("Resources", 4#10)]);
    ("schedule",  [("Schedule", 9#10); ("Budget", 6#10); ("Scope", 3#10);
                   ("Quality", 4#10); ("Resources", 5#10)]);
    ("cost",      [("Schedule", 4#10); ("Budget", 9#10); ("Scope", 5#10);
                   ("Quality", 3#10); ("Resources", 6#10)]);
    ("resource",  [("Schedule", 7#10); ("Budget", 5#10); ("Scope", 3#10);
                   ("Quality", 6#10); ("Resources", 9#10)]);
    ("scope",     [("Schedule", 6#10); ("Budget", 7#10); ("Scope", 9#10);
                   ("Quality", 5#10); ("Resources", 4#10)]);
    ("quality",   [("Schedule", 5#10); ("Budget", 4#10); ("Scope", 3#10);
                   ("Quality", 9#10); ("Resources", 4#10)]);
    ("external",  [("Schedule", 7#10); ("Budget", 6#10); ("Scope", 5#10);
                   ("Quality", 4#10); ("Resources", 6#10)]) ]%string.

Definition default_impact : dict Q :=
  [("Schedule", 6#10); ("Budget", 6#10); ("Scope", 5#10);
   ("Quality", 5#10); ("Resources", 5#10)]%string.

(** The multiplier [0.8 + 0.4 * random.random()]. *)
Definition jitter : M Q :=
  u <- random ;; ret ((8#10) + (4#10) * u).

(** [generate_impact_level(risk_category, objective, base_score)] *)
Definition generate_impact_level (risk_category objective : string) (base_score : Z)
  : M string :=
  let category_impacts := dict_get_default category_impact risk_category default_impact in
  let impact_prob := dict_get_default category_impacts objective (5#10) in
  j <- jitter ;;
  let adjusted_prob := impact_prob * (inject_Z base_score / (45#10)) * j in
  if negb (Qle_bool adjusted_prob (66#100)) then ret "High"%string
  else if negb (Qle_bool adjusted_prob (33#100)) then ret "Medium"%string
  else ret "Low"%string.

Record risk_score : Type := mkRiskScore {
  rs_risk : string;
  rs_objectives : list string;
  rs_scores : list Q
}.

Record combined : Type := mkCombined {
  ci_objectives : list string;
  ci_impact_scores : list Q
}.

Record impact_results : Type := mkImpact {
  impact_matrix : list (dict string);
  risk_scores : list risk_score;
  combined_impact : combined
}.

(** The loop over the objectives for one risk: fills the risk's matrix row
    and appends one radar score per objective. *)
Fixpoint objective_loop (r : risk) (base_score : Z) (objectives : list string)
         (impact_row : dict string) (objective_scores : list Q)
  : M (dict string * list Q) :=
  match objectives with
  | [] => ret (impact_row, objective_scores)
  | objective :: rest =>
      let risk_category := lower (dict_get_default r "category" EmptyString) in
      impact_level <- generate_impact_level risk_category objective base_score ;;
      let impact_row := dict_set impact_row objective impact_level in
      let impact_score := convert_level_to_score (lower impact_level) in
      objective_loop r base_score rest impact_row
                     (objective_scores ++ [inject_Z (impact_score * 10) / 3])
  end.

(** The loop over the risks. *)
Fixpoint risk_loop (risks : list risk) (objectives : list string)
         (matrix : list (dict string)) (scores : list risk_score)
  : M (list (dict string) * list risk_score) :=
  match risks with
  | [] => ret (matrix, scores)
  | r :: rest =>
      let risk_name := dict_get_default r "description" "Unknown Risk" in
      let severity := lower (dict_get_default r "severity" "Medium") in
      let probability := lower (dict_get_default r "probability" "Medium") in
      let severity_score := convert_level_to_score severity in
      let probability_score := convert_level_to_score probability in
      let base_score := (severity_score * probability_score)%Z in
      row_scores <- objective_loop r base_score objectives [("Risk"%string, risk_name)] [] ;;
      let '(impact_row, objective_scores) := row_scores in
      risk_loop rest objectives (matrix ++ [impact_row])
                (scores ++ [mkRiskScore risk_name objectives objective_scores])
  end.

(** [[row[objective].lower() for row in impact_matrix]] *)
Fixpoint column_levels (matrix : list (dict string)) (objective : string)
  : M (list string) :=
  match matrix with
  | [] => ret []
  | row :: rest =>
      level <- dict_index row objective ;;
      levels <- column_levels rest objective ;;
      ret (lower level :: levels)
  end.

Definition py_sum_int (xs : list Z) : Z := fold_left Z.add xs 0%Z.

(** The loop computing the combined impact per objective. *)
Fixpoint combined_loop (matrix : list (dict string)) (objectives : list string)
         (acc : list Q) : M (list Q) :=
  match objectives with
  | [] => ret acc
  | objective :: rest =>
      impact_levels <- column_levels matrix objective ;;
      let impact_scores := map convert_level_to_score impact_levels in
      mean <- py_div (inject_Z (py_sum_int impact_scores))
                     (inject_Z (Z.of_nat (List.length impact_scores))) ;;
      let combined_score := mean * 10 / 3 in
      combined_loop matrix rest (acc ++ [combined_score])
  end.

(** [analyze_risk_impacts(risks, objectives)] *)
Definition analyze_risk_impacts (risks : list risk) (objectives : list string)
  : M impact_results :=
  ms <- risk_loop risks objectives [] [] ;;
  let '(matrix, scores) := ms in
  impact_scores <- combined_loop matrix objectives [] ;;
  ret (mkImpact matrix scores (mkCombined objectives impact_scores)).

(** ** Sorting *)

Definition Qlt_bool (a b : Q) : bool := negb (Qle_bool b a).

(** A stable ascending sort on a numeric key; like Python's sort it compares
    keys with [<] only. *)
Fixpoint insert_by {A} (key : A -> Q) (x : A) (l : list A) : list A :=
  match l with
  | [] => [x]
  | y :: t => if Qlt_bool (key y) (key x) then y :: insert_by key x t else x :: y :: t
  end.

Fixpoint isort_by {A} (key : A -> Q) (l : list A) : list A :=
  match l with
  | [] => []
  | x :: t => insert_by key x (isort_by key t)
  end.

(** [l.sort(key=key, reverse=reverse)]: with [reverse] the list is reversed,
    sorted ascending and reversed again, as CPython does to keep the sort
    stable. *)
Definition list_sort {A} (key : A -> Q) (reverse : bool) (l : list A) : list A :=
  if reverse then rev (isort_by key (rev l)) else isort_by key l.

(** ** Mitigation strategy ranking *)

Record strategy_result : Type := mkStrategy {
  sr_strategy : string;
  sr_initial_score : Z;
  sr_new_score : Q;
  sr_reduction_percent : Q;
  sr_cost : Z;
  sr_cost_effectiveness : Q
}.

(** The loop over the strategies of [show_mitigation_strategies];
    [implementation_costs] is built in step with [strategies], so both are
    held as one list of pairs. *)
Fixpoint strategy_loop (selected_risk : risk) (initial_score : Z)
         (probability_reduction impact_reduction : Z)
         (candidates : list (string * Z)) (simulation_results : list strategy_result)
  : M (list strategy_result) :=
  match candidates with
  | [] => ret simulation_results
  | (strategy, cost) :: rest =>
      j1 <- jitter ;;
      let prob_effectiveness := (inject_Z probability_reduction / 100) * j1 in
      j2 <- jitter ;;
      let impact_effectiveness := (inject_Z impact_reduction / 100) * j2 in
      let new_prob :=
        inject_Z (convert_level_to_score (dict_get_default selected_risk "probability" "Medium"))
        * (1 - prob_effectiveness) in
      let new_impact :=
        inject_Z (convert_level_to_score (dict_get_default selected_risk "impact" "Medium"))
        * (1 - impact_effectiveness) in
      let new_score := new_prob * new_impact in
      q <- py_div (inject_Z initial_score - new_score) (inject_Z initial_score) ;;
      let reduction := q * 100 in
      cost_effectiveness <-
        (if (0 <? cost)%Z then py_div reduction (inject_Z cost / 1000) else ret 0) ;;
      strategy_loop selected_risk initial_score probability_reduction impact_reduction rest
        (simulation_results ++
           [mkStrategy strategy initial_score new_score reduction cost cost_effectiveness])
  end.

(** The list [simulation_results] as the loop leaves it, before sorting. *)
Definition mitigation_results (selected_risk : risk)
           (probability_reduction impact_reduction : Z) (candidates : list (string * Z))
  : M (list strategy_result) :=
  let initial_score := calculate_risk_score selected_risk in
  strategy_loop selected_risk initial_score probability_reduction impact_reduction
                candidates [].

(** The body of the "Simulate Mitigation Effectiveness" button: the loop,
    then [simulation_results.sort(key=cost_effectiveness, reverse=True)]. *)
Definition rank_mitigation_strategies (selected_risk : risk)
           (probability_reduction impact_reduction : Z) (candidates : list (string * Z))
  : M (list strategy_result) :=
  simulation_results <-
    mitigation_results selected_risk probability_reduction impact_reduction candidates ;;
  ret (list_sort sr_cost_effectiveness true simulation_results).

(** ** Confidence levels *)

(** numpy's [_lerp]. *)
Definition lerp (a b t : Q) : Q := a + (b - a) * t.

(** The linear method on a sorted array: the two neighbours of the virtual
    index, the upper one clipped to the last position, and the fractional
    part as weight. *)
Definition take_linear (arr : list Q) (virtual_index : Q) : Q :=
  let previous := Z.to_nat (Qfloor virtual_index) in
  let next := Nat.min (previous + 1) (List.length arr - 1) in
  let gamma := virtual_index - inject_Z (Qfloor virtual_index) in
  lerp (nth previous arr 0) (nth next arr 0) gamma.

(** [np.percentile(a, q)] with numpy's default linear interpolation.  For an
    empty array numpy gives no number; that case is [IndexError] here. *)
Definition np_percentile (a : list Q) (q : Q) : M Q :=
  if negb (Qle_bool 0 q && Qle_bool q 100) then raise ValueError
  else match a with
       | [] => raise IndexError
       | _ :: _ =>
           let arr := isort_by (fun x => x) a in
           let n := List.length arr in
           let virtual_index := inject_Z (Z.of_nat (n - 1)) * (q / 100) in
           ret (take_linear arr virtual_index)
       end.

Definition confidence_percentiles : dict Q :=
  [("50%", 50); ("80%", 80); ("90%", 90); ("95%", 95)].

(** The loop filling [confidence_results] with the days of every selected
    confidence level, in the order of [confidence_percentiles]. *)
Fixpoint confidence_loop (confidence_levels : list string) (sim_durations : list Q)
         (table : dict Q) (confidence_results : dict Q) : M (dict Q) :=
  match table with
  | [] => ret confidence_results
  | (level, percentile) :: rest =>
      if str_in level confidence_levels
      then days_percentile <- np_percentile sim_durations percentile ;;
           confidence_loop confidence_levels sim_durations rest
                           (dict_set confidence_results level days_percentile)
      else confidence_loop confidence_levels sim_durations rest confidence_results
  end.

(** ** The rest of the simulation views *)

(** [min(xs)] and [max(xs)]: the first smallest and the first largest
    element; [ValueError] on an empty sequence. *)
Definition py_min (xs : list Q) : M Q :=
  match xs with
  | [] => raise ValueError
  | x :: r => ret (fold_left (fun m y => if Qlt_bool y m then y else m) r x)
  end.

Definition py_max (xs : list Q) : M Q :=
  match xs with
  | [] => raise ValueError
  | x :: r => ret (fold_left (fun m y => if Qlt_bool m y then y else m) r x)
  end.

(** The date of a confidence level in [show_monte_carlo_simulation]:
    [min_date + timedelta(days=days_percentile - min(durations))].
    [min_date] comes out of a pandas column; it is held here as a
    [datetime], and the narrower range of pandas' [Timestamp] is left to the
    statements. *)
Definition date_percentile (min_date : datetime) (sim_durations : list Q)
           (days_percentile : Q) : M datetime :=
  shortest <- py_min sim_durations ;;
  delta <- timedelta_days (days_percentile - shortest) ;;
  datetime_add min_date delta.

(** The cumulative distribution chart of [show_monte_carlo_simulation]:
    [sorted(durations)] against [i / len(durations)] for i = 1 .. len. *)
Definition py_sorted (xs : list Q) : list Q := list_sort (fun x => x) false xs.

Fixpoint cumulative_loop (n : nat) (indices : list nat) : M (list Q) :=
  match indices with
  | [] => ret []
  | i :: rest =>
      p <- py_div (inject_Z (Z.of_nat i)) (inject_Z (Z.of_nat n)) ;;
      ps <- cumulative_loop n rest ;;
      ret (p :: ps)
  end.

Definition cumulative_prob (sorted_durations : list Q) : M (list Q) :=
  let n := List.length sorted_durations in
  cumulative_loop n (seq 1 n).

(** The bar colours and the high-impact objectives of
    [show_risk_impact_analysis]. *)
Definition marker_color (score : Q) : string :=
  if Qlt_bool score (333 # 100) then "#4CAF50"
  else if Qlt_bool score (667 # 100) then "#FF9800"
  else "#F44336".

Definition high_impact_objs (c : combined) : list string :=
  map fst (filter (fun os => Qle_bool (667 # 100) (snd os))
                  (combine (ci_objectives c) (ci_impact_scores c))).

(** The f-string ["Risk {i+1}"]. *)
Definition risk_placeholder (i : nat) : string :=
  "Risk " ++ NilZero.string_of_uint (Nat.to_uint (i + 1)).

(** [[risk.get('description', f"Risk {i+1}") for i, risk in enumerate(risks)]] *)
Fixpoint risk_labels_from (i : nat) (risks : list risk) : list string :=
  match risks with
  | [] => []
  | r :: rest =>
      dict_get_default r "description" (risk_placeholder i) :: risk_labels_from (S i) rest
  end.

Definition risk_labels (risks : list risk) : list string := risk_labels_from 0 risks.

Inductive impact_outcome : Type :=
  | ImpactWarned (message : string)
  | Analysed (impact_results : impact_results).

(** [show_risk_impact_analysis] up to the call of the scorer;
    [selected_risks] and [selected_objectives] are what the two multiselect
    widgets return. *)
Definition show_risk_impact_analysis (risks : list risk)
           (selected_risks selected_objectives : list string) : M impact_outcome :=
  match risks with
  | [] => ret (ImpactWarned "No risks found in the project. Please add risks to the RAID log first.")
  | _ :: _ =>
      let selected_risks :=
        match selected_risks with
        | [] => risk_labels risks
        | _ :: _ => selected_risks
        end in
      let filtered_risks :=
        filter (fun r => str_in (dict_get_default r "description" EmptyString) selected_risks)
               risks in
      impact_results <- analyze_risk_impacts filtered_risks selected_objectives ;;
      ret (Analysed impact_results)
  end.

(** ** Alternative mitigation strategies *)

Definition generic_strategies : list string :=
  ["Accept the risk and monitor closely";
   "Develop contingency plan to implement if risk occurs";
   "Transfer risk to third party or insurance"].

Definition category_strategies : dict (list string) :=
  [ ("technical", ["Conduct technical proof of concept";
                   "Implement more rigorous testing procedures";
                   "Bring in technical expert consultant"]);
    ("schedule",  ["Add buffer time to critical path activities";
                   "Implement fast-tracking for critical activities";
                   "Add additional resources to key activities"]);
    ("cost",      ["Establish cost contingency reserve";
                   "Implement stricter cost control measures";
                   "Identify alternative lower-cost approaches"]);
    ("resource",  ["Cross-train team members for key roles";
                   "Identify and onboard backup resources";
                   "Redistribute workload across the team"]);
    ("scope",     ["Implement stricter change control process";
                   "Clarify scope boundaries with stakeholders";
                   "Prioritize requirements to identify potential scope reduction"]);
    ("quality",   ["Enhance quality assurance processes";
                   "Implement additional quality control checkpoints";
                   "Increase testing coverage and depth"]);
    ("external",  ["Develop partnerships with alternative vendors";
                   "Establish contractual safeguards";
                   "Develop influence strategies for external stakeholders"]) ].

(** A string is true when it is not empty. *)
Definition str_truthy (s : string) : bool :=
  match s with EmptyString => false | String _ _ => true end.

(** [dict.fromkeys(keys)]: one entry per distinct key, in order of first
    appearance. *)
Definition dict_fromkeys (keys : list string) : dict unit :=
  fold_left (fun d k => dict_set d k tt) keys [].

(** [list(d)]: the keys in insertion order. *)
Definition dict_keys {V} (d : dict V) : list string := map fst d.

(** [generate_alternative_strategies(risk)] *)
Definition generate_alternative_strategies (r : risk) : list string :=
  let risk_category := lower (dict_get_default r "category" EmptyString) in
  let specific_strategies := dict_get_default category_strategies risk_category [] in
  let current_mitigation := dict_get_default r "mitigation" EmptyString in
  let strategies := if str_truthy current_mitigation then [current_mitigation] else [] in
  let strategies := strategies ++ specific_strategies in
  let strategies := strategies ++ generic_strategies in
  dict_keys (dict_fromkeys (filter str_truthy strategies)).

(** ** The recommendation of the mitigation view *)

(** After the ranking: [max_ce] is the largest cost-effectiveness,
    [max_ce_result] the first result that has it ([None] stands for the
    [StopIteration] of [next]), [best_strategy] is [simulation_results[0]]. *)
Definition recommend (simulation_results : list strategy_result)
  : M (Q * option strategy_result * strategy_result) :=
  max_ce <- py_max (map sr_cost_effectiveness simulation_results) ;;
  let max_ce_result :=
    find (fun result => Qeq_bool (sr_cost_effectiveness result) max_ce) simulation_results in
  match simulation_results with
  | [] => raise IndexError
  | best_strategy :: _ => ret (max_ce, max_ce_result, best_strategy)
  end.

(** ** The mitigation view: risk selection and the strategies text *)

(** [next((r for r in risks if r.get('description', '') == selected), None)]
    followed by [if not selected_risk]: [None] is the "Selected risk not
    found" error, which an empty dictionary triggers as well. *)
Definition find_selected_risk (risks : list risk) (selected_risk_desc : string)
  : option risk :=
  match find (fun r => String.eqb (dict_get_default r "description" EmptyString)
                                  selected_risk_desc) risks with
  | Some [] => None
  | Some (kv :: r) => Some (kv :: r)
  | None => None
  end.

Definition newline : ascii := ascii_of_nat 10.

(** [text.split("\n")] *)
Fixpoint split_newline (s : string) : list string :=
  match s with
  | EmptyString => [EmptyString]
  | String c r =>
      if Ascii.eqb c newline then EmptyString :: split_newline r
      else match split_newline r with
           | [] => [String c EmptyString]
           | h :: t => String c h :: t
           end
  end.

(** ["\n".join(l)] *)
Fixpoint join_newline (l : list string) : string :=
  match l with
  | [] => EmptyString
  | [x] => x
  | x :: rest => x ++ String newline (join_newline rest)
  end.

(** The white space of [str.strip()], by the bytes of its UTF-8 encoding:
    U+0009 to U+000D, U+001C to U+0020; *)
Definition is_space (c : ascii) : bool :=
  let n := nat_of_ascii c in
  ((9 <=? n)%nat && (n <=? 13)%nat) || ((28 <=? n)%nat && (n <=? 32)%nat).

(** U+0085 and U+00A0; *)
Definition is_space2 (c1 c2 : ascii) : bool :=
  let '(a, b) := (nat_of_ascii c1, nat_of_ascii c2) in
  (a =? 194)%nat && ((b =? 133)%nat || (b =? 160)%nat).

(** U+1680, U+2000 to U+200A, U+2028, U+2029, U+202F, U+205F and U+3000. *)
Definition is_space3 (c1 c2 c3 : ascii) : bool :=
  let '(a, b, c) := (nat_of_ascii c1, nat_of_ascii c2, nat_of_ascii c3) in
  ((a =? 225)%nat && (b =? 154)%nat && (c =? 128)%nat)
  || ((a =? 226)%nat && (b =? 128)%nat
      && (((128 <=? c)%nat && (c <=? 138)%nat)
          || (c =? 168)%nat || (c =? 169)%nat || (c =? 175)%nat))
  || ((a =? 226)%nat && (b =? 129)%nat && (c =? 159)%nat)
  || ((a =? 227)%nat && (b =? 128)%nat && (c =? 128)%nat).

(** Dropping the white space at the front of a string; with [backwards]
    the string is read from its end, each character's bytes last to
    first. *)
Fixpoint drop_spaces (backwards : bool) (s : string) : string :=
  match s with
  | EmptyString => s
  | String c1 r1 =>
      if is_space c1 then drop_spaces backwards r1
      else match r1 with
           | EmptyString => s
           | String c2 r2 =>
               if (if backwards then is_space2 c2 c1 else is_space2 c1 c2)
               then drop_spaces backwards r2
               else match r2 with
                    | EmptyString => s
                    | String c3 r3 =>
                        if (if backwards then is_space3 c3 c2 c1 else is_space3 c1 c2 c3)
                        then drop_spaces backwards r3
                        else s
                    end
           end
  end.

(** [s.lstrip()] *)
Definition lstrip (s : string) : string := drop_spaces false s.

Definition reverse_string (s : string) : string :=
  string_of_list_ascii (rev (list_ascii_of_string s)).

(** [s.rstrip()] *)
Definition rstrip (s : string) : string :=
  reverse_string (drop_spaces true (reverse_string s)).

(** [s.strip()] *)
Definition strip (s : string) : string := rstrip (lstrip s).

(** [[s.strip() for s in strategies_text.split("\n") if s.strip()]] *)
Definition parse_strategies (strategies_text : string) : list string :=
  map strip (filter (fun s => str_truthy (strip s)) (split_newline strategies_text)).

(** ** Vocabulary of the statements *)

(** The sum of the input task durations, written independently of the
    simulator's own accumulation. *)
Definition sum_of_durations (tasks : list task) : Q :=
  fold_right (fun t acc => get_duration t + acc) 0 tasks.

(** Python can represent the date [d] days after [baseline_start]: the
    time delta has at most 999999999 days and the date lies within the
    years 1 to 9999. *)
Definition representableb (baseline_start : datetime) (d : Q) : bool :=
  (Z.abs (days_to_us d / us_per_day) <=? max_delta_days)%Z
  && in_range (dt_us baseline_start + days_to_us d).

Definition representable (baseline_start : datetime) (d : Q) : Prop :=
  representableb baseline_start d = true.

(** The date [c] lies [d] days after [baseline_start], to the microsecond:
    written with the numbers themselves, not with the simulator's date
    arithmetic. *)
Definition days_after (baseline_start : datetime) (d : Q) (c : datetime) : Prop :=
  Qabs (inject_Z (dt_us c - dt_us baseline_start) - d * 86400000000) <= 1.

(** The proleptic Gregorian calendar of CPython's [datetime]: 0001-01-01 is
    day 1. *)
Definition is_leap (year : Z) : bool :=
  ((year mod 4 =? 0) && (negb (year mod 100 =? 0) || (year mod 400 =? 0)))%Z.

Definition days_before_year (year : Z) : Z :=
  let y := (year - 1)%Z in (y * 365 + y / 4 - y / 100 + y / 400)%Z.

Definition days_before_month (year month : Z) : Z :=
  (nth (Z.to_nat month) [0; 0; 31; 59; 90; 120; 151; 181; 212; 243; 273; 304; 334] 0
   + if (2 <? month) && is_leap year then 1 else 0)%Z.

Definition ymd2ord (year month day : Z) : Z :=
  (days_before_year year + days_before_month year month + day)%Z.

(** Midnight of a calendar day, in microseconds since 0001-01-01 00:00. *)
Definition midnight (year month day : Z) : Z :=
  ((ymd2ord year month day - 1) * us_per_day)%Z.

(** The anchor of the specification's scenario, 2025-01-01. *)
Definition jan_1_2025 : datetime := mkDatetime (midnight 2025 1 1) eq_refl.

(** The microsecond counts a pandas [Timestamp] can hold: 64-bit
    nanoseconds around 1970-01-01, from 1677-09-21 to 2262-04-11. *)
Definition timestamp_holds (us : Z) : bool :=
  ((midnight 1970 1 1 - 9223372036854775 <=? us)
   && (us <=? midnight 1970 1 1 + 9223372036854775))%Z.

(** A computation fails with exception [e] from generator state [g]. *)
Definition fails_with {A} (e : exn) (m : M A) (g : rng) : Prop := fst (m g) = Err e.

(** A generator and a square root to run the model on concrete inputs. *)
Definition sample_rng : rng := mkRng (fun i => if Nat.even i then 0 else 99 # 100) 0.

Definition sample_sqrt (x : Q) : Q := x.

Definition tasks_10_20_5 : list task :=
  [mkTask (Some 10) None; mkTask (Some 20) None; mkTask (Some 5) None].

(** Equality of strings up to case. *)
Definition eq_nocase (a b : string) : bool := String.eqb (lower a) (lower b).

(** The severity and probability scores as step 1 of the impact scorer
    reads them. *)
Definition severity_score (r : risk) : Z :=
  convert_level_to_score (lower (dict_get_default r "severity" "Medium")).

Definition probability_score (r : risk) : Z :=
  convert_level_to_score (lower (dict_get_default r "probability" "Medium")).

(** The score of the [impact] field, which the mitigation ranking reads. *)
Definition impact_score_of (r : risk) : Z :=
  convert_level_to_score (dict_get_default r "impact" "Medium").

Definition risk_high_high_low : risk :=
  [("description", "Vendor delay"); ("severity", "High");
   ("probability", "High"); ("impact", "Low")].

(** Descending order of cost-effectiveness. *)
Definition ranked_desc (l : list strategy_result) : Prop :=
  StronglySorted (fun a b => sr_cost_effectiveness b <= sr_cost_effectiveness a) l.

(** The candidates whose cost-effectiveness equals [k], in list order. *)
Definition with_effectiveness (k : Q) (l : list strategy_result) : list strategy_result :=
  filter (fun s => Qeq_bool (sr_cost_effectiveness s) k) l.

(** The candidate a result was computed for. *)
Definition candidate_of (s : strategy_result) : string * Z := (sr_strategy s, sr_cost s).

(** Ascending order of a numeric key. *)
Definition ascending {A} (key : A -> Q) (l : list A) : Prop :=
  StronglySorted (fun a b => key a <= key b) l.

(** The three impact levels the scorer produces. *)
Definition is_level (l : string) : Prop := l = "High" \/ l = "Medium" \/ l = "Low".

(** The radar score of an impact level, as the objective loop computes it. *)
Definition radar_of_level (l : string) : Q :=
  inject_Z (convert_level_to_score (lower l) * 10) / 3.

(** Writing a sequence of (objective, level) pairs into a matrix row. *)
Definition set_levels (row : dict string) (kvs : list (string * string)) : dict string :=
  fold_left (fun d kv => dict_set d (fst kv) (snd kv)) kvs row.

(** A matrix row and a radar entry that come from the same pass over the
    objectives. *)
Definition same_pass (objectives : list string) (row : dict string) (rs : risk_score)
  : Prop :=
  rs_objectives rs = objectives
  /\ exists row0 levels,
       List.length levels = List.length objectives
       /\ Forall is_level levels
       /\ row = set_levels row0 (combine objectives levels)
       /\ rs_scores rs = map radar_of_level levels.

Definition risk_schedule_high : risk :=
  [("description", "Late delivery"); ("severity", "High");
   ("probability", "High"); ("category", "schedule")].

(** The name under which the scorer files a risk. *)
Definition risk_name (r : risk) : string :=
  dict_get_default r "description" "Unknown Risk".

(** The weight [generate_impact_level] looks up for a category and an
    objective. *)
Definition impact_weight (risk_category objective : string) : Q :=
  dict_get_default (dict_get_default category_impact risk_category default_impact)
                   objective (5 # 10).

(** A result of the strategy loop, written out: its two jitters are draws
    [i1] and [i2] of generator [g]. *)
Definition simulated_from (g : rng) (r : risk) (pr ir : Z) (s : strategy_result) : Prop :=
  exists i1 i2,
    let j1 := (8 # 10) + (4 # 10) * source g i1 in
    let j2 := (8 # 10) + (4 # 10) * source g i2 in
    let new_prob :=
      inject_Z (convert_level_to_score (dict_get_default r "probability" "Medium"))
      * (1 - inject_Z pr / 100 * j1) in
    let new_impact :=
      inject_Z (convert_level_to_score (dict_get_default r "impact" "Medium"))
      * (1 - inject_Z ir / 100 * j2) in
    sr_initial_score s = calculate_risk_score r
    /\ sr_new_score s = new_prob * new_impact
    /\ sr_reduction_percent s
       = (inject_Z (calculate_risk_score r) - sr_new_score s)
         / inject_Z (calculate_risk_score r) * 100
    /\ sr_cost_effectiveness s
       = if (0 <? sr_cost s)%Z
         then sr_reduction_percent s / (inject_Z (sr_cost s) / 1000)
         else 0.

(** The string of a sequence of bytes. *)
Definition utf8 (bytes : list nat) : string :=
  string_of_list_ascii (map ascii_of_nat bytes).

(** A line the text area gives back unchanged: not empty, no white space
    at either end, no line break inside. *)

Definition clean_line (s : string) : Prop :=
  s <> EmptyString /\ strip s = s /\ ~ In newline (list_ascii_of_string s).

(** * Properties *)

(** ** Generator state *)

Lemma advance_0 g : advance 0 g = g.
Proof. destruct g; reflexivity. Qed.

Lemma advance_advance j k g : advance j (advance k g) = advance (j + k) g.
Proof. unfold advance; simpl. f_equal. lia. Qed.

Lemma rng_ok_advance k g : rng_ok g -> rng_ok (advance k g).
Proof. intros H i. exact (H i). Qed.

Lemma random_run g : random g = (Ok (source g (cursor g)), advance 1 g).
Proof. reflexivity. Qed.

(** ** Sums and time deltas respect equality of rationals *)

Lemma fold_left_Qplus_compat xs ys a b :
  Forall2 Qeq xs ys -> a == b -> fold_left Qplus xs a == fold_left Qplus ys b.
Proof.
  intros H. revert a b. induction H as [|x y xs ys Hxy _ IH]; intros a b Hab; simpl.
  - exact Hab.
  - apply IH. rewrite Hab, Hxy. reflexivity.
Qed.

Lemma py_sum_compat xs ys : Forall2 Qeq xs ys -> py_sum xs == py_sum ys.
Proof. intros H. apply fold_left_Qplus_compat; [exact H | reflexivity]. Qed.

Lemma fold_left_Qplus_shift xs a : fold_left Qplus xs a == a + fold_left Qplus xs 0.
Proof.
  revert a. induction xs as [|x xs IH]; intros a; simpl.
  - ring.
  - rewrite (IH (a + x)), (IH (0 + x)). ring.
Qed.

Lemma py_sum_cons x xs : py_sum (x :: xs) == x + py_sum xs.
Proof. unfold py_sum; simpl. rewrite fold_left_Qplus_shift. ring. Qed.

Lemma round_half_even_compat x y : x == y -> round_half_even x = round_half_even y.
Proof.
  intros H. unfold round_half_even.
  rewrite (Qfloor_comp _ _ H).
  assert (E : x - inject_Z (Qfloor y) == y - inject_Z (Qfloor y)) by (rewrite H; reflexivity).
  rewrite (Qcompare_comp _ _ E _ _ (Qeq_refl (1 # 2))). reflexivity.
Qed.

Lemma days_to_us_compat x y : x == y -> days_to_us x = days_to_us y.
Proof.
  intros H. unfold days_to_us. apply round_half_even_compat. rewrite H. reflexivity.
Qed.

Lemma days_to_us_0 : days_to_us 0 = 0%Z.
Proof. reflexivity. Qed.

(** The floor of [x] and what is left of it. *)
Lemma floor_and_rest x :
  inject_Z (Qfloor x) <= x /\ x < inject_Z (Qfloor x) + 1.
Proof.
  split; [apply Qfloor_le|].
  pose proof (Qlt_floor x) as H. rewrite inject_Z_plus in H. exact H.
Qed.

(** Rounding picks the floor or the integer above it, by the rest. *)
Lemma round_half_even_cases x :
  (round_half_even x = Qfloor x /\ x - inject_Z (Qfloor x) <= 1 # 2)
  \/ (round_half_even x = (Qfloor x + 1)%Z /\ 1 # 2 <= x - inject_Z (Qfloor x)).
Proof.
  unfold round_half_even.
  destruct (Qcompare (x - inject_Z (Qfloor x)) (1 # 2)) eqn:E.
  - apply Qeq_alt in E.
    destruct (Z.even (Qfloor x)); [left | right]; (split; [reflexivity | lra]).
  - apply Qlt_alt in E. left. split; [reflexivity | lra].
  - apply Qgt_alt in E. right. split; [reflexivity | lra].
Qed.

(** The rounded value is within half a unit of the number. *)
Lemma round_half_even_near x : Qabs (inject_Z (round_half_even x) - x) <= 1 # 2.
Proof.
  apply Qabs_Qle_condition. destruct (floor_and_rest x) as [Hlo Hhi].
  destruct (round_half_even_cases x) as [[-> H] | [-> H]].
  - split; lra.
  - rewrite inject_Z_plus. change (inject_Z 1) with 1. split; lra.
Qed.

Lemma round_half_even_monotone x y : x <= y -> (round_half_even x <= round_half_even y)%Z.
Proof.
  intros Hxy. pose proof (Qfloor_resp_le _ _ Hxy) as Hf.
  destruct (Z.eq_dec (Qfloor x) (Qfloor y)) as [E | NE].
  - unfold round_half_even. rewrite <- E.
    destruct (Qcompare (x - inject_Z (Qfloor x)) (1 # 2)) eqn:Ex;
      destruct (Qcompare (y - inject_Z (Qfloor x)) (1 # 2)) eqn:Ey;
      try (destruct (Z.even (Qfloor x))); try lia; exfalso;
      repeat match goal with
             | H : Qcompare _ _ = Eq |- _ => apply Qeq_alt in H
             | H : Qcompare _ _ = Lt |- _ => apply Qlt_alt in H
             | H : Qcompare _ _ = Gt |- _ => apply Qgt_alt in H
             end; lra.
  - destruct (round_half_even_cases x) as [[-> _] | [-> _]];
      destruct (round_half_even_cases y) as [[-> _] | [-> _]]; lia.
Qed.

(** ** Dates *)

(** The last day of year 9999 is the last day Python counts, and 35 days
    after 2025-01-01 is 2025-02-05. *)
Example calendar_days :
  ymd2ord 1 1 1 = 1%Z /\ ymd2ord 9999 12 31 = max_ordinal
  /\ (midnight 2025 1 1 + 35 * us_per_day = midnight 2025 2 5)%Z.
Proof. repeat split. Qed.

Lemma datetime_eq (a b : datetime) : dt_us a = dt_us b -> a = b.
Proof.
  destruct a as [x Hx], b as [y Hy]. simpl. intros E. subst y.
  f_equal. apply UIP_dec. apply bool_dec.
Qed.

Lemma datetime_at_in_range us :
  in_range us = true -> exists c, datetime_at us = Some c /\ dt_us c = us.
Proof.
  intros H. unfold datetime_at.
  destruct (bool_dec (in_range us) true) as [ok | no]; [|contradiction].
  eexists. split; reflexivity.
Qed.

Lemma datetime_at_out_of_range us : in_range us <> true -> datetime_at us = None.
Proof.
  intros H. unfold datetime_at.
  destruct (bool_dec (in_range us) true) as [ok | no]; [contradiction | reflexivity].
Qed.

Lemma datetime_add_0 t g : datetime_add t 0%Z g = (Ok t, g).
Proof.
  unfold datetime_add.
  destruct (datetime_at_in_range (dt_us t + 0)) as [c [Hc Hus]].
  - rewrite Z.add_0_r. apply dt_ok.
  - rewrite Hc. unfold ret. do 2 f_equal. apply datetime_eq. lia.
Qed.

Lemma representableb_compat start x y :
  x == y -> representableb start x = representableb start y.
Proof.
  intros H. unfold representableb. rewrite (days_to_us_compat _ _ H). reflexivity.
Qed.

Lemma representable_0 start : representable start 0.
Proof.
  unfold representable, representableb. rewrite days_to_us_0, Z.add_0_r, dt_ok. reflexivity.
Qed.

(** A date that Python can represent is computed, whatever follows it. *)
Lemma plus_days_ok start d :
  representable start d ->
  exists c, dt_us c = (dt_us start + days_to_us d)%Z
    /\ forall B (k : datetime -> M B) g,
         (delta <- timedelta_days d ;; c' <- datetime_add start delta ;; k c') g = k c g.
Proof.
  unfold representable, representableb. intros H.
  apply andb_true_iff in H. destruct H as [Hd Hr].
  destruct (datetime_at_in_range _ Hr) as [c [Hc Hus]].
  exists c. split; [exact Hus|]. intros B k g.
  unfold bind, timedelta_days. rewrite Hd. unfold ret, datetime_add. rewrite Hc.
  reflexivity.
Qed.

(** A date that Python cannot represent stops the computation. *)
Lemma plus_days_overflow start d :
  ~ representable start d ->
  forall B (k : datetime -> M B) g,
    (delta <- timedelta_days d ;; c' <- datetime_add start delta ;; k c') g
    = (Err OverflowError, g).
Proof.
  unfold representable, representableb. intros H B k g.
  unfold bind, timedelta_days.
  destruct (Z.abs (days_to_us d / us_per_day) <=? max_delta_days)%Z; [|reflexivity].
  unfold ret, datetime_add. rewrite datetime_at_out_of_range; [reflexivity|].
  intros E. apply H. rewrite E. reflexivity.
Qed.

(** The date computed for [d] days lies [d] days after the anchor. *)
Lemma days_after_computed start d c :
  dt_us c = (dt_us start + days_to_us d)%Z -> days_after start d c.
Proof.
  intros H. unfold days_after.
  replace (dt_us c - dt_us start)%Z with (days_to_us d) by lia.
  pose proof (round_half_even_near (d * inject_Z us_per_day)) as Hn.
  change (inject_Z us_per_day) with 86400000000 in Hn. fold (days_to_us d) in Hn.
  unfold days_to_us in *.
  change (inject_Z us_per_day) with 86400000000.
  eapply Qle_trans; [exact Hn | discriminate].
Qed.

(** What can be represented at both ends of an interval can be in between. *)
Lemma representable_between start a b d :
  a <= d -> d <= b -> representable start a -> representable start b ->
  representable start d.
Proof.
  unfold representable, representableb, in_range. intros Ha Hb Hra Hrb.
  assert (Hua : (days_to_us a <= days_to_us d)%Z).
  { apply round_half_even_monotone.
    apply Qmult_le_compat_r; [exact Ha | discriminate]. }
  assert (Hub : (days_to_us d <= days_to_us b)%Z).
  { apply round_half_even_monotone.
    apply Qmult_le_compat_r; [exact Hb | discriminate]. }
  assert (Hda : (days_to_us a / us_per_day <= days_to_us d / us_per_day)%Z)
    by (apply Z.div_le_mono; [reflexivity | exact Hua]).
  assert (Hdb : (days_to_us d / us_per_day <= days_to_us b / us_per_day)%Z)
    by (apply Z.div_le_mono; [reflexivity | exact Hub]).
  apply andb_true_iff in Hra, Hrb. destruct Hra as [Hra1 Hra2], Hrb as [Hrb1 Hrb2].
  apply andb_true_iff in Hra2, Hrb2.
  destruct Hra2 as [Hra2 _], Hrb2 as [_ Hrb2].
  apply Z.leb_le in Hra1, Hrb1, Hra2. apply Z.ltb_lt in Hrb2.
  apply andb_true_iff. split; [apply Z.leb_le; lia|].
  apply andb_true_iff. split; [apply Z.leb_le; lia | apply Z.ltb_lt; lia].
Qed.

(** ** The schedule simulator *)

Lemma py_sum_baseline tasks : py_sum (map get_duration tasks) == sum_of_durations tasks.
Proof.
  induction tasks as [|t ts IH]; simpl.
  - reflexivity.
  - rewrite py_sum_cons, IH. reflexivity.
Qed.

Section SimulatorFacts.

Variable sqrtQ : Q -> Q.

Lemma py_sqrt_nonneg x g : 0 <= x -> py_sqrt sqrtQ x g = (Ok (sqrtQ x), g).
Proof.
  intros H. unfold py_sqrt. apply Qle_bool_iff in H. rewrite H. reflexivity.
Qed.

(** A zero-width interval: the division raises, the handler answers [low]. *)
Lemma triangular_degenerate low high m g :
  high - low == 0 ->
  triangular sqrtQ low high (Some m) g = (Ok low, advance 1 g).
Proof.
  intros H. unfold triangular, bind. rewrite random_run.
  unfold try_except, py_div, bind. apply Qeq_bool_iff in H. rewrite H.
  reflexivity.
Qed.




(** With no uncertainty every sample is its baseline duration. *)
Lemma sample_durations_exact bs g :
  exists xs, sample_durations sqrtQ 0 bs g = (Ok xs, advance (List.length bs) g)
             /\ Forall2 Qeq xs bs.
Proof.
  revert g. induction bs as [|b bs IH]; intros g; simpl.
  - exists []. rewrite advance_0. split; [reflexivity | constructor].
  - unfold bind at 1. rewrite triangular_degenerate by ring.
    unfold bind at 1. destruct (IH (advance 1 g)) as [xs [Hxs Hall]].
    rewrite Hxs. exists (b * (1 - 0) :: xs). split.
    + unfold ret. rewrite advance_advance. do 2 f_equal. lia.
    + constructor; [ring | exact Hall].
Qed.


(** The outer loop.  Each trial consumes [step] draws and sums its samples
    to a total satisfying [P]; the loop goes on while Python can represent
    the completion dates and stops with [OverflowError] at the first one it
    cannot. *)
Lemma trials_run (I : rng -> Prop) (P : Q -> Prop) (step : nat) baseline_start u bs :
  (forall k g, I g -> I (advance k g)) ->
  (forall g, I g ->
     exists xs, sample_durations sqrtQ u bs g = (Ok xs, advance step g) /\ P (py_sum xs)) ->
  forall n acc g, I g ->
  (exists ds cs,
     trials sqrtQ baseline_start u bs n acc g
     = (Ok (mkResult (durations acc ++ ds) (completion_dates acc ++ cs)),
        advance (n * step) g)
     /\ List.length ds = n /\ Forall P ds
     /\ Forall2 (fun d c => representable baseline_start d
                            /\ dt_us c = (dt_us baseline_start + days_to_us d)%Z) ds cs)
  \/ (exists d g',
        trials sqrtQ baseline_start u bs n acc g = (Err OverflowError, g')
        /\ P d /\ ~ representable baseline_start d).
Proof.
  intros HI Hstep. induction n as [|n IH]; intros acc g Hg.
  - left. exists [], []. simpl. rewrite !app_nil_r, advance_0. destruct acc.
    repeat split; constructor.
  - destruct (Hstep g Hg) as [xs [Hxs HP]].
    assert (Hhead :
      trials sqrtQ baseline_start u bs (S n) acc g
      = (delta <- timedelta_days (py_sum xs) ;;
         c <- datetime_add baseline_start delta ;;
         trials sqrtQ baseline_start u bs n
                (mkResult (durations acc ++ [py_sum xs]) (completion_dates acc ++ [c])))
          (advance step g)).
    { simpl. unfold bind at 1. rewrite Hxs. reflexivity. }
    rewrite Hhead. clear Hhead.
    destruct (representableb baseline_start (py_sum xs)) eqn:E.
    + destruct (plus_days_ok baseline_start (py_sum xs) E) as [c [Hc Hk]].
      rewrite Hk.
      destruct (IH (mkResult (durations acc ++ [py_sum xs]) (completion_dates acc ++ [c]))
                   (advance step g) (HI step g Hg))
        as [[ds [cs [Hrun [Hlen [Hall Hdates]]]]] | [d [g' [Hrun [HPd Hno]]]]].
      * left. exists (py_sum xs :: ds), (c :: cs). rewrite Hrun. simpl.
        rewrite <- !app_assoc. simpl. rewrite advance_advance.
        replace (n * step + step)%nat with (step + n * step)%nat by lia.
        split; [reflexivity|]. split; [congruence|].
        split; constructor; try assumption. split; assumption.
      * right. exists d, g'. rewrite Hrun. repeat split; assumption.
    + right. exists (py_sum xs), (advance step g).
      rewrite plus_days_overflow by (unfold representable; congruence).
      split; [reflexivity|]. split; [exact HP|]. unfold representable. congruence.
Qed.

(** With no task there is nothing to sample: every trial is 0 days long and
    no draw is consumed. *)
Lemma trials_no_task baseline_start u n acc g :
  trials sqrtQ baseline_start u [] n acc g
  = (Ok (mkResult (durations acc ++ repeat 0 n)
                  (completion_dates acc ++ repeat baseline_start n)), g).
Proof.
  revert acc. induction n as [|n IH]; intros acc.
  - simpl. rewrite !app_nil_r. destruct acc; reflexivity.
  - destruct (plus_days_ok baseline_start 0 (representable_0 baseline_start))
      as [c [Hc Hk]].
    assert (E : c = baseline_start).
    { apply datetime_eq. rewrite Hc, days_to_us_0. lia. }
    subst c. simpl. unfold bind at 1. unfold ret at 1. cbv beta iota.
    change (py_sum []) with 0. rewrite Hk, IH. simpl.
    rewrite <- !app_assoc. reflexivity.
Qed.

End SimulatorFacts.

(** *** Samples lie between the bounds of their interval *)

Section TriangularBounds.

Variable sqrtQ : Q -> Q.

(** What [math.sqrt] guarantees on the unit interval. *)
Hypothesis sqrt_unit : forall x, 0 <= x -> x <= 1 -> 0 <= sqrtQ x /\ sqrtQ x <= 1.

Lemma mode_ratio_range low high m :
  low <= m -> m <= high -> ~ high - low == 0 ->
  0 <= (m - low) / (high - low) /\ (m - low) / (high - low) <= 1.
Proof.
  intros Hl Hh Hne.
  assert (Hpos : 0 < high - low).
  { destruct (Qlt_le_dec 0 (high - low)) as [H | H]; [exact H|].
    exfalso. apply Hne. lra. }
  split.
  - apply Qle_shift_div_l; [exact Hpos | lra].
  - apply Qle_shift_div_r; [exact Hpos | lra].
Qed.

(** A sample of [triangular] lies between [low] and [high] when the mode
    does. *)
Lemma triangular_within low high m g :
  low <= m -> m <= high -> rng_ok g ->
  exists v, triangular sqrtQ low high (Some m) g = (Ok v, advance 1 g)
            /\ low <= v /\ v <= high.
Proof.
  intros Hl Hh Hg. destruct (Hg (cursor g)) as [H0 H1].
  destruct (Qeq_bool (high - low) 0) eqn:E.
  - apply Qeq_bool_iff in E. rewrite (triangular_degenerate sqrtQ low high m g E).
    exists low. split; [reflexivity|]. lra.
  - assert (Hne : ~ high - low == 0).
    { intros H. apply Qeq_bool_iff in H. congruence. }
    destruct (mode_ratio_range low high m Hl Hh Hne) as [Hc0 Hc1].
    unfold triangular, bind. rewrite random_run.
    unfold try_except, py_div, bind. rewrite E. unfold ret. cbv beta iota.
    set (u := source g (cursor g)) in *. set (c := (m - low) / (high - low)) in *.
    destruct (Qle_bool u c) eqn:Euc; cbv beta iota.
    + apply Qle_bool_iff in Euc.
      assert (Hp0 : 0 <= u * c) by (apply Qmult_le_0_compat; lra).
      assert (Hp1 : u * c <= 1) by nra.
      destruct (sqrt_unit (u * c) Hp0 Hp1) as [Hs0 Hs1].
      rewrite py_sqrt_nonneg by exact Hp0.
      eexists. split; [reflexivity|]. split; nra.
    + assert (Hcu : c < u).
      { apply Qnot_le_lt. intros Hle. apply Qle_bool_iff in Hle. congruence. }
      assert (Hp0 : 0 <= (1 - u) * (1 - c)) by (apply Qmult_le_0_compat; lra).
      assert (Hp1 : (1 - u) * (1 - c) <= 1) by nra.
      destruct (sqrt_unit _ Hp0 Hp1) as [Hs0 Hs1].
      rewrite py_sqrt_nonneg by exact Hp0.
      eexists. split; [reflexivity|]. split; nra.
Qed.

Lemma sample_durations_within u bs g :
  0 <= u -> Forall (fun b => 0 <= b) bs -> rng_ok g ->
  exists xs,
    sample_durations sqrtQ u bs g = (Ok xs, advance (List.length bs) g)
    /\ py_sum bs * (1 - u) <= py_sum xs /\ py_sum xs <= py_sum bs * (1 + u).
Proof.
  intros Hu Hbs. revert g. induction Hbs as [|b bs Hb _ IH]; intros g Hg; simpl.
  - exists []. rewrite advance_0. split; [reflexivity|].
    change (py_sum []) with 0. lra.
  - unfold bind at 1.
    destruct (triangular_within (b * (1 - u)) (b * (1 + u)) b g) as [v [Hv [Hlo Hhi]]];
      [nra | nra | exact Hg |].
    rewrite Hv. unfold bind at 1.
    destruct (IH (advance 1 g) (rng_ok_advance 1 g Hg)) as [xs [Hxs [Hl Hh]]].
    rewrite Hxs. exists (v :: xs). split.
    + unfold ret. rewrite advance_advance. do 2 f_equal. lia.
    + rewrite !py_sum_cons. split; nra.
Qed.

End TriangularBounds.

(** ** Claims on the schedule simulator *)

Lemma sample_rng_ok : rng_ok sample_rng.
Proof.
  intros i. unfold sample_rng; simpl. destruct (Nat.even i); split; lra.
Qed.

(** C1, as the simulator is written: it validates nothing.  With an empty
    task list it returns a bundle of N trials, each 0 days long and dated
    at the anchor; with an iteration count below 1 it returns a bundle with
    no trial.  No [InvalidInput] is raised and no draw is consumed. *)
Theorem C1_simulator_validates_nothing sqrtQ baseline_start tasks u N g :
  tasks = [] \/ (N < 1)%Z ->
  exists r,
    run_monte_carlo_simulation sqrtQ baseline_start tasks u N g = (Ok r, g)
    /\ (tasks = [] ->
        durations r = repeat 0 (Z.to_nat N)
        /\ completion_dates r = repeat baseline_start (Z.to_nat N))
    /\ ((N < 1)%Z -> durations r = [] /\ completion_dates r = []).
Proof.
  intros [Ht | HN]; unfold run_monte_carlo_simulation.
  - subst tasks. simpl map. rewrite trials_no_task. simpl.
    eexists; split; [reflexivity|]. simpl. split.
    + intros _. split; reflexivity.
    + intros HN. replace (Z.to_nat N) with 0%nat by lia. split; reflexivity.
  - replace (Z.to_nat N) with 0%nat by lia. simpl.
    eexists; split; [reflexivity|]. simpl. split.
    + intros _. split; reflexivity.
    + intros _. split; reflexivity.
Qed.

Lemma C1_simulator_validates_nothing_witness :
  ([] = @nil task \/ (3 < 1)%Z)
  /\ exists r,
       run_monte_carlo_simulation sample_sqrt jan_1_2025 [] (1 # 5) 3 sample_rng
       = (Ok r, sample_rng)
       /\ ([] = @nil task ->
           durations r = repeat 0 (Z.to_nat 3)
           /\ completion_dates r = repeat jan_1_2025 (Z.to_nat 3))
       /\ ((3 < 1)%Z -> durations r = [] /\ completion_dates r = []).
Proof.
  split; [left; reflexivity|].
  apply (C1_simulator_validates_nothing sample_sqrt jan_1_2025 [] (1 # 5) 3 sample_rng).
  left; reflexivity.
Defined.

(** C1 as stated fails: on an empty task list, and on an iteration count
    of 0, the simulator returns a result bundle instead of failing with
    [InvalidInput]. *)
Lemma C1_counterexample :
  ~ fails_with InvalidInput
      (run_monte_carlo_simulation sample_sqrt jan_1_2025 [] (1 # 5) 3) sample_rng
  /\ fst (run_monte_carlo_simulation sample_sqrt jan_1_2025 [] (1 # 5) 3 sample_rng)
     = Ok (mkResult [0; 0; 0] [jan_1_2025; jan_1_2025; jan_1_2025])
  /\ ~ fails_with InvalidInput
         (run_monte_carlo_simulation sample_sqrt jan_1_2025 tasks_10_20_5 (1 # 5) 0)
         sample_rng
  /\ fst (run_monte_carlo_simulation sample_sqrt jan_1_2025 tasks_10_20_5 (1 # 5) 0
            sample_rng)
     = Ok (mkResult [] []).
Proof.
  unfold fails_with. repeat split; try reflexivity; vm_compute; discriminate.
Qed.

(** *** What a run of the simulator can do *)

(** A run either returns one total and one date per trial, each date being
    the anchor plus the rounded microseconds of its total, or stops with
    [OverflowError] at a total whose date Python cannot represent. *)
Lemma simulation_run sqrtQ (I : rng -> Prop) (P : Q -> Prop) baseline_start tasks u N g :
  (forall k g, I g -> I (advance k g)) ->
  (forall g, I g ->
     exists xs, sample_durations sqrtQ u (map get_duration tasks) g
                = (Ok xs, advance (List.length tasks) g)
                /\ P (py_sum xs)) ->
  I g ->
  (exists r g',
     run_monte_carlo_simulation sqrtQ baseline_start tasks u N g = (Ok r, g')
     /\ List.length (durations r) = Z.to_nat N
     /\ Forall P (durations r)
     /\ Forall2 (fun d c => representable baseline_start d
                            /\ dt_us c = (dt_us baseline_start + days_to_us d)%Z)
                (durations r) (completion_dates r))
  \/ (exists d g',
        run_monte_carlo_simulation sqrtQ baseline_start tasks u N g
        = (Err OverflowError, g')
        /\ P d /\ ~ representable baseline_start d).
Proof.
  intros HI Hstep Hg. unfold run_monte_carlo_simulation.
  destruct (trials_run sqrtQ I P (List.length tasks) baseline_start u
              (map get_duration tasks) HI Hstep (Z.to_nat N) (mkResult [] []) g Hg)
    as [[ds [cs [Hrun [Hlen [Hall Hdates]]]]] | [d [g' [Hrun [HPd Hno]]]]].
  - left. rewrite Hrun. simpl. do 2 eexists. split; [reflexivity|]. simpl.
    repeat split; assumption.
  - right. exists d, g'. repeat split; assumption.
Qed.




Lemma days_after_compat baseline_start x y c :
  x == y -> days_after baseline_start x c -> days_after baseline_start y c.
Proof. unfold days_after. intros E H. rewrite <- E. exact H. Qed.

(** With no uncertainty every trial totals the sum of the durations: the
    run returns when Python can represent the date that many days after
    the anchor, and raises [OverflowError] in its first trial otherwise. *)
Lemma zero_uncertainty_run sqrtQ baseline_start tasks N g :
  (representable baseline_start (sum_of_durations tasks) ->
   exists r g',
     run_monte_carlo_simulation sqrtQ baseline_start tasks 0 N g = (Ok r, g')
     /\ List.length (durations r) = Z.to_nat N
     /\ Forall (fun d => d == sum_of_durations tasks) (durations r)
     /\ List.length (completion_dates r) = Z.to_nat N
     /\ Forall (fun c => dt_us c
                         = (dt_us baseline_start + days_to_us (sum_of_durations tasks))%Z)
               (completion_dates r))
  /\ (~ representable baseline_start (sum_of_durations tasks) -> (1 <= N)%Z ->
      exists g',
        run_monte_carlo_simulation sqrtQ baseline_start tasks 0 N g
        = (Err OverflowError, g')).
Proof.
  assert (Hstep : forall g1 : rng, True ->
            exists xs, sample_durations sqrtQ 0 (map get_duration tasks) g1
                       = (Ok xs, advance (List.length tasks) g1)
                       /\ py_sum xs == sum_of_durations tasks).
  { intros g1 _.
    destruct (sample_durations_exact sqrtQ (map get_duration tasks) g1) as [xs [Hxs Heq]].
    rewrite length_map in Hxs. exists xs. split; [exact Hxs|].
    rewrite (py_sum_compat _ _ Heq). apply py_sum_baseline. }
  destruct (simulation_run sqrtQ (fun _ => True) (fun d => d == sum_of_durations tasks)
              baseline_start tasks 0 N g (fun _ _ _ => I) Hstep I)
    as [[r [g' [Hrun [Hlen [Hall Hdates]]]]] | [d [g' [Hrun [Hd Hno]]]]].
  - split.
    + intros _. exists r, g'. split; [exact Hrun|]. split; [exact Hlen|].
      split; [exact Hall|]. split.
      * rewrite <- Hlen. symmetry. eapply Forall2_length. exact Hdates.
      * clear Hrun Hlen. induction Hdates as [|d c ds cs [_ Hc] _ IH]; constructor.
        -- rewrite Hc. inversion Hall; subst.
           rewrite (days_to_us_compat d (sum_of_durations tasks)) by assumption.
           reflexivity.
        -- apply IH. inversion Hall; assumption.
    + intros Hno HN. exfalso.
      destruct Hdates as [|d c ds cs [Hrep _] _]; [simpl in Hlen; lia|].
      inversion Hall; subst. apply Hno. unfold representable in *.
      rewrite <- (representableb_compat baseline_start d) by assumption. exact Hrep.
  - split.
    + intros Hrep. exfalso. apply Hno. unfold representable in *.
      rewrite (representableb_compat baseline_start d (sum_of_durations tasks)) by exact Hd.
      exact Hrep.
    + intros _ _. exists g'. exact Hrun.
Qed.

(** C4, as the code has it: with uncertainty 0, for a non-empty task list
    and N >= 1, the run returns when Python can represent the date that lies
    the sum of the task durations after the anchor; then every one of the N
    trials totals that sum and is dated that many days after the anchor.
    Otherwise the run raises [OverflowError].  For durations [10, 20, 5] and
    N = 100, with an anchor at least 35 days before the end of year 9999,
    every trial reports 35 days and the anchor plus 35 days. *)
Theorem C4_zero_uncertainty_is_exact sqrtQ baseline_start tasks N g :
  tasks <> [] -> (1 <= N)%Z ->
  (representable baseline_start (sum_of_durations tasks) ->
   exists r g',
     run_monte_carlo_simulation sqrtQ baseline_start tasks 0 N g = (Ok r, g')
     /\ List.length (durations r) = Z.to_nat N
     /\ Forall (fun d => d == sum_of_durations tasks) (durations r)
     /\ List.length (completion_dates r) = Z.to_nat N
     /\ Forall (days_after baseline_start (sum_of_durations tasks)) (completion_dates r))
  /\ (~ representable baseline_start (sum_of_durations tasks) ->
      exists g',
        run_monte_carlo_simulation sqrtQ baseline_start tasks 0 N g
        = (Err OverflowError, g'))
  /\ ((dt_us baseline_start + 35 * 86400000000 < 3652059 * 86400000000)%Z ->
      exists r g',
        run_monte_carlo_simulation sqrtQ baseline_start tasks_10_20_5 0 100 g = (Ok r, g')
        /\ List.length (durations r) = 100%nat
        /\ Forall (fun d => d == 35) (durations r)
        /\ List.length (completion_dates r) = 100%nat
        /\ Forall (fun c => dt_us c = (dt_us baseline_start + 35 * 86400000000)%Z)
                  (completion_dates r)).
Proof.
  intros _ HN. split; [|split].
  - intros Hrep.
    destruct (proj1 (zero_uncertainty_run sqrtQ baseline_start tasks N g) Hrep)
      as [r [g' [Hrun [Hlen [Hall [Hlen' Hdates]]]]]].
    exists r, g'. repeat split; try assumption.
    apply Forall_impl with (2 := Hdates). intros c Hc.
    apply days_after_computed. exact Hc.
  - intros Hno.
    exact (proj2 (zero_uncertainty_run sqrtQ baseline_start tasks N g) Hno HN).
  - intros Hend.
    assert (Hrep : representable baseline_start (sum_of_durations tasks_10_20_5)).
    { unfold representable, representableb, in_range.
      change (days_to_us (sum_of_durations tasks_10_20_5)) with 3024000000000%Z.
      pose proof (dt_ok baseline_start) as Hok. unfold in_range in Hok.
      apply andb_true_iff in Hok. destruct Hok as [Hlo _]. apply Z.leb_le in Hlo.
      apply andb_true_iff. split; [reflexivity|].
      apply andb_true_iff. split; [apply Z.leb_le; lia | apply Z.ltb_lt].
      unfold max_ordinal, us_per_day. lia. }
    destruct (proj1 (zero_uncertainty_run sqrtQ baseline_start tasks_10_20_5 100 g) Hrep)
      as [r [g' [Hrun [Hlen [Hall [Hlen' Hdates]]]]]].
    exists r, g'. repeat split; try assumption.
Qed.

Lemma C4_zero_uncertainty_is_exact_witness :
  tasks_10_20_5 <> [] /\ (1 <= 100)%Z
  /\ representable jan_1_2025 (sum_of_durations tasks_10_20_5)
  /\ (dt_us jan_1_2025 + 35 * 86400000000 < 3652059 * 86400000000)%Z
  /\ (exists r g',
        run_monte_carlo_simulation sample_sqrt jan_1_2025 tasks_10_20_5 0 100 sample_rng
        = (Ok r, g')
        /\ List.length (durations r) = Z.to_nat 100
        /\ Forall (fun d => d == sum_of_durations tasks_10_20_5) (durations r)
        /\ List.length (completion_dates r) = Z.to_nat 100
        /\ Forall (days_after jan_1_2025 (sum_of_durations tasks_10_20_5))
                  (completion_dates r))
  /\ (exists r g',
        run_monte_carlo_simulation sample_sqrt jan_1_2025 tasks_10_20_5 0 100 sample_rng
        = (Ok r, g')
        /\ List.length (durations r) = 100%nat
        /\ Forall (fun d => d == 35) (durations r)
        /\ List.length (completion_dates r) = 100%nat
        /\ Forall (fun c => dt_us c = (dt_us jan_1_2025 + 35 * 86400000000)%Z)
                  (completion_dates r)).
Proof.
  assert (Hne : tasks_10_20_5 <> []) by discriminate.
  assert (HN : (1 <= 100)%Z) by lia.
  assert (Hrep : representable jan_1_2025 (sum_of_durations tasks_10_20_5))
    by reflexivity.
  assert (Hend : (dt_us jan_1_2025 + 35 * 86400000000 < 3652059 * 86400000000)%Z)
    by reflexivity.
  split; [exact Hne|]. split; [exact HN|]. split; [exact Hrep|]. split; [exact Hend|].
  split.
  - exact (proj1 (C4_zero_uncertainty_is_exact sample_sqrt jan_1_2025 tasks_10_20_5 100
                    sample_rng Hne HN) Hrep).
  - exact (proj2 (proj2 (C4_zero_uncertainty_is_exact sample_sqrt jan_1_2025
                           tasks_10_20_5 100 sample_rng Hne HN)) Hend).
Defined.

(** C4 as stated fails: one task of 4000000 days, run once from 2025-01-01
    with no uncertainty, yields no durations at all; the completion date
    lies beyond year 9999 and the run raises [OverflowError]. *)
Lemma C4_counterexample :
  [mkTask (Some 4000000) None] <> [] /\ (1 <= 1)%Z
  /\ run_monte_carlo_simulation sample_sqrt jan_1_2025 [mkTask (Some 4000000) None] 0 1
       sample_rng
     = (Err OverflowError, advance 1 sample_rng).
Proof.
  split; [discriminate|]. split; [lia|]. vm_compute. reflexivity.
Qed.

(** Within the band, a run returns or stops at a total of the band whose
    date Python cannot represent. *)
Lemma band_run sqrtQ baseline_start tasks u N g :
  (forall x, 0 <= x -> x <= 1 -> 0 <= sqrtQ x /\ sqrtQ x <= 1) ->
  Forall (fun t => 0 <= get_duration t) tasks -> 0 <= u -> rng_ok g ->
  (exists r g',
     run_monte_carlo_simulation sqrtQ baseline_start tasks u N g = (Ok r, g')
     /\ List.length (durations r) = Z.to_nat N
     /\ Forall (fun d => sum_of_durations tasks * (1 - u) <= d
                         /\ d <= sum_of_durations tasks * (1 + u))
               (durations r))
  \/ (exists d g',
        run_monte_carlo_simulation sqrtQ baseline_start tasks u N g
        = (Err OverflowError, g')
        /\ (sum_of_durations tasks * (1 - u) <= d
            /\ d <= sum_of_durations tasks * (1 + u))
        /\ ~ representable baseline_start d).
Proof.
  intros Hsqrt Hpos Hu Hg.
  destruct (simulation_run sqrtQ rng_ok
              (fun d => sum_of_durations tasks * (1 - u) <= d
                        /\ d <= sum_of_durations tasks * (1 + u))
              baseline_start tasks u N g rng_ok_advance)
    as [[r [g' [Hrun [Hlen [Hall _]]]]] | [d [g' [Hrun [Hd Hno]]]]].
  - intros g1 Hg1.
    destruct (sample_durations_within sqrtQ Hsqrt u (map get_duration tasks) g1 Hu)
      as [xs [Hxs [Hl Hh]]].
    + apply Forall_map. exact Hpos.
    + exact Hg1.
    + rewrite length_map in Hxs. exists xs. split; [exact Hxs|].
      rewrite <- (py_sum_baseline tasks). split; assumption.
  - exact Hg.
  - left. exists r, g'. split; [exact Hrun|]. split; [exact Hlen | exact Hall].
  - right. exists d, g'. split; [exact Hrun|]. split; [exact Hd | exact Hno].
Qed.

(** When Python can represent the dates at both ends of the band, the run
    returns. *)
Lemma band_run_returns sqrtQ baseline_start tasks u N g :
  (forall x, 0 <= x -> x <= 1 -> 0 <= sqrtQ x /\ sqrtQ x <= 1) ->
  Forall (fun t => 0 <= get_duration t) tasks -> 0 <= u -> rng_ok g ->
  representable baseline_start (sum_of_durations tasks * (1 - u)) ->
  representable baseline_start (sum_of_durations tasks * (1 + u)) ->
  exists r g',
    run_monte_carlo_simulation sqrtQ baseline_start tasks u N g = (Ok r, g')
    /\ List.length (durations r) = Z.to_nat N.
Proof.
  intros Hsqrt Hpos Hu Hg Hlo Hhi.
  destruct (band_run sqrtQ baseline_start tasks u N g Hsqrt Hpos Hu Hg)
    as [[r [g' [Hrun [Hlen _]]]] | [d [g' [_ [[Hd1 Hd2] Hno]]]]].
  - exists r, g'. split; assumption.
  - exfalso. apply Hno. exact (representable_between _ _ _ _ Hd1 Hd2 Hlo Hhi).
Qed.


Lemma sample_sqrt_unit x : 0 <= x -> x <= 1 -> 0 <= sample_sqrt x /\ sample_sqrt x <= 1.
Proof. intros H0 H1. unfold sample_sqrt. split; assumption. Qed.

Lemma tasks_10_20_5_nonneg : Forall (fun t => 0 <= get_duration t) tasks_10_20_5.
Proof.
  unfold tasks_10_20_5. repeat (apply Forall_cons; [vm_compute; discriminate|]).
  apply Forall_nil.
Qed.








(** ** Level-to-score conversion *)

Lemma lower_idempotent s : lower (lower s) = lower s.
Proof.
  induction s as [|c s IH]; simpl; [reflexivity|]. f_equal; [|exact IH].
  destruct c as [[] [] [] [] [] [] [] []]; reflexivity.
Qed.

Lemma convert_level_to_score_lower s :
  convert_level_to_score (lower s) = convert_level_to_score s.
Proof. unfold convert_level_to_score. rewrite lower_idempotent. reflexivity. Qed.

Lemma convert_level_to_score_range s :
  (1 <= convert_level_to_score s <= 3)%Z.
Proof.
  unfold convert_level_to_score.
  repeat match goal with |- context [if ?b then _ else _] => destruct b end; lia.
Qed.

(** C7, as the code has it: in any letter case High and its abbreviation H
    score 3, Low and its abbreviation L score 1, and every other string,
    Medium, Med and M among them, scores 2; so "unknown_string" is scored
    as Medium. *)
Theorem C7_level_scores level :
  (convert_level_to_score level = 3%Z
   <-> eq_nocase level "High" = true \/ eq_nocase level "H" = true)
  /\ (convert_level_to_score level = 1%Z
      <-> eq_nocase level "Low" = true \/ eq_nocase level "L" = true)
  /\ (convert_level_to_score level = 2%Z
      <-> eq_nocase level "High" = false /\ eq_nocase level "H" = false
          /\ eq_nocase level "Low" = false /\ eq_nocase level "L" = false)
  /\ (eq_nocase level "Medium" = true -> convert_level_to_score level = 2%Z)
  /\ convert_level_to_score "unknown_string" = 2%Z
  /\ convert_level_to_score "unknown_string" = convert_level_to_score "Medium".
Proof.
  assert (Hconst : convert_level_to_score "unknown_string" = 2%Z
                   /\ convert_level_to_score "unknown_string"
                      = convert_level_to_score "Medium")
    by (split; reflexivity).
  revert Hconst. generalize (convert_level_to_score "unknown_string").
  generalize (convert_level_to_score "Medium"). intros med unk Hconst.
  unfold eq_nocase, convert_level_to_score, str_in.
  change (lower "High") with "high". change (lower "H") with "h".
  change (lower "Low") with "low". change (lower "L") with "l".
  change (lower "Medium") with "medium".
  generalize (lower level). intros l. cbn [existsb].
  destruct (String.eqb l "high") eqn:E1.
  { apply String.eqb_eq in E1. subst l. vm_compute. intuition discriminate. }
  destruct (String.eqb l "h") eqn:E2.
  { apply String.eqb_eq in E2. subst l. vm_compute. intuition discriminate. }
  destruct (String.eqb l "low") eqn:E3.
  { apply String.eqb_eq in E3. subst l. vm_compute. intuition discriminate. }
  destruct (String.eqb l "l") eqn:E4.
  { apply String.eqb_eq in E4. subst l. vm_compute. intuition discriminate. }
  destruct (String.eqb l "medium"), (String.eqb l "med"), (String.eqb l "m");
    cbn; intuition discriminate.
Qed.

Lemma C7_level_scores_witness :
  (eq_nocase "hIGH" "High" = true \/ eq_nocase "hIGH" "H" = true)
  /\ convert_level_to_score "hIGH" = 3%Z
  /\ (eq_nocase "L" "Low" = true \/ eq_nocase "L" "L" = true)
  /\ convert_level_to_score "L" = 1%Z
  /\ eq_nocase "MEDIUM" "Medium" = true
  /\ convert_level_to_score "MEDIUM" = 2%Z.
Proof.
  pose proof (C7_level_scores "hIGH") as [H3 _].
  pose proof (C7_level_scores "L") as [_ [H1 _]].
  pose proof (C7_level_scores "MEDIUM") as [_ [_ [_ [H2 _]]]].
  assert (Hhigh : eq_nocase "hIGH" "High" = true \/ eq_nocase "hIGH" "H" = true)
    by (left; reflexivity).
  assert (Hlow : eq_nocase "L" "Low" = true \/ eq_nocase "L" "L" = true)
    by (right; reflexivity).
  assert (Hmed : eq_nocase "MEDIUM" "Medium" = true) by reflexivity.
  split; [exact Hhigh|]. split; [exact (proj2 H3 Hhigh)|].
  split; [exact Hlow|]. split; [exact (proj2 H1 Hlow)|].
  split; [exact Hmed | exact (H2 Hmed)].
Defined.

(** C7 as stated fails: "H" and "l" are none of Low, Medium and High in
    any letter case, yet they are not scored 2 but 3 and 1, so a risk of
    severity "h" is scored as High. *)
Lemma C7_counterexample :
  eq_nocase "H" "Low" = false /\ eq_nocase "H" "Medium" = false
  /\ eq_nocase "H" "High" = false
  /\ convert_level_to_score "H" = 3%Z
  /\ eq_nocase "l" "Low" = false /\ eq_nocase "l" "Medium" = false
  /\ eq_nocase "l" "High" = false
  /\ convert_level_to_score "l" = 1%Z
  /\ severity_score [("description", "Vendor delay"); ("severity", "h")] = 3%Z.
Proof. repeat split. Qed.

(** ** Claims on the risk impact scorer: the empty risk list *)

Lemma risk_loop_nil objectives matrix scores g :
  risk_loop [] objectives matrix scores g = (Ok (matrix, scores), g).
Proof. reflexivity. Qed.

(** C2, evaluated on the code: with no risk and at least one objective the
    mean [sum(impact_scores) / len(impact_scores)] divides 0 by 0, so the
    scorer raises [ZeroDivisionError] instead of returning zeros. *)
Theorem C2_empty_risks_raise objective objectives g :
  analyze_risk_impacts [] (objective :: objectives) g = (Err ZeroDivisionError, g).
Proof. reflexivity. Qed.

(** With no risk and no objective the scorer does return an empty result. *)
Lemma analyze_nothing g :
  analyze_risk_impacts [] [] g = (Ok (mkImpact [] [] (mkCombined [] [])), g).
Proof. reflexivity. Qed.

(** ** Sorting *)

Section SortFacts.

Context {A : Type} (key : A -> Q).

Lemma Qlt_bool_true a b : Qlt_bool a b = true -> a < b.
Proof.
  unfold Qlt_bool. intros H. apply negb_true_iff in H.
  apply Qnot_le_lt. intros Hle. apply Qle_bool_iff in Hle. congruence.
Qed.

Lemma Qlt_bool_false a b : Qlt_bool a b = false -> b <= a.
Proof.
  unfold Qlt_bool. intros H. apply negb_false_iff in H. apply Qle_bool_iff. exact H.
Qed.

Lemma insert_by_perm x l : Permutation (insert_by key x l) (x :: l).
Proof.
  induction l as [|y t IH]; simpl.
  - reflexivity.
  - destruct (Qlt_bool (key y) (key x)).
    + rewrite IH. apply perm_swap.
    + reflexivity.
Qed.

Lemma isort_by_perm l : Permutation (isort_by key l) l.
Proof.
  induction l as [|x t IH]; simpl.
  - reflexivity.
  - rewrite insert_by_perm. constructor. exact IH.
Qed.

Lemma insert_by_ascending x l : ascending key l -> ascending key (insert_by key x l).
Proof.
  unfold ascending. induction l as [|y t IH]; intros Hs; simpl.
  - repeat constructor.
  - inversion Hs as [|? ? Ht Hy]; subst.
    destruct (Qlt_bool (key y) (key x)) eqn:E.
    + constructor; [apply IH; exact Ht|].
      apply Forall_forall. intros z Hz.
      apply (Permutation_in _ (insert_by_perm x t)) in Hz. destruct Hz as [<- | Hz].
      * apply Qlt_le_weak, Qlt_bool_true, E.
      * rewrite Forall_forall in Hy. apply Hy, Hz.
    + apply Qlt_bool_false in E. constructor; [exact Hs|].
      constructor; [exact E|].
      rewrite Forall_forall in *. intros z Hz.
      apply Qle_trans with (key y); [exact E | apply Hy, Hz].
Qed.

Lemma isort_by_ascending l : ascending key (isort_by key l).
Proof.
  induction l as [|x t IH]; simpl.
  - constructor.
  - apply insert_by_ascending, IH.
Qed.

(** Insertion never moves an element past one of equal key: the elements
    of any one key keep their order. *)
Lemma filter_insert_by k x l :
  filter (fun s => Qeq_bool (key s) k) (insert_by key x l)
  = filter (fun s => Qeq_bool (key s) k) (x :: l).
Proof.
  induction l as [|y t IH]; simpl.
  - reflexivity.
  - destruct (Qlt_bool (key y) (key x)) eqn:E; [|reflexivity].
    simpl. rewrite IH. simpl.
    destruct (Qeq_bool (key y) k) eqn:Ey, (Qeq_bool (key x) k) eqn:Ex; try reflexivity.
    apply Qeq_bool_iff in Ey, Ex. apply Qlt_bool_true in E.
    rewrite Ey, Ex in E. exfalso. exact (Qlt_irrefl _ E).
Qed.

Lemma filter_isort_by k l :
  filter (fun s => Qeq_bool (key s) k) (isort_by key l)
  = filter (fun s => Qeq_bool (key s) k) l.
Proof.
  induction l as [|x t IH]; simpl.
  - reflexivity.
  - rewrite filter_insert_by. simpl. rewrite IH. reflexivity.
Qed.

Lemma StronglySorted_snoc (R : A -> A -> Prop) l x :
  StronglySorted R l -> Forall (fun y => R y x) l -> StronglySorted R (l ++ [x]).
Proof.
  induction l as [|a l IH]; intros Hs Hx; simpl.
  - repeat constructor.
  - inversion Hs; subst. inversion Hx; subst. constructor.
    + apply IH; assumption.
    + apply Forall_app. split; [assumption | repeat constructor; assumption].
Qed.

Lemma StronglySorted_rev (R : A -> A -> Prop) l :
  StronglySorted R l -> StronglySorted (fun a b => R b a) (rev l).
Proof.
  induction l as [|a l IH]; intros Hs; simpl.
  - constructor.
  - inversion Hs; subst. apply StronglySorted_snoc.
    + apply IH; assumption.
    + apply Forall_rev. assumption.
Qed.

(** [list_sort key true]: descending, a permutation, and stable. *)
Lemma list_sort_reverse_descending l :
  StronglySorted (fun a b => key b <= key a) (list_sort key true l).
Proof.
  unfold list_sort. apply (StronglySorted_rev (fun a b => key a <= key b)).
  apply isort_by_ascending.
Qed.

Lemma list_sort_perm reverse l : Permutation (list_sort key reverse l) l.
Proof.
  unfold list_sort. destruct reverse.
  - rewrite <- Permutation_rev, isort_by_perm, <- Permutation_rev. reflexivity.
  - apply isort_by_perm.
Qed.

Lemma list_sort_reverse_stable k l :
  filter (fun s => Qeq_bool (key s) k) (list_sort key true l)
  = filter (fun s => Qeq_bool (key s) k) l.
Proof.
  unfold list_sort. rewrite filter_rev, filter_isort_by, filter_rev, rev_involutive.
  reflexivity.
Qed.

End SortFacts.

(** ** Claims on the mitigation strategy ranking *)

Lemma jitter_run g :
  jitter g = (Ok ((8 # 10) + (4 # 10) * source g (cursor g)), advance 1 g).
Proof. reflexivity. Qed.

Lemma py_div_ok a b g : ~ b == 0 -> py_div a b g = (Ok (a / b), g).
Proof.
  intros Hb. unfold py_div. destruct (Qeq_bool b 0) eqn:E.
  - apply Qeq_bool_iff in E. contradiction.
  - reflexivity.
Qed.

Lemma inject_Z_nonzero z : z <> 0%Z -> ~ inject_Z z == 0.
Proof. intros Hz H. unfold Qeq in H. simpl in H. lia. Qed.

Lemma cost_per_thousand_nonzero cost : (0 < cost)%Z -> ~ inject_Z cost / 1000 == 0.
Proof. intros Hc H. unfold Qeq, Qdiv in H. simpl in H. lia. Qed.

Lemma calculate_risk_score_range r : (1 <= calculate_risk_score r <= 9)%Z.
Proof.
  unfold calculate_risk_score.
  pose proof (convert_level_to_score_range (dict_get_default r "probability" "Medium")).
  pose proof (convert_level_to_score_range (dict_get_default r "impact" "Medium")).
  nia.
Qed.

(** The loop never raises: the initial score is not 0 and the cost is only
    divided by when it is positive.  It appends one result per candidate,
    in candidate order, and draws two numbers per candidate. *)
Lemma strategy_loop_spec r initial_score pr ir :
  initial_score <> 0%Z ->
  forall cands acc g,
  exists new,
    strategy_loop r initial_score pr ir cands acc g
    = (Ok (acc ++ new), advance (2 * List.length cands) g)
    /\ map candidate_of new = cands
    /\ Forall (fun s => sr_initial_score s = initial_score) new.
Proof.
  intros Hinit. induction cands as [|[strategy cost] rest IH]; intros acc g.
  - exists []. simpl. rewrite app_nil_r, advance_0. repeat split; constructor.
  - simpl strategy_loop. unfold bind.
    rewrite jitter_run; cbv beta iota. rewrite jitter_run; cbv beta iota.
    rewrite py_div_ok by (apply inject_Z_nonzero; exact Hinit). cbv beta iota.
    destruct (0 <? cost)%Z eqn:Ec.
    + apply Z.ltb_lt in Ec.
      rewrite py_div_ok by (apply cost_per_thousand_nonzero; exact Ec). cbv beta iota.
      match goal with |- context [strategy_loop _ _ _ _ rest (acc ++ [?s]) ?g1] =>
        destruct (IH (acc ++ [s]) g1) as [new [Hrun [Hmap Hall]]]; exists (s :: new)
      end.
      rewrite Hrun, <- app_assoc, !advance_advance. simpl. repeat split.
      * do 2 f_equal. lia.
      * unfold candidate_of at 1. simpl. f_equal. exact Hmap.
      * constructor; [reflexivity | exact Hall].
    + unfold ret at 1. cbv beta iota.
      match goal with |- context [strategy_loop _ _ _ _ rest (acc ++ [?s]) ?g1] =>
        destruct (IH (acc ++ [s]) g1) as [new [Hrun [Hmap Hall]]]; exists (s :: new)
      end.
      rewrite Hrun, <- app_assoc, !advance_advance. simpl. repeat split.
      * do 2 f_equal. lia.
      * unfold candidate_of at 1. simpl. f_equal. exact Hmap.
      * constructor; [reflexivity | exact Hall].
Qed.

Lemma mitigation_results_spec r pr ir cands g :
  exists unsorted,
    mitigation_results r pr ir cands g = (Ok unsorted, advance (2 * List.length cands) g)
    /\ map candidate_of unsorted = cands
    /\ Forall (fun s => sr_initial_score s = calculate_risk_score r) unsorted.
Proof.
  unfold mitigation_results.
  assert (Hinit : calculate_risk_score r <> 0%Z)
    by (pose proof (calculate_risk_score_range r); lia).
  destruct (strategy_loop_spec r _ pr ir Hinit cands [] g) as [new H].
  exists new. exact H.
Qed.

(** C3, as the ranking is written: the initial score of every candidate is
    the probability score times the score of the risk's [impact] field
    (default Medium), on the 1-9 scale, with the level mapping of the impact
    scorer; the [severity] field is not read. *)
Theorem C3_initial_score_reads_impact r pr ir cands g :
  exists results g',
    rank_mitigation_strategies r pr ir cands g = (Ok results, g')
    /\ List.length results = List.length cands
    /\ Forall (fun s => sr_initial_score s = (probability_score r * impact_score_of r)%Z)
              results
    /\ (1 <= probability_score r * impact_score_of r <= 9)%Z.
Proof.
  destruct (mitigation_results_spec r pr ir cands g) as [unsorted [Hrun [Hmap Hall]]].
  assert (Hscore : calculate_risk_score r = (probability_score r * impact_score_of r)%Z).
  { unfold calculate_risk_score, probability_score, impact_score_of.
    rewrite convert_level_to_score_lower. reflexivity. }
  unfold rank_mitigation_strategies, bind. rewrite Hrun. unfold ret.
  do 2 eexists. split; [reflexivity|].
  pose proof (list_sort_perm sr_cost_effectiveness true unsorted) as Hperm.
  split; [|split].
  - rewrite (Permutation_length Hperm), <- Hmap, length_map. reflexivity.
  - rewrite Forall_forall in *. intros s Hs. rewrite <- Hscore.
    apply Hall. exact (Permutation_in _ Hperm Hs).
  - rewrite <- Hscore. apply calculate_risk_score_range.
Qed.

(** C3 as stated fails: for a risk of High severity, High probability and
    Low impact the ranking starts from 3, not from severity times
    probability, which is 9. *)
Lemma C3_counterexample :
  exists results g',
    rank_mitigation_strategies risk_high_high_low 50 30
      [("Add buffer time", 1000%Z)] sample_rng = (Ok results, g')
    /\ map sr_initial_score results = [3%Z]
    /\ (severity_score risk_high_high_low * probability_score risk_high_high_low)%Z = 9%Z.
Proof.
  do 2 eexists. split; [vm_compute; reflexivity|]. split; reflexivity.
Qed.

(** C9: the ranked output is in descending order of cost-effectiveness and
    the sort is stable: the candidates of any one cost-effectiveness value
    appear in the output in their input order. *)
Theorem C9_ranking_is_stable_descending r pr ir cands g :
  exists unsorted ranked g',
    mitigation_results r pr ir cands g = (Ok unsorted, g')
    /\ map candidate_of unsorted = cands
    /\ rank_mitigation_strategies r pr ir cands g = (Ok ranked, g')
    /\ ranked_desc ranked
    /\ Permutation ranked unsorted
    /\ forall k, with_effectiveness k ranked = with_effectiveness k unsorted.
Proof.
  destruct (mitigation_results_spec r pr ir cands g) as [unsorted [Hrun [Hmap _]]].
  exists unsorted, (list_sort sr_cost_effectiveness true unsorted),
         (advance (2 * List.length cands) g).
  split; [exact Hrun|]. split; [exact Hmap|]. split.
  { unfold rank_mitigation_strategies, bind. rewrite Hrun. reflexivity. }
  split; [apply list_sort_reverse_descending|].
  split; [apply list_sort_perm|].
  intros k. apply list_sort_reverse_stable.
Qed.

(** ** Claims on the confidence levels *)

Lemma ascending_nth (arr : list Q) :
  ascending (fun x => x) arr ->
  forall k l, (k <= l)%nat -> (l < List.length arr)%nat -> nth k arr 0 <= nth l arr 0.
Proof.
  unfold ascending. induction 1 as [|a arr Hs IH Ha]; intros k l Hkl Hl; simpl in Hl.
  - lia.
  - destruct l as [|l].
    + replace k with 0%nat by lia. simpl. apply Qle_refl.
    + destruct k as [|k]; simpl.
      * rewrite Forall_forall in Ha. apply Ha, nth_In. lia.
      * apply IH; lia.
Qed.

Lemma Qfloor_nonneg x : 0 <= x -> (0 <= Qfloor x)%Z.
Proof. intros H. apply (Qfloor_resp_le 0 x) in H. exact H. Qed.

Lemma Qfloor_le_nat x (m : nat) : x <= inject_Z (Z.of_nat m) -> (Qfloor x <= Z.of_nat m)%Z.
Proof. intros H. apply Qfloor_resp_le in H. rewrite Qfloor_Z in H. exact H. Qed.

Lemma gamma_range x : 0 <= x - inject_Z (Qfloor x) /\ x - inject_Z (Qfloor x) < 1.
Proof.
  pose proof (Qfloor_le x). pose proof (Qlt_floor x) as Hlt.
  rewrite inject_Z_plus in Hlt. change (inject_Z 1) with 1 in Hlt. split; lra.
Qed.

(** The interpolated value lies between its two neighbours. *)
Lemma lerp_bounds a b t : a <= b -> 0 <= t -> t <= 1 -> a <= lerp a b t /\ lerp a b t <= b.
Proof. intros Hab H0 H1. unfold lerp. split; nra. Qed.

Lemma lerp_monotone a b s t : a <= b -> s <= t -> lerp a b s <= lerp a b t.
Proof. intros Hab Hst. unfold lerp. nra. Qed.

(** On an ascending array the linear method is monotone in the index. *)
Lemma take_linear_monotone arr x y :
  ascending (fun v => v) arr -> arr <> [] ->
  0 <= x -> x <= y -> y <= inject_Z (Z.of_nat (List.length arr - 1)) ->
  take_linear arr x <= take_linear arr y.
Proof.
  intros Hs Hne H0 Hxy Hy.
  assert (Hn : (1 <= List.length arr)%nat) by (destruct arr; [congruence | simpl; lia]).
  pose proof (Qfloor_nonneg x H0) as Hfx0.
  pose proof (Qfloor_resp_le x y Hxy) as Hfxy.
  pose proof (Qfloor_le_nat y _ Hy) as Hfy.
  destruct (gamma_range x) as [Hgx0 Hgx1]. destruct (gamma_range y) as [Hgy0 Hgy1].
  unfold take_linear.
  set (i := Z.to_nat (Qfloor x)). set (j := Z.to_nat (Qfloor y)).
  assert (Hj : (j <= List.length arr - 1)%nat) by (subst j; lia).
  assert (Hij : (i <= j)%nat) by (subst i j; lia).
  assert (Hsi : nth i arr 0 <= nth (Nat.min (i + 1) (List.length arr - 1)) arr 0)
    by (apply ascending_nth; [exact Hs | lia | lia]).
  assert (Hsj : nth j arr 0 <= nth (Nat.min (j + 1) (List.length arr - 1)) arr 0)
    by (apply ascending_nth; [exact Hs | lia | lia]).
  destruct (Z.eq_dec (Qfloor x) (Qfloor y)) as [E | E].
  - assert (i = j) as <- by (subst i j; congruence).
    rewrite <- E. apply lerp_monotone; [exact Hsi | lra].
  - assert (Hlt : (i + 1 <= j)%nat) by (subst i j; lia).
    apply Qle_trans with (nth (Nat.min (i + 1) (List.length arr - 1)) arr 0).
    { apply lerp_bounds; [exact Hsi | exact Hgx0 | lra]. }
    apply Qle_trans with (nth j arr 0).
    { apply ascending_nth; [exact Hs | lia | lia]. }
    apply lerp_bounds; [exact Hsj | exact Hgy0 | lra].
Qed.

Lemma np_percentile_run a q g :
  a <> [] -> 0 <= q -> q <= 100 ->
  np_percentile a q g
  = (Ok (take_linear (isort_by (fun x => x) a)
                     (inject_Z (Z.of_nat (List.length (isort_by (fun x => x) a) - 1))
                      * (q / 100))), g).
Proof.
  intros Ha H0 H1. unfold np_percentile.
  apply Qle_bool_iff in H0, H1. rewrite H0, H1. simpl.
  destruct a; [congruence | reflexivity].
Qed.

(** Percentiles do not decrease as the rank grows. *)
Lemma np_percentile_monotone a p q g :
  a <> [] -> 0 <= p -> p <= q -> q <= 100 ->
  exists vp vq,
    np_percentile a p g = (Ok vp, g) /\ np_percentile a q g = (Ok vq, g) /\ vp <= vq.
Proof.
  intros Ha H0 Hpq H1.
  rewrite (np_percentile_run a p g Ha H0) by lra.
  rewrite (np_percentile_run a q g Ha) by lra.
  do 2 eexists. split; [reflexivity|]. split; [reflexivity|].
  set (arr := isort_by (fun x => x) a).
  assert (Hm : 0 <= inject_Z (Z.of_nat (List.length arr - 1))).
  { change 0 with (inject_Z 0). rewrite <- Zle_Qle. lia. }
  set (m := inject_Z (Z.of_nat (List.length arr - 1))) in *.
  assert (Hp : 0 <= p / 100) by (unfold Qdiv; change (/ 100) with (1 # 100); lra).
  assert (Hq : p / 100 <= q / 100) by (unfold Qdiv; change (/ 100) with (1 # 100); lra).
  assert (Hq1 : q / 100 <= 1) by (unfold Qdiv; change (/ 100) with (1 # 100); lra).
  apply take_linear_monotone.
  - apply isort_by_ascending.
  - intros E. apply Ha. apply Permutation_nil.
    rewrite <- E. subst arr. apply isort_by_perm.
  - apply Qmult_le_0_compat; assumption.
  - nra.
  - fold m. nra.
Qed.

(** C8: on any non-empty list of simulated durations the four confidence
    percentiles are defined and ordered: p50 <= p80 <= p90 <= p95; these
    are the values the confidence loop stores. *)
Theorem C8_percentiles_monotone sim_durations g :
  sim_durations <> [] ->
  exists p50 p80 p90 p95,
    np_percentile sim_durations 50 g = (Ok p50, g)
    /\ np_percentile sim_durations 80 g = (Ok p80, g)
    /\ np_percentile sim_durations 90 g = (Ok p90, g)
    /\ np_percentile sim_durations 95 g = (Ok p95, g)
    /\ p50 <= p80 /\ p80 <= p90 /\ p90 <= p95
    /\ confidence_loop ["50%"; "80%"; "90%"; "95%"] sim_durations
                       confidence_percentiles [] g
       = (Ok [("50%", p50); ("80%", p80); ("90%", p90); ("95%", p95)], g).
Proof.
  intros Ha.
  destruct (np_percentile_monotone sim_durations 50 80 g Ha) as [p50 [p80 [H50 [H80 Ha1]]]];
    try lra.
  destruct (np_percentile_monotone sim_durations 80 90 g Ha) as [p80' [p90 [H80' [H90 Ha2]]]];
    try lra.
  destruct (np_percentile_monotone sim_durations 90 95 g Ha) as [p90' [p95 [H90' [H95 Ha3]]]];
    try lra.
  assert (p80' = p80) by congruence. assert (p90' = p90) by congruence. subst.
  exists p50, p80, p90, p95. repeat (split; [assumption|]).
  unfold confidence_percentiles. simpl confidence_loop. unfold bind.
  rewrite H50; cbv beta iota. rewrite H80; cbv beta iota.
  rewrite H90; cbv beta iota. rewrite H95; cbv beta iota.
  reflexivity.
Qed.

Lemma C8_percentiles_monotone_witness :
  [12; 7; 30; 9; 21] <> []
  /\ exists p50 p80 p90 p95,
       np_percentile [12; 7; 30; 9; 21] 50 sample_rng = (Ok p50, sample_rng)
       /\ np_percentile [12; 7; 30; 9; 21] 80 sample_rng = (Ok p80, sample_rng)
       /\ np_percentile [12; 7; 30; 9; 21] 90 sample_rng = (Ok p90, sample_rng)
       /\ np_percentile [12; 7; 30; 9; 21] 95 sample_rng = (Ok p95, sample_rng)
       /\ p50 <= p80 /\ p80 <= p90 /\ p90 <= p95
       /\ confidence_loop ["50%"; "80%"; "90%"; "95%"] [12; 7; 30; 9; 21]
                          confidence_percentiles [] sample_rng
          = (Ok [("50%", p50); ("80%", p80); ("90%", p90); ("95%", p95)], sample_rng).
Proof.
  split; [discriminate|].
  apply (C8_percentiles_monotone [12; 7; 30; 9; 21] sample_rng). discriminate.
Defined.

Example percentile_80_of_five :
  exists v, fst (np_percentile [12; 7; 30; 9; 21] 80 sample_rng) = Ok v /\ v == 228 # 10.
Proof. eexists. split; [reflexivity | vm_compute; reflexivity]. Qed.

(** ** Claims on the risk impact scorer: radar scores and matrix *)

Lemma dict_get_set_same {V} (d : dict V) k v : dict_get (dict_set d k v) k = Some v.
Proof.
  induction d as [|[k' v'] d IH]; simpl.
  - rewrite String.eqb_refl. reflexivity.
  - destruct (String.eqb k' k) eqn:E; simpl.
    + rewrite String.eqb_refl. reflexivity.
    + rewrite E. exact IH.
Qed.

Lemma dict_get_set_other {V} (d : dict V) k k' v :
  k <> k' -> dict_get (dict_set d k v) k' = dict_get d k'.
Proof.
  intros Hne. induction d as [|[k0 v0] d IH]; simpl.
  - apply String.eqb_neq in Hne. rewrite Hne. reflexivity.
  - destruct (String.eqb k0 k) eqn:E; simpl.
    + apply String.eqb_eq in E. subst k0.
      apply String.eqb_neq in Hne. rewrite Hne. reflexivity.
    + destruct (String.eqb k0 k'); [reflexivity | exact IH].
Qed.

Lemma set_levels_other kvs : forall row k,
  ~ In k (map fst kvs) -> dict_get (set_levels row kvs) k = dict_get row k.
Proof.
  induction kvs as [|[k0 v0] kvs IH]; intros row k Hk; simpl in *.
  - reflexivity.
  - unfold set_levels in *. simpl. rewrite IH by tauto.
    apply dict_get_set_other. tauto.
Qed.

(** With distinct objectives the row holds, for the objective at position
    [j], the level generated at position [j]. *)
Lemma set_levels_lookup objectives : forall levels row j objective,
  NoDup objectives -> List.length levels = List.length objectives ->
  nth_error objectives j = Some objective ->
  dict_get (set_levels row (combine objectives levels)) objective = nth_error levels j.
Proof.
  induction objectives as [|o os IH]; intros levels row j objective Hnd Hlen Hj.
  - destruct j; discriminate.
  - destruct levels as [|l ls]; [discriminate|]. simpl in Hlen.
    inversion Hnd as [|? ? Hnotin Hnd']; subst.
    unfold set_levels. simpl. fold (set_levels (dict_set row o l) (combine os ls)).
    destruct j as [|j]; simpl in *.
    + inversion Hj; subst objective.
      rewrite set_levels_other.
      * apply dict_get_set_same.
      * intros Hin. apply Hnotin. apply in_map_iff in Hin.
        destruct Hin as [[a b] [Ha Hab]]. simpl in Ha. subst a.
        exact (in_combine_l _ _ _ _ Hab).
    + apply IH; [exact Hnd' | lia | exact Hj].
Qed.

Lemma generate_impact_level_run category objective base_score g :
  exists level,
    generate_impact_level category objective base_score g = (Ok level, advance 1 g)
    /\ is_level level.
Proof.
  unfold generate_impact_level, bind. rewrite jitter_run. cbv beta iota.
  unfold is_level.
  repeat match goal with |- context [if ?b then _ else _] => destruct b end;
    eexists; (split; [reflexivity | tauto]).
Qed.

Lemma objective_loop_spec r base_score objectives : forall row scores g,
  exists levels,
    objective_loop r base_score objectives row scores g
    = (Ok (set_levels row (combine objectives levels),
           scores ++ map radar_of_level levels),
       advance (List.length objectives) g)
    /\ List.length levels = List.length objectives
    /\ Forall is_level levels.
Proof.
  induction objectives as [|o os IH]; intros row scores g.
  - exists []. simpl. rewrite app_nil_r, advance_0. repeat split; constructor.
  - simpl objective_loop. unfold bind.
    destruct (generate_impact_level_run (lower (dict_get_default r "category" EmptyString)) o
                base_score g) as [level [Hgen Hlevel]].
    rewrite Hgen. cbv beta iota.
    destruct (IH (dict_set row o level)
                 (scores ++ [inject_Z (convert_level_to_score (lower level) * 10) / 3])
                 (advance 1 g)) as [levels [Hrun [Hlen Hall]]].
    rewrite Hrun. exists (level :: levels). simpl.
    rewrite <- app_assoc, advance_advance. simpl. repeat split.
    + do 2 f_equal. f_equal. lia.
    + congruence.
    + constructor; assumption.
Qed.

Lemma risk_loop_spec objectives risks : forall matrix scores g,
  exists rows rss g',
    risk_loop risks objectives matrix scores g = (Ok (matrix ++ rows, scores ++ rss), g')
    /\ Forall2 (same_pass objectives) rows rss
    /\ List.length rows = List.length risks.
Proof.
  induction risks as [|r rest IH]; intros matrix scores g.
  - exists [], [], g. simpl. rewrite !app_nil_r. repeat split; constructor.
  - simpl risk_loop. unfold bind.
    match goal with |- context [objective_loop r ?b objectives ?row0 [] g] =>
      destruct (objective_loop_spec r b objectives row0 [] g) as [levels [Hrun [Hlen Hall]]];
      rewrite Hrun; set (start_row := row0) in *
    end.
    cbv beta iota.
    match goal with |- context [risk_loop rest objectives (matrix ++ [?row]) (scores ++ [?rs]) ?g1] =>
      destruct (IH (matrix ++ [row]) (scores ++ [rs]) g1) as [rows [rss [g' [Hrest [Hall2 Hlen2]]]]];
      exists (row :: rows), (rs :: rss), g'
    end.
    rewrite Hrest, <- !app_assoc. simpl. repeat split.
    + constructor; [|exact Hall2]. split; [reflexivity|].
      exists start_row, levels. repeat split; assumption.
    + congruence.
Qed.

Lemma Forall2_nth_error_both {A B} (R : A -> B -> Prop) l1 l2 :
  Forall2 R l1 l2 ->
  forall i a b, nth_error l1 i = Some a -> nth_error l2 i = Some b -> R a b.
Proof.
  induction 1 as [|x y l1 l2 Hxy _ IH]; intros i a b Ha Hb.
  - destruct i; discriminate.
  - destruct i as [|i]; simpl in *.
    + congruence.
    + exact (IH i a b Ha Hb).
Qed.

Lemma radar_of_level_values level :
  is_level level ->
  radar_of_level level == inject_Z (convert_level_to_score level) * (10 # 3)
  /\ (radar_of_level level == 10 # 3 \/ radar_of_level level == 20 # 3
      \/ radar_of_level level == 10).
Proof.
  intros [-> | [-> | ->]]; split; try reflexivity; vm_compute; tauto.
Qed.

Lemma analyze_result_shape risks objectives g r g' :
  analyze_risk_impacts risks objectives g = (Ok r, g') ->
  Forall2 (same_pass objectives) (impact_matrix r) (risk_scores r)
  /\ List.length (impact_matrix r) = List.length risks.
Proof.
  unfold analyze_risk_impacts, bind. intros Hrun.
  destruct (risk_loop_spec objectives risks [] [] g) as [rows [rss [g1 [Hloop [Hall Hlen]]]]].
  rewrite Hloop in Hrun. simpl in Hrun.
  destruct (combined_loop rows objectives [] g1) as [[scores | e] g2]; [|discriminate].
  inversion Hrun; subst. simpl. split; assumption.
Qed.

(** C10, as the scorer is written: every radar entry lists the objectives in
    order with one score per objective, each score being 10/3, 20/3 or 10;
    when the objective labels are pairwise distinct, the j-th score is the
    numeric score of the level the matrix records for that risk and the
    j-th objective, scaled by 10/3. *)
Theorem C10_radar_matches_matrix risks objectives g r g' :
  analyze_risk_impacts risks objectives g = (Ok r, g') ->
  List.length (impact_matrix r) = List.length risks
  /\ List.length (risk_scores r) = List.length risks
  /\ forall i row rs,
       nth_error (impact_matrix r) i = Some row ->
       nth_error (risk_scores r) i = Some rs ->
       rs_objectives rs = objectives
       /\ List.length (rs_scores rs) = List.length objectives
       /\ Forall (fun s => s == 10 # 3 \/ s == 20 # 3 \/ s == 10) (rs_scores rs)
       /\ (NoDup objectives ->
           forall j objective,
             nth_error objectives j = Some objective ->
             exists level score,
               dict_get row objective = Some level
               /\ nth_error (rs_scores rs) j = Some score
               /\ score == inject_Z (convert_level_to_score level) * (10 # 3)).
Proof.
  intros Hrun. destruct (analyze_result_shape _ _ _ _ _ Hrun) as [Hall Hlen].
  split; [exact Hlen|]. split.
  { rewrite <- (Forall2_length Hall). exact Hlen. }
  intros i row rs Hrow Hrs.
  destruct (Forall2_nth_error_both _ _ _ Hall i row rs Hrow Hrs)
    as [Hobjs [row0 [levels [Hlevels [Hlv [Hr Hs]]]]]].
  split; [exact Hobjs|]. split.
  { rewrite Hs, length_map. exact Hlevels. }
  split.
  { rewrite Hs. apply Forall_map. apply Forall_impl with (2 := Hlv).
    intros l Hl. apply radar_of_level_values. exact Hl. }
  intros Hnd j objective Hj.
  assert (Hjlt : (j < List.length levels)%nat).
  { rewrite Hlevels. apply nth_error_Some. congruence. }
  destruct (nth_error levels j) as [level|] eqn:El.
  2:{ apply nth_error_None in El. lia. }
  exists level, (radar_of_level level). split; [|split].
  - rewrite Hr, (set_levels_lookup objectives levels row0 j objective Hnd Hlevels Hj).
    exact El.
  - rewrite Hs. apply map_nth_error. exact El.
  - apply radar_of_level_values. rewrite Forall_forall in Hlv.
    apply Hlv. exact (nth_error_In _ _ El).
Qed.

Lemma C10_radar_matches_matrix_witness :
  exists r g',
    analyze_risk_impacts [risk_schedule_high] ["Scope"; "Budget"] sample_rng = (Ok r, g')
    /\ List.length (impact_matrix r) = 1%nat
    /\ List.length (risk_scores r) = 1%nat
    /\ forall i row rs,
         nth_error (impact_matrix r) i = Some row ->
         nth_error (risk_scores r) i = Some rs ->
         rs_objectives rs = ["Scope"; "Budget"]
         /\ List.length (rs_scores rs) = 2%nat
         /\ Forall (fun s => s == 10 # 3 \/ s == 20 # 3 \/ s == 10) (rs_scores rs)
         /\ (NoDup ["Scope"; "Budget"] ->
             forall j objective,
               nth_error ["Scope"; "Budget"] j = Some objective ->
               exists level score,
                 dict_get row objective = Some level
                 /\ nth_error (rs_scores rs) j = Some score
                 /\ score == inject_Z (convert_level_to_score level) * (10 # 3)).
Proof.
  do 2 eexists. split; [vm_compute; reflexivity|].
  eapply (C10_radar_matches_matrix [risk_schedule_high] ["Scope"; "Budget"] sample_rng).
  vm_compute. reflexivity.
Defined.

(** C10 as stated fails when an objective label is repeated: the row keeps
    one level per label, the last one generated, while the radar vector
    keeps one score per position.  Here position 0 scores 20/3 (Medium) and
    the matrix records High for the same objective. *)
Lemma C10_counterexample :
  exists r g' row rs level score,
    analyze_risk_impacts [risk_schedule_high] ["Scope"; "Scope"] sample_rng = (Ok r, g')
    /\ nth_error (impact_matrix r) 0 = Some row
    /\ nth_error (risk_scores r) 0 = Some rs
    /\ nth_error ["Scope"; "Scope"] 0 = Some "Scope"
    /\ dict_get row "Scope" = Some level
    /\ nth_error (rs_scores rs) 0 = Some score
    /\ level = "High" /\ score == 20 # 3
    /\ ~ score == inject_Z (convert_level_to_score level) * (10 # 3).
Proof.
  do 6 eexists. split; [vm_compute; reflexivity|].
  repeat (split; [reflexivity|]).
  intros H. vm_compute in H. discriminate.
Qed.

(** ** The scorer answers whenever there is at least one risk *)

Lemma dict_set_keeps_keys {V} (d : dict V) k v k' :
  dict_get d k' <> None -> dict_get (dict_set d k v) k' <> None.
Proof.
  intros H. destruct (string_dec k k') as [-> | Hne].
  - rewrite dict_get_set_same. discriminate.
  - rewrite dict_get_set_other by exact Hne. exact H.
Qed.

Lemma set_levels_keeps_keys kvs : forall row k,
  dict_get row k <> None -> dict_get (set_levels row kvs) k <> None.
Proof.
  induction kvs as [|[k0 v0] kvs IH]; intros row k H; simpl.
  - exact H.
  - unfold set_levels in *. simpl. apply IH. apply dict_set_keeps_keys. exact H.
Qed.

Lemma set_levels_has_key objectives : forall levels row o,
  List.length levels = List.length objectives -> In o objectives ->
  dict_get (set_levels row (combine objectives levels)) o <> None.
Proof.
  induction objectives as [|o' os IH]; intros levels row o Hlen Hin.
  - destruct Hin.
  - destruct levels as [|l ls]; [discriminate|]. simpl in Hlen.
    unfold set_levels. simpl. fold (set_levels (dict_set row o' l) (combine os ls)).
    destruct Hin as [-> | Hin].
    + apply set_levels_keeps_keys. rewrite dict_get_set_same. discriminate.
    + apply IH; [lia | exact Hin].
Qed.

Lemma column_levels_total rows objective g :
  Forall (fun row => dict_get row objective <> None) rows ->
  exists levels,
    column_levels rows objective g = (Ok levels, g)
    /\ List.length levels = List.length rows.
Proof.
  induction 1 as [|row rows Hrow _ [levels [IH Hlen]]]; simpl.
  - exists []. split; reflexivity.
  - unfold bind, dict_index. destruct (dict_get row objective) as [level|]; [|congruence].
    unfold ret at 1. rewrite IH. exists (lower level :: levels).
    split; [reflexivity | simpl; congruence].
Qed.

Lemma combined_loop_total rows :
  rows <> [] ->
  forall objectives acc g,
    Forall (fun o => Forall (fun row => dict_get row o <> None) rows) objectives ->
    exists scores, combined_loop rows objectives acc g = (Ok scores, g).
Proof.
  intros Hne. induction objectives as [|o os IH]; intros acc g Hkeys; simpl.
  - exists acc. reflexivity.
  - inversion Hkeys as [|? ? Ho Hos]; subst. unfold bind.
    destruct (column_levels_total rows o g Ho) as [levels [Hcol Hlen]].
    rewrite Hcol. rewrite py_div_ok.
    + apply IH. exact Hos.
    + apply inject_Z_nonzero. rewrite length_map, Hlen.
      destruct rows; [congruence | simpl; lia].
Qed.

Lemma analyze_succeeds risks objectives g :
  risks <> [] -> exists r g', analyze_risk_impacts risks objectives g = (Ok r, g').
Proof.
  intros Hne. unfold analyze_risk_impacts, bind.
  destruct (risk_loop_spec objectives risks [] [] g) as [rows [rss [g1 [Hloop [Hall Hlen]]]]].
  rewrite Hloop. simpl.
  destruct (combined_loop_total rows) with (objectives := objectives) (acc := @nil Q) (g := g1)
    as [scores Hscores].
  - destruct rows; [destruct risks; [congruence | discriminate] | discriminate].
  - apply Forall_forall. intros o Ho. apply Forall_forall. intros row Hrow.
    destruct (In_nth_error _ _ Hrow) as [i Hi].
    assert (Hrs : exists rs, nth_error rss i = Some rs).
    { destruct (nth_error rss i) as [rs|] eqn:E; [eauto|].
      apply nth_error_None in E. rewrite <- (Forall2_length Hall) in E.
      assert (nth_error rows i <> None) by congruence.
      apply nth_error_Some in H. lia. }
    destruct Hrs as [rs Hrs].
    destruct (Forall2_nth_error_both _ _ _ Hall i row rs Hi Hrs)
      as [_ [row0 [levels [Hlevels [_ [Hr _]]]]]].
    rewrite Hr. apply set_levels_has_key; assumption.
  - rewrite Hscores. do 2 eexists. reflexivity.
Qed.

(** ** The caller's guard *)


(** * Further properties of the simulation module *)

(** ** The simulator stays within the uncertainty band *)

(** X1: for tasks of non-negative duration and a non-negative uncertainty,
    every trial total of a run lies within the uncertainty band around the
    sum of the baseline durations.  The run can only fail with
    [OverflowError], and it returns when Python can represent the dates at
    both ends of the band. *)
Theorem X1_totals_within_uncertainty_band sqrtQ baseline_start tasks u N g :
  (forall x, 0 <= x -> x <= 1 -> 0 <= sqrtQ x /\ sqrtQ x <= 1) ->
  Forall (fun t => 0 <= get_duration t) tasks -> 0 <= u -> rng_ok g ->
  match run_monte_carlo_simulation sqrtQ baseline_start tasks u N g with
  | (Ok r, _) =>
      List.length (durations r) = Z.to_nat N
      /\ Forall (fun d => sum_of_durations tasks * (1 - u) <= d
                          /\ d <= sum_of_durations tasks * (1 + u))
                (durations r)
  | (Err e, _) => e = OverflowError
  end
  /\ (representable baseline_start (sum_of_durations tasks * (1 - u)) ->
      representable baseline_start (sum_of_durations tasks * (1 + u)) ->
      exists r g',
        run_monte_carlo_simulation sqrtQ baseline_start tasks u N g = (Ok r, g')).
Proof.
  intros Hsqrt Hpos Hu Hg. split.
  - destruct (band_run sqrtQ baseline_start tasks u N g Hsqrt Hpos Hu Hg)
      as [[r [g' [Hrun H]]] | [d [g' [Hrun _]]]]; rewrite Hrun.
    + exact H.
    + reflexivity.
  - intros Hlo Hhi.
    destruct (band_run_returns sqrtQ baseline_start tasks u N g Hsqrt Hpos Hu Hg Hlo Hhi)
      as [r [g' [Hrun _]]].
    exists r, g'. exact Hrun.
Qed.

Lemma X1_totals_within_uncertainty_band_witness :
  (forall x, 0 <= x -> x <= 1 -> 0 <= sample_sqrt x /\ sample_sqrt x <= 1)
  /\ Forall (fun t => 0 <= get_duration t) tasks_10_20_5 /\ 0 <= 1 # 5
  /\ rng_ok sample_rng
  /\ match run_monte_carlo_simulation sample_sqrt jan_1_2025 tasks_10_20_5 (1 # 5) 3
             sample_rng with
     | (Ok r, _) =>
         List.length (durations r) = Z.to_nat 3
         /\ Forall (fun d => sum_of_durations tasks_10_20_5 * (1 - (1 # 5)) <= d
                             /\ d <= sum_of_durations tasks_10_20_5 * (1 + (1 # 5)))
                   (durations r)
     | (Err e, _) => e = OverflowError
     end
  /\ representable jan_1_2025 (sum_of_durations tasks_10_20_5 * (1 - (1 # 5)))
  /\ representable jan_1_2025 (sum_of_durations tasks_10_20_5 * (1 + (1 # 5)))
  /\ exists r g',
       run_monte_carlo_simulation sample_sqrt jan_1_2025 tasks_10_20_5 (1 # 5) 3 sample_rng
       = (Ok r, g').
Proof.
  assert (Hu : 0 <= 1 # 5) by lra.
  assert (Hlo : representable jan_1_2025 (sum_of_durations tasks_10_20_5 * (1 - (1 # 5))))
    by reflexivity.
  assert (Hhi : representable jan_1_2025 (sum_of_durations tasks_10_20_5 * (1 + (1 # 5))))
    by reflexivity.
  pose proof (X1_totals_within_uncertainty_band sample_sqrt jan_1_2025 tasks_10_20_5
                (1 # 5) 3 sample_rng sample_sqrt_unit tasks_10_20_5_nonneg Hu
                sample_rng_ok) as [Hband Hreturns].
  split; [exact sample_sqrt_unit|]. split; [exact tasks_10_20_5_nonneg|].
  split; [exact Hu|]. split; [exact sample_rng_ok|]. split; [exact Hband|].
  split; [exact Hlo|]. split; [exact Hhi|]. exact (Hreturns Hlo Hhi).
Defined.

(** ** The simulation view *)



(** ** Confidence levels lie within the simulated range *)

Lemma fold_min_le r : forall x,
  fold_left (fun m y => if Qlt_bool y m then y else m) r x <= x
  /\ Forall (fun y => fold_left (fun m y => if Qlt_bool y m then y else m) r x <= y) r.
Proof.
  induction r as [|y r IH]; intros x; simpl.
  - split; [apply Qle_refl | constructor].
  - destruct (Qlt_bool y x) eqn:E.
    + apply Qlt_bool_true in E. destruct (IH y) as [H1 H2].
      split; [lra|]. constructor; assumption.
    + apply Qlt_bool_false in E. destruct (IH x) as [H1 H2].
      split; [exact H1|]. constructor; [lra | exact H2].
Qed.

Lemma fold_max_ge r : forall x,
  x <= fold_left (fun m y => if Qlt_bool m y then y else m) r x
  /\ Forall (fun y => y <= fold_left (fun m y => if Qlt_bool m y then y else m) r x) r.
Proof.
  induction r as [|y r IH]; intros x; simpl.
  - split; [apply Qle_refl | constructor].
  - destruct (Qlt_bool x y) eqn:E.
    + apply Qlt_bool_true in E. destruct (IH y) as [H1 H2].
      split; [lra|]. constructor; assumption.
    + apply Qlt_bool_false in E. destruct (IH x) as [H1 H2].
      split; [exact H1|]. constructor; [lra | exact H2].
Qed.

Lemma py_min_spec xs g :
  xs <> [] -> exists m, py_min xs g = (Ok m, g) /\ Forall (fun y => m <= y) xs.
Proof.
  destruct xs as [|x r]; [congruence|]. intros _. simpl.
  destruct (fold_min_le r x) as [H1 H2]. eexists. split; [reflexivity|].
  constructor; assumption.
Qed.

Lemma py_max_spec xs g :
  xs <> [] -> exists m, py_max xs g = (Ok m, g) /\ Forall (fun y => y <= m) xs.
Proof.
  destruct xs as [|x r]; [congruence|]. intros _. simpl.
  destruct (fold_max_ge r x) as [H1 H2]. eexists. split; [reflexivity|].
  constructor; assumption.
Qed.

Lemma round_half_even_nonneg x : 0 <= x -> (0 <= round_half_even x)%Z.
Proof.
  intros H. pose proof (Qfloor_nonneg x H). unfold round_half_even.
  destruct (Qcompare _ _); [destruct (Z.even _)| |]; lia.
Qed.

Lemma days_to_us_nonneg d : 0 <= d -> (0 <= days_to_us d)%Z.
Proof.
  intros H. unfold days_to_us. apply round_half_even_nonneg.
  apply Qmult_le_0_compat; [exact H|]. vm_compute. discriminate.
Qed.

Lemma days_to_us_monotone x y : x <= y -> (days_to_us x <= days_to_us y)%Z.
Proof.
  intros H. unfold days_to_us. apply round_half_even_monotone.
  apply Qmult_le_compat_r; [exact H | discriminate].
Qed.

(** The two steps of [t + timedelta(days=d)] when Python can represent the
    date. *)
Lemma plus_days_steps start d :
  representable start d ->
  exists c, dt_us c = (dt_us start + days_to_us d)%Z
    /\ (forall g, timedelta_days d g = (Ok (days_to_us d), g))
    /\ (forall g, datetime_add start (days_to_us d) g = (Ok c, g)).
Proof.
  unfold representable, representableb. intros H.
  apply andb_true_iff in H. destruct H as [Hd Hr].
  destruct (datetime_at_in_range _ Hr) as [c [Hc Hus]].
  exists c. split; [exact Hus|]. split; intros g.
  - unfold timedelta_days. rewrite Hd. reflexivity.
  - unfold datetime_add. rewrite Hc. reflexivity.
Qed.

(** What a pandas [Timestamp] can hold, Python can represent. *)
Lemma timestamp_representable start d :
  0 <= d -> timestamp_holds (dt_us start + days_to_us d) = true ->
  representable start d.
Proof.
  intros Hd Hts. pose proof (days_to_us_nonneg d Hd) as Hus.
  pose proof (dt_ok start) as Hok.
  unfold representable, representableb, timestamp_holds, in_range in *.
  change (midnight 1970 1 1) with 62135596800000000%Z in Hts.
  change (max_ordinal * us_per_day)%Z with 315537897600000000%Z in *.
  apply andb_true_iff in Hts, Hok. destruct Hts as [_ Hhi], Hok as [Hlo _].
  apply Z.leb_le in Hhi, Hlo.
  assert (Hdiv : (0 <= days_to_us d / us_per_day <= 71358968836854775 / us_per_day)%Z).
  { split.
    - apply Z.div_pos; [exact Hus | reflexivity].
    - apply Z.div_le_mono; [reflexivity | lia]. }
  change (71358968836854775 / us_per_day)%Z with 825913%Z in Hdiv.
  apply andb_true_iff. split.
  - apply Z.leb_le. unfold max_delta_days. lia.
  - apply andb_true_iff. split; [apply Z.leb_le | apply Z.ltb_lt]; lia.
Qed.

(** The value of the linear method lies between two elements of the array. *)
Lemma take_linear_between arr x :
  ascending (fun v => v) arr -> arr <> [] ->
  0 <= x -> x <= inject_Z (Z.of_nat (List.length arr - 1)) ->
  exists lo hi, In lo arr /\ In hi arr /\ lo <= take_linear arr x /\ take_linear arr x <= hi.
Proof.
  intros Hs Hne H0 Hx.
  assert (Hn : (1 <= List.length arr)%nat) by (destruct arr; [congruence | simpl; lia]).
  pose proof (Qfloor_nonneg x H0) as Hf0. pose proof (Qfloor_le_nat x _ Hx) as Hf1.
  destruct (gamma_range x) as [Hg0 Hg1]. unfold take_linear.
  set (i := Z.to_nat (Qfloor x)).
  assert (Hi : (i <= List.length arr - 1)%nat) by (subst i; lia).
  exists (nth i arr 0), (nth (Nat.min (i + 1) (List.length arr - 1)) arr 0).
  split; [apply nth_In; lia|]. split; [apply nth_In; lia|].
  apply lerp_bounds; [|exact Hg0|lra].
  apply ascending_nth; [exact Hs | lia | lia].
Qed.

(** X3: every confidence percentile of a non-empty list of durations lies
    between the shortest and the longest duration.  When the earliest
    completion date and the date that lies the spread of the durations
    after it are dates pandas can hold, the date shown for the percentile
    is computed: it lies the percentile less the shortest duration, in
    days, after the earliest completion date, never before it and never
    after the date of the longest duration. *)
Theorem X3_confidence_level_within_range sim_durations q min_date g :
  sim_durations <> [] -> 0 <= q -> q <= 100 ->
  exists shortest longest days,
    py_min sim_durations g = (Ok shortest, g)
    /\ py_max sim_durations g = (Ok longest, g)
    /\ np_percentile sim_durations q g = (Ok days, g)
    /\ shortest <= days /\ days <= longest
    /\ (timestamp_holds (dt_us min_date) = true ->
        timestamp_holds (dt_us min_date + days_to_us (longest - shortest)) = true ->
        exists date,
          date_percentile min_date sim_durations days g = (Ok date, g)
          /\ days_after min_date (days - shortest) date
          /\ (dt_us min_date <= dt_us date
              <= dt_us min_date + days_to_us (longest - shortest))%Z).
Proof.
  intros Ha H0 H1.
  destruct (py_min_spec sim_durations g Ha) as [lo [Hmin Hlo]].
  destruct (py_max_spec sim_durations g Ha) as [hi [Hmax Hhi]].
  exists lo, hi. rewrite (np_percentile_run sim_durations q g Ha H0 H1).
  set (arr := isort_by (fun x => x) sim_durations).
  assert (Hperm : Permutation arr sim_durations) by (subst arr; apply isort_by_perm).
  assert (Hm : 0 <= inject_Z (Z.of_nat (List.length arr - 1))).
  { change 0 with (inject_Z 0). rewrite <- Zle_Qle. lia. }
  set (m := inject_Z (Z.of_nat (List.length arr - 1))) in *.
  assert (Hq0 : 0 <= q / 100) by (unfold Qdiv; change (/ 100) with (1 # 100); lra).
  assert (Hq1 : q / 100 <= 1) by (unfold Qdiv; change (/ 100) with (1 # 100); lra).
  destruct (take_linear_between arr (m * (q / 100))) as [a [b [Ha' [Hb' [Hab1 Hab2]]]]].
  - subst arr. apply isort_by_ascending.
  - intros E. apply Ha. apply Permutation_nil. rewrite <- E. exact Hperm.
  - apply Qmult_le_0_compat; assumption.
  - fold m. nra.
  - rewrite Forall_forall in Hlo, Hhi.
    pose proof (Hlo a (Permutation_in _ Hperm Ha')) as Hla.
    pose proof (Hhi b (Permutation_in _ Hperm Hb')) as Hhb.
    set (days := take_linear arr (m * (q / 100))) in *.
    assert (Hlow : lo <= days) by lra.
    assert (Hhigh : days <= hi) by lra.
    eexists. split; [exact Hmin|]. split; [exact Hmax|]. split; [reflexivity|].
    split; [exact Hlow|]. split; [exact Hhigh|].
    intros Hts Hend.
    assert (Hrep : representable min_date (days - lo)).
    { apply (representable_between min_date 0 (hi - lo)); [lra | lra | |].
      - apply representable_0.
      - apply timestamp_representable; [lra | exact Hend]. }
    destruct (plus_days_steps min_date (days - lo) Hrep) as [c [Hc [Htd Hadd]]].
    exists c. split.
    + unfold date_percentile, bind. rewrite Hmin, Htd. apply Hadd.
    + split; [apply days_after_computed; exact Hc|].
      rewrite Hc. split.
      * assert (Hnn : 0 <= days - lo) by lra.
        pose proof (days_to_us_nonneg _ Hnn). lia.
      * assert ((days_to_us (days - lo) <= days_to_us (hi - lo))%Z).
        { apply days_to_us_monotone. lra. }
        lia.
Qed.

Lemma X3_confidence_level_within_range_witness :
  [12; 7; 30; 9; 21] <> [] /\ 0 <= 80 /\ 80 <= 100
  /\ exists shortest longest days,
       py_min [12; 7; 30; 9; 21] sample_rng = (Ok shortest, sample_rng)
       /\ py_max [12; 7; 30; 9; 21] sample_rng = (Ok longest, sample_rng)
       /\ np_percentile [12; 7; 30; 9; 21] 80 sample_rng = (Ok days, sample_rng)
       /\ shortest <= days /\ days <= longest
       /\ (timestamp_holds (dt_us jan_1_2025) = true ->
           timestamp_holds (dt_us jan_1_2025 + days_to_us (longest - shortest)) = true ->
           exists date,
             date_percentile jan_1_2025 [12; 7; 30; 9; 21] days sample_rng
             = (Ok date, sample_rng)
             /\ days_after jan_1_2025 (days - shortest) date
             /\ (dt_us jan_1_2025 <= dt_us date
                 <= dt_us jan_1_2025 + days_to_us (longest - shortest))%Z).
Proof.
  split; [discriminate|]. split; [lra|]. split; [lra|].
  apply (X3_confidence_level_within_range [12; 7; 30; 9; 21] 80 jan_1_2025 sample_rng).
  - discriminate.
  - lra.
  - lra.
Defined.

(** With the durations 12, 7, 30, 9 and 21 and the earliest completion on
    2025-01-01, the 80% level is 22.8 days and is shown as 2025-01-16
    19:12: 15.8 days after the earliest completion. *)
Example confidence_80_of_five :
  timestamp_holds (dt_us jan_1_2025) = true
  /\ timestamp_holds (dt_us jan_1_2025 + days_to_us (30 - 7)) = true
  /\ exists days date,
       np_percentile [12; 7; 30; 9; 21] 80 sample_rng = (Ok days, sample_rng)
       /\ days == 114 # 5
       /\ date_percentile jan_1_2025 [12; 7; 30; 9; 21] days sample_rng
          = (Ok date, sample_rng)
       /\ dt_us date = (midnight 2025 1 16 + (19 * 60 + 12) * 60000000)%Z.
Proof.
  split; [reflexivity|]. split; [reflexivity|]. do 2 eexists.
  split; [vm_compute; reflexivity|]. split; [vm_compute; reflexivity|].
  split; vm_compute; reflexivity.
Qed.

(** ** The cumulative distribution chart *)

Lemma cumulative_loop_run n indices g :
  Forall (fun i => (1 <= i <= n)%nat) indices ->
  cumulative_loop n indices g
  = (Ok (map (fun i => inject_Z (Z.of_nat i) / inject_Z (Z.of_nat n)) indices), g).
Proof.
  induction 1 as [|i rest Hi _ IH]; simpl.
  - reflexivity.
  - unfold bind. rewrite py_div_ok by (apply inject_Z_nonzero; lia).
    rewrite IH. reflexivity.
Qed.

Lemma ratio_increasing (n i j : nat) :
  (1 <= n)%nat -> (i < j)%nat ->
  inject_Z (Z.of_nat i) / inject_Z (Z.of_nat n) < inject_Z (Z.of_nat j) / inject_Z (Z.of_nat n).
Proof.
  intros Hn Hij. unfold Qdiv. apply Qmult_lt_compat_r.
  - apply Qinv_lt_0_compat. change 0 with (inject_Z 0). rewrite <- Zlt_Qlt. lia.
  - rewrite <- Zlt_Qlt. lia.
Qed.

Lemma ratios_increasing n : (1 <= n)%nat -> forall k a,
  StronglySorted Qlt
    (map (fun i => inject_Z (Z.of_nat i) / inject_Z (Z.of_nat n)) (seq a k)).
Proof.
  intros Hn. induction k as [|k IH]; intros a; simpl.
  - constructor.
  - constructor; [apply IH|].
    apply Forall_map, Forall_forall. intros i Hi. apply in_seq in Hi.
    apply ratio_increasing; lia.
Qed.

(** X4: the cumulative probabilities of the chart are computed without a
    division by zero, there is one per simulated duration, they increase
    strictly, stay within (0, 1], and the last one is 1; the durations they
    are plotted against are an ascending rearrangement of the simulated
    ones. *)
Theorem X4_cumulative_distribution sim_durations g :
  exists ps,
    cumulative_prob (py_sorted sim_durations) g = (Ok ps, g)
    /\ List.length ps = List.length sim_durations
    /\ StronglySorted Qlt ps
    /\ Forall (fun p => 0 < p /\ p <= 1) ps
    /\ (sim_durations <> [] -> last ps 0 == 1)
    /\ Permutation (py_sorted sim_durations) sim_durations
    /\ ascending (fun x => x) (py_sorted sim_durations).
Proof.
  assert (Hperm : Permutation (py_sorted sim_durations) sim_durations)
    by apply list_sort_perm.
  pose proof (Permutation_length Hperm) as Hlen.
  unfold cumulative_prob. rewrite Hlen. set (n := List.length sim_durations) in *.
  rewrite cumulative_loop_run.
  2:{ apply Forall_forall. intros i Hi. apply in_seq in Hi. lia. }
  eexists. split; [reflexivity|].
  split; [rewrite length_map, length_seq; reflexivity|].
  destruct (Nat.eq_dec n 0) as [E | E].
  - rewrite E. simpl. split; [constructor|]. split; [constructor|]. split.
    + intros Hne. destruct sim_durations; [congruence | discriminate].
    + split; [exact Hperm | apply isort_by_ascending].
  - split; [apply ratios_increasing; lia|]. split.
    + apply Forall_map, Forall_forall. intros i Hi. apply in_seq in Hi.
      assert (Hn0 : 0 < inject_Z (Z.of_nat n)).
      { change 0 with (inject_Z 0). rewrite <- Zlt_Qlt. lia. }
      split.
      * apply Qlt_shift_div_l; [exact Hn0|]. rewrite Qmult_0_l.
        change 0 with (inject_Z 0). rewrite <- Zlt_Qlt. lia.
      * apply Qle_shift_div_r; [exact Hn0|]. rewrite Qmult_1_l.
        rewrite <- Zle_Qle. lia.
    + split; [|split; [exact Hperm | apply isort_by_ascending]].
      intros _.
      assert (Hseq : seq 1 n = seq 1 (n - 1) ++ [n]).
      { replace n with (S (n - 1)) at 1 by lia. rewrite seq_S. do 2 f_equal. lia. }
      rewrite Hseq, map_app. simpl (map _ [_]). rewrite last_last.
      apply Qmult_inv_r. apply inject_Z_nonzero. lia.
Qed.

(** ** The combined impact *)

Lemma py_sum_int_shift zs : forall a, fold_left Z.add zs a = (a + fold_left Z.add zs 0)%Z.
Proof.
  induction zs as [|z zs IH]; intros a; simpl.
  - lia.
  - rewrite (IH (a + z)%Z), (IH z). lia.
Qed.

Lemma py_sum_int_bounds zs :
  Forall (fun z => (1 <= z <= 3)%Z) zs ->
  (Z.of_nat (List.length zs) <= py_sum_int zs <= 3 * Z.of_nat (List.length zs))%Z.
Proof.
  unfold py_sum_int. induction 1 as [|z zs Hz _ IH]; simpl.
  - lia.
  - rewrite py_sum_int_shift. lia.
Qed.

Lemma scaled_mean_bounds (s n : Z) :
  (0 < n)%Z -> (n <= s <= 3 * n)%Z ->
  10 # 3 <= inject_Z s / inject_Z n * 10 / 3 /\ inject_Z s / inject_Z n * 10 / 3 <= 10.
Proof.
  intros Hn [Hlo Hhi].
  assert (Hn0 : 0 < inject_Z n) by (change 0 with (inject_Z 0); rewrite <- Zlt_Qlt; lia).
  assert (H1 : 1 <= inject_Z s / inject_Z n).
  { apply Qle_shift_div_l; [exact Hn0|]. rewrite Qmult_1_l, <- Zle_Qle. exact Hlo. }
  assert (H3 : inject_Z s / inject_Z n <= 3).
  { apply Qle_shift_div_r; [exact Hn0|]. change 3 with (inject_Z 3).
    rewrite <- inject_Z_mult, <- Zle_Qle. exact Hhi. }
  set (m := inject_Z s / inject_Z n) in *.
  unfold Qdiv. change (/ 3) with (1 # 3). split; lra.
Qed.

Lemma combined_loop_bounds rows :
  rows <> [] ->
  forall objectives acc g,
    Forall (fun o => Forall (fun row => dict_get row o <> None) rows) objectives ->
    exists new,
      combined_loop rows objectives acc g = (Ok (acc ++ new), g)
      /\ List.length new = List.length objectives
      /\ Forall (fun s => 10 # 3 <= s /\ s <= 10) new.
Proof.
  intros Hne. induction objectives as [|o os IH]; intros acc g Hkeys; simpl.
  - exists []. rewrite app_nil_r. repeat split; constructor.
  - inversion Hkeys as [|? ? Ho Hos]; subst. unfold bind.
    destruct (column_levels_total rows o g Ho) as [levels [Hcol Hlen]].
    rewrite Hcol.
    assert (Hpos : (0 < Z.of_nat (List.length (map convert_level_to_score levels)))%Z).
    { rewrite length_map, Hlen. destruct rows; [congruence | simpl; lia]. }
    rewrite py_div_ok by (apply inject_Z_nonzero; lia).
    match goal with |- context [combined_loop rows os (acc ++ [?s]) g] =>
      destruct (IH (acc ++ [s]) g Hos) as [new [Hrun [Hlen' Hall]]]; exists (s :: new)
    end.
    rewrite Hrun, <- app_assoc. simpl. repeat split.
    + congruence.
    + constructor; [|exact Hall].
      apply scaled_mean_bounds; [exact Hpos|].
      apply py_sum_int_bounds. apply Forall_map, Forall_forall.
      intros l _. apply convert_level_to_score_range.
Qed.

Lemma rows_have_all_keys objectives rows rss :
  Forall2 (same_pass objectives) rows rss ->
  Forall (fun o => Forall (fun row => dict_get row o <> None) rows) objectives.
Proof.
  intros Hall. apply Forall_forall. intros o Ho. apply Forall_forall. intros row Hrow.
  destruct (In_nth_error _ _ Hrow) as [i Hi].
  assert (Hrs : exists rs, nth_error rss i = Some rs).
  { destruct (nth_error rss i) as [rs|] eqn:E; [eauto|].
    apply nth_error_None in E. rewrite <- (Forall2_length Hall) in E.
    assert (Hsome : nth_error rows i <> None) by congruence.
    apply nth_error_Some in Hsome. lia. }
  destruct Hrs as [rs Hrs].
  destruct (Forall2_nth_error_both _ _ _ Hall i row rs Hi Hrs)
    as [_ [row0 [levels [Hlevels [_ [Hr _]]]]]].
  rewrite Hr. apply set_levels_has_key; assumption.
Qed.

Lemma analyze_nonempty_spec risks objectives g :
  risks <> [] ->
  exists r g',
    analyze_risk_impacts risks objectives g = (Ok r, g')
    /\ ci_objectives (combined_impact r) = objectives
    /\ List.length (ci_impact_scores (combined_impact r)) = List.length objectives
    /\ Forall (fun s => 10 # 3 <= s /\ s <= 10) (ci_impact_scores (combined_impact r)).
Proof.
  intros Hne. unfold analyze_risk_impacts, bind.
  destruct (risk_loop_spec objectives risks [] [] g) as [rows [rss [g1 [Hloop [Hall Hlen]]]]].
  rewrite Hloop. simpl.
  destruct (combined_loop_bounds rows) with (objectives := objectives) (acc := @nil Q) (g := g1)
    as [scores [Hscores [Hlen' Hb]]].
  - destruct rows; [destruct risks; [congruence | discriminate] | discriminate].
  - exact (rows_have_all_keys objectives rows rss Hall).
  - rewrite Hscores. do 2 eexists. split; [reflexivity|]. simpl.
    repeat split; assumption.
Qed.

(** X5: with at least one risk the scorer always answers; the combined
    impact lists the objectives as given, holds one score per objective, and
    every score lies between 10/3 and 10. *)
Theorem X5_combined_impact_bounds risks objectives g :
  risks <> [] ->
  exists r g',
    analyze_risk_impacts risks objectives g = (Ok r, g')
    /\ ci_objectives (combined_impact r) = objectives
    /\ List.length (ci_impact_scores (combined_impact r)) = List.length objectives
    /\ Forall (fun s => 10 # 3 <= s /\ s <= 10) (ci_impact_scores (combined_impact r)).
Proof. exact (analyze_nonempty_spec risks objectives g). Qed.

Lemma X5_combined_impact_bounds_witness :
  [risk_schedule_high] <> []
  /\ exists r g',
       analyze_risk_impacts [risk_schedule_high] ["Scope"; "Budget"] sample_rng = (Ok r, g')
       /\ ci_objectives (combined_impact r) = ["Scope"; "Budget"]
       /\ List.length (ci_impact_scores (combined_impact r)) = 2%nat
       /\ Forall (fun s => 10 # 3 <= s /\ s <= 10) (ci_impact_scores (combined_impact r)).
Proof.
  split; [discriminate|].
  apply (X5_combined_impact_bounds [risk_schedule_high] ["Scope"; "Budget"] sample_rng).
  discriminate.
Defined.

Lemma analyze_scores_bounds risks objectives g r g' :
  analyze_risk_impacts risks objectives g = (Ok r, g') ->
  ci_objectives (combined_impact r) = objectives
  /\ List.length (ci_impact_scores (combined_impact r)) = List.length objectives
  /\ Forall (fun s => 10 # 3 <= s /\ s <= 10) (ci_impact_scores (combined_impact r)).
Proof.
  intros Hrun. destruct risks as [|r0 rest].
  - destruct objectives as [|o os].
    + inversion Hrun; subst. simpl. repeat split; constructor.
    + discriminate Hrun.
  - destruct (analyze_nonempty_spec (r0 :: rest) objectives g) as [r1 [g1 [Hrun1 H]]];
      [discriminate|].
    rewrite Hrun in Hrun1. inversion Hrun1; subst. exact H.
Qed.

Lemma Qlt_bool_iff_false a b : b <= a -> Qlt_bool a b = false.
Proof.
  intros H. unfold Qlt_bool. apply negb_false_iff. apply Qle_bool_iff. exact H.
Qed.

(** X6: in every result of the scorer no objective's bar is green: a
    combined score is never below 3.33.  The bar is red exactly for the
    scores from 6.67 up, which are the objectives listed as high impact. *)
Theorem X6_bar_is_never_green risks objectives g r g' :
  analyze_risk_impacts risks objectives g = (Ok r, g') ->
  Forall (fun s => marker_color s <> "#4CAF50"
                   /\ (marker_color s = "#F44336" <-> 667 # 100 <= s))
         (ci_impact_scores (combined_impact r))
  /\ high_impact_objs (combined_impact r)
     = map fst (filter (fun os => String.eqb (marker_color (snd os)) "#F44336")
                       (combine objectives (ci_impact_scores (combined_impact r)))).
Proof.
  intros Hrun. destruct (analyze_scores_bounds _ _ _ _ _ Hrun) as [Hobjs [_ Hb]].
  assert (Hcol : forall s, 10 # 3 <= s ->
            marker_color s <> "#4CAF50"
            /\ (marker_color s = "#F44336" <-> 667 # 100 <= s)
            /\ String.eqb (marker_color s) "#F44336" = Qle_bool (667 # 100) s).
  { intros s Hs. unfold marker_color.
    rewrite (Qlt_bool_iff_false s (333 # 100)) by lra.
    unfold Qlt_bool. destruct (Qle_bool (667 # 100) s) eqn:E; simpl.
    - apply Qle_bool_iff in E. repeat split; try discriminate; auto.
    - repeat split; try discriminate.
      intros H. apply Qle_bool_iff in H. congruence. }
  split.
  - apply Forall_impl with (2 := Hb). intros s [Hs _].
    destruct (Hcol s Hs) as [H1 [H2 _]]. split; assumption.
  - unfold high_impact_objs. rewrite Hobjs. f_equal.
    assert (Hin : Forall (fun os : string * Q => 10 # 3 <= snd os)
                    (combine objectives (ci_impact_scores (combined_impact r)))).
    { apply Forall_forall. intros [o s] Hos. apply in_combine_r in Hos.
      rewrite Forall_forall in Hb. simpl. apply Hb. exact Hos. }
    induction Hin as [|[o s] l Hs _ IH]; simpl; [reflexivity|].
    simpl in Hs. destruct (Hcol s Hs) as [_ [_ Heq]]. rewrite Heq, IH. reflexivity.
Qed.

Lemma X6_bar_is_never_green_witness :
  exists r g',
    analyze_risk_impacts [risk_schedule_high] ["Scope"; "Budget"] sample_rng = (Ok r, g')
    /\ Forall (fun s => marker_color s <> "#4CAF50"
                        /\ (marker_color s = "#F44336" <-> 667 # 100 <= s))
              (ci_impact_scores (combined_impact r))
    /\ high_impact_objs (combined_impact r)
       = map fst (filter (fun os => String.eqb (marker_color (snd os)) "#F44336")
                         (combine ["Scope"; "Budget"]
                                  (ci_impact_scores (combined_impact r)))).
Proof.
  do 2 eexists. split; [vm_compute; reflexivity|].
  eapply (X6_bar_is_never_green [risk_schedule_high] ["Scope"; "Budget"] sample_rng).
  vm_compute. reflexivity.
Defined.

(** ** The risk name in the matrix *)

Lemma risk_loop_rows objectives risks : forall matrix scores g,
  exists rows rss g',
    risk_loop risks objectives matrix scores g = (Ok (matrix ++ rows, scores ++ rss), g')
    /\ Forall2 (fun rk row =>
                  exists levels,
                    List.length levels = List.length objectives
                    /\ Forall is_level levels
                    /\ row = set_levels [("Risk", risk_name rk)] (combine objectives levels))
               risks rows
    /\ map rs_risk rss = map risk_name risks.
Proof.
  induction risks as [|rk rest IH]; intros matrix scores g.
  - exists [], [], g. simpl. rewrite !app_nil_r. repeat split; constructor.
  - simpl risk_loop. unfold bind.
    match goal with |- context [objective_loop rk ?b objectives ?row0 [] g] =>
      destruct (objective_loop_spec rk b objectives row0 [] g) as [levels [Hrun [Hlen Hall]]];
      rewrite Hrun
    end.
    cbv beta iota.
    match goal with |- context [risk_loop rest objectives (matrix ++ [?row]) (scores ++ [?rs]) ?g1] =>
      destruct (IH (matrix ++ [row]) (scores ++ [rs]) g1) as [rows [rss [g' [Hrest [Hall2 Hnames]]]]];
      exists (row :: rows), (rs :: rss), g'
    end.
    rewrite Hrest, <- !app_assoc. simpl. repeat split.
    + constructor; [|exact Hall2]. exists levels. repeat split; assumption.
    + f_equal. exact Hnames.
Qed.

Lemma set_levels_level objectives : forall levels row k,
  In k objectives -> List.length levels = List.length objectives ->
  Forall is_level levels ->
  exists l, dict_get (set_levels row (combine objectives levels)) k = Some l /\ is_level l.
Proof.
  induction objectives as [|o os IH]; intros levels row k Hin Hlen Hall.
  - destruct Hin.
  - destruct levels as [|l ls]; [discriminate|]. simpl in Hlen.
    inversion Hall as [|? ? Hl Hls]; subst.
    unfold set_levels. simpl. fold (set_levels (dict_set row o l) (combine os ls)).
    destruct (in_dec string_dec k os) as [Hk | Hk].
    + apply IH; [exact Hk | lia | exact Hls].
    + destruct Hin as [-> | Hin]; [|contradiction].
      exists l. split; [|exact Hl].
      rewrite set_levels_other.
      * apply dict_get_set_same.
      * intros Hin. apply Hk. apply in_map_iff in Hin.
        destruct Hin as [[a b] [Ha Hab]]. simpl in Ha. subst a.
        exact (in_combine_l _ _ _ _ Hab).
Qed.

(** X7: every radar entry carries the risk's description, or "Unknown
    Risk" when it has none.  The matrix row files the same name under
    "Risk", unless an objective is itself labelled "Risk": then the name is
    overwritten by that objective's impact level. *)
Theorem X7_risk_name_in_matrix risks objectives g r g' :
  analyze_risk_impacts risks objectives g = (Ok r, g') ->
  map rs_risk (risk_scores r) = map risk_name risks
  /\ (~ In "Risk" objectives ->
      Forall2 (fun rk row => dict_get row "Risk" = Some (risk_name rk))
              risks (impact_matrix r))
  /\ (In "Risk" objectives ->
      Forall (fun row => exists l, dict_get row "Risk" = Some l /\ is_level l)
             (impact_matrix r)).
Proof.
  unfold analyze_risk_impacts, bind. intros Hrun.
  destruct (risk_loop_rows objectives risks [] [] g)
    as [rows [rss [g1 [Hloop [Hall Hnames]]]]].
  rewrite Hloop in Hrun. simpl in Hrun.
  destruct (combined_loop rows objectives [] g1) as [[scores | e] g2]; [|discriminate].
  inversion Hrun; subst. simpl. split; [exact Hnames|]. split.
  - intros Hnot. apply Forall2_impl with (2 := Hall).
    intros rk row [levels [_ [_ Hrow]]]. rewrite Hrow, set_levels_other.
    + reflexivity.
    + intros Hin. apply Hnot. apply in_map_iff in Hin.
      destruct Hin as [[a b] [Ha Hab]]. simpl in Ha. subst a.
      exact (in_combine_l _ _ _ _ Hab).
  - intros Hin. clear Hloop Hnames Hrun. induction Hall as [|rk row risks rows Hrow _ IH].
    + constructor.
    + constructor; [|exact IH].
      destruct Hrow as [levels [Hlen [Hlv Hrow]]]. rewrite Hrow.
      apply set_levels_level; assumption.
Qed.

Lemma X7_risk_name_in_matrix_witness :
  exists r g',
    analyze_risk_impacts [risk_schedule_high] ["Risk"; "Budget"] sample_rng = (Ok r, g')
    /\ map rs_risk (risk_scores r) = map risk_name [risk_schedule_high]
    /\ (~ In "Risk" ["Risk"; "Budget"] ->
        Forall2 (fun rk row => dict_get row "Risk" = Some (risk_name rk))
                [risk_schedule_high] (impact_matrix r))
    /\ (In "Risk" ["Risk"; "Budget"] ->
        Forall (fun row => exists l, dict_get row "Risk" = Some l /\ is_level l)
               (impact_matrix r)).
Proof.
  do 2 eexists. split; [vm_compute; reflexivity|].
  eapply (X7_risk_name_in_matrix [risk_schedule_high] ["Risk"; "Budget"] sample_rng).
  vm_compute. reflexivity.
Defined.

(** ** Impact levels at the ends of the scale *)

Lemma dict_get_default_all {V} (P : V -> Prop) (d : dict V) k default :
  Forall (fun kv => P (snd kv)) d -> P default -> P (dict_get_default d k default).
Proof.
  intros Hd Hdef. unfold dict_get_default.
  induction Hd as [|[k' v] d Hv _ IH]; simpl.
  - exact Hdef.
  - destruct (String.eqb k' k); [exact Hv | exact IH].
Qed.

Lemma impact_weight_range risk_category objective :
  3 # 10 <= impact_weight risk_category objective
  /\ impact_weight risk_category objective <= 9 # 10.
Proof.
  unfold impact_weight.
  apply (dict_get_default_all (fun w => 3 # 10 <= w /\ w <= 9 # 10)).
  - apply (dict_get_default_all
             (fun row => Forall (fun kv : string * Q => 3 # 10 <= snd kv /\ snd kv <= 9 # 10) row)).
    + unfold category_impact.
      repeat (apply Forall_cons;
              [simpl; repeat (apply Forall_cons; [split; vm_compute; discriminate|]);
               apply Forall_nil|]).
      apply Forall_nil.
    + unfold default_impact.
      repeat (apply Forall_cons; [split; vm_compute; discriminate|]). apply Forall_nil.
  - split; vm_compute; discriminate.
Qed.

(** X8: whatever the category and the objective, a risk of base score 1
    (Low severity and Low probability) is always rated Low, a risk of base
    score 2 is never rated High, and a risk of base score 9 (High and High)
    is never rated Low. *)
Theorem X8_impact_level_at_scale_ends risk_category objective base_score g :
  rng_ok g ->
  exists level,
    generate_impact_level risk_category objective base_score g = (Ok level, advance 1 g)
    /\ is_level level
    /\ (base_score = 1%Z -> level = "Low")
    /\ (base_score = 2%Z -> level <> "High")
    /\ (base_score = 9%Z -> level <> "Low").
Proof.
  intros Hg. destruct (Hg (cursor g)) as [H0 H1].
  destruct (impact_weight_range risk_category objective) as [Hw0 Hw1].
  unfold generate_impact_level, bind. rewrite jitter_run. cbv beta iota.
  fold (impact_weight risk_category objective).
  set (w := impact_weight risk_category objective) in *.
  set (u := source g (cursor g)) in *.
  assert (Hj0 : 8 # 10 <= (8 # 10) + (4 # 10) * u) by lra.
  assert (Hj1 : (8 # 10) + (4 # 10) * u < 12 # 10) by lra.
  set (j := (8 # 10) + (4 # 10) * u) in *.
  assert (Hadj : forall b : Z,
            w * (inject_Z b / (45 # 10)) * j == (inject_Z b * (10 # 45)) * (w * j)).
  { intros b. unfold Qdiv. change (/ (45 # 10)) with (10 # 45). ring. }
  assert (Hwj0 : (24 # 100) <= w * j) by nra.
  assert (Hwj1 : w * j < 108 # 100) by nra.
  set (adj := w * (inject_Z base_score / (45 # 10)) * j).
  assert (Hadj' : adj == (inject_Z base_score * (10 # 45)) * (w * j)) by apply Hadj.
  destruct (negb (Qle_bool adj (66 # 100))) eqn:E1;
    [|destruct (negb (Qle_bool adj (33 # 100))) eqn:E2];
    eexists; (split; [reflexivity|]); (split; [unfold is_level; tauto|]).
  - apply negb_true_iff in E1.
    assert (Hgt : 66 # 100 < adj).
    { apply Qnot_le_lt. intros H. apply Qle_bool_iff in H. congruence. }
    rewrite Hadj' in Hgt. split; [|split]; intros Hb; try discriminate; subst base_score.
    + change (inject_Z 1) with 1 in Hgt. exfalso. lra.
    + change (inject_Z 2) with 2 in Hgt. exfalso. lra.
  - apply negb_true_iff in E2.
    assert (Hgt : 33 # 100 < adj).
    { apply Qnot_le_lt. intros H. apply Qle_bool_iff in H. congruence. }
    rewrite Hadj' in Hgt. split; [|split]; intros Hb; try discriminate; subst base_score.
    change (inject_Z 1) with 1 in Hgt. exfalso. lra.
  - apply negb_false_iff, Qle_bool_iff in E2. rewrite Hadj' in E2.
    split; [|split]; intros Hb; try discriminate; try reflexivity; subst base_score.
    change (inject_Z 9) with 9 in E2. exfalso. lra.
Qed.

Lemma X8_impact_level_at_scale_ends_witness :
  rng_ok sample_rng
  /\ exists level,
       generate_impact_level "schedule" "Scope" 9 sample_rng = (Ok level, advance 1 sample_rng)
       /\ is_level level
       /\ (9%Z = 1%Z -> level = "Low")
       /\ (9%Z = 2%Z -> level <> "High")
       /\ (9%Z = 9%Z -> level <> "Low").
Proof.
  split; [exact sample_rng_ok|].
  apply (X8_impact_level_at_scale_ends "schedule" "Scope" 9 sample_rng sample_rng_ok).
Defined.

(** ** More on the mitigation ranking *)

Lemma strategy_loop_simulated r pr ir : forall cands acc g,
  exists new,
    strategy_loop r (calculate_risk_score r) pr ir cands acc g
    = (Ok (acc ++ new), advance (2 * List.length cands) g)
    /\ map candidate_of new = cands
    /\ Forall (simulated_from g r pr ir) new.
Proof.
  assert (Hinit : calculate_risk_score r <> 0%Z)
    by (pose proof (calculate_risk_score_range r); lia).
  induction cands as [|[strategy cost] rest IH]; intros acc g.
  - exists []. simpl. rewrite app_nil_r, advance_0. repeat split; constructor.
  - simpl strategy_loop. unfold bind.
    rewrite jitter_run; cbv beta iota. rewrite jitter_run; cbv beta iota.
    rewrite py_div_ok by (apply inject_Z_nonzero; exact Hinit). cbv beta iota.
    assert (Hshift : forall new, Forall (simulated_from (advance 1 (advance 1 g)) r pr ir) new ->
                                 Forall (simulated_from g r pr ir) new).
    { intros new H. apply Forall_impl with (2 := H). intros s Hs. exact Hs. }
    destruct (0 <? cost)%Z eqn:Ec.
    + pose proof Ec as Ec'. apply Z.ltb_lt in Ec'.
      rewrite py_div_ok by (apply cost_per_thousand_nonzero; exact Ec'). cbv beta iota.
      match goal with |- context [strategy_loop _ _ _ _ rest (acc ++ [?s]) ?g1] =>
        destruct (IH (acc ++ [s]) g1) as [new [Hrun [Hmap Hall]]]; exists (s :: new)
      end.
      rewrite Hrun, <- app_assoc, !advance_advance. simpl. repeat split.
      * do 2 f_equal. lia.
      * unfold candidate_of at 1. simpl. f_equal. exact Hmap.
      * constructor; [|apply Hshift; exact Hall].
        exists (cursor g), (cursor (advance 1 g)). simpl. rewrite Ec.
        repeat split; reflexivity.
    + unfold ret at 1. cbv beta iota.
      match goal with |- context [strategy_loop _ _ _ _ rest (acc ++ [?s]) ?g1] =>
        destruct (IH (acc ++ [s]) g1) as [new [Hrun [Hmap Hall]]]; exists (s :: new)
      end.
      rewrite Hrun, <- app_assoc, !advance_advance. simpl. repeat split.
      * do 2 f_equal. lia.
      * unfold candidate_of at 1. simpl. f_equal. exact Hmap.
      * constructor; [|apply Hshift; exact Hall].
        exists (cursor g), (cursor (advance 1 g)). simpl. rewrite Ec.
        repeat split; reflexivity.
Qed.

Lemma rank_run r pr ir cands g :
  exists unsorted,
    mitigation_results r pr ir cands g = (Ok unsorted, advance (2 * List.length cands) g)
    /\ rank_mitigation_strategies r pr ir cands g
       = (Ok (list_sort sr_cost_effectiveness true unsorted),
          advance (2 * List.length cands) g)
    /\ map candidate_of unsorted = cands
    /\ Forall (simulated_from g r pr ir) unsorted.
Proof.
  destruct (strategy_loop_simulated r pr ir cands [] g) as [new [Hrun [Hmap Hall]]].
  exists new. unfold rank_mitigation_strategies, bind, mitigation_results.
  rewrite Hrun. repeat split; assumption.
Qed.

Lemma Forall_list_sort {A} (P : A -> Prop) key reverse (l : list A) :
  Forall P l -> Forall P (list_sort key reverse l).
Proof.
  intros H. rewrite Forall_forall in *. intros x Hx. apply H.
  exact (Permutation_in _ (list_sort_perm key reverse l) Hx).
Qed.

(** X9: a candidate whose cost is not positive gets cost-effectiveness 0
    and no division takes place; a candidate of positive cost gets its
    reduction percent per 1000 of cost.  The ranking never raises. *)
Theorem X9_cost_effectiveness_rule r pr ir cands g :
  exists ranked g',
    rank_mitigation_strategies r pr ir cands g = (Ok ranked, g')
    /\ Forall (fun s =>
                 ((sr_cost s <= 0)%Z -> sr_cost_effectiveness s = 0)
                 /\ ((0 < sr_cost s)%Z ->
                     sr_cost_effectiveness s
                     = sr_reduction_percent s / (inject_Z (sr_cost s) / 1000)))
              ranked.
Proof.
  destruct (rank_run r pr ir cands g) as [unsorted [_ [Hrank [_ Hall]]]].
  do 2 eexists. split; [exact Hrank|]. apply Forall_list_sort.
  apply Forall_impl with (2 := Hall).
  intros s [i1 [i2 [_ [_ [_ Hce]]]]]. split; intros Hc.
  - rewrite Hce. replace (0 <? sr_cost s)%Z with false; [reflexivity|].
    symmetry. apply Z.ltb_ge. exact Hc.
  - rewrite Hce. replace (0 <? sr_cost s)%Z with true; [reflexivity|].
    symmetry. apply Z.ltb_lt. exact Hc.
Qed.

Lemma jitter_bounds g i :
  rng_ok g ->
  8 # 10 <= (8 # 10) + (4 # 10) * source g i /\ (8 # 10) + (4 # 10) * source g i < 12 # 10.
Proof. intros Hg. destruct (Hg i). split; lra. Qed.

Lemma remaining_share (p : Z) j :
  (0 <= p <= 83)%Z -> 8 # 10 <= j -> j < 12 # 10 ->
  0 <= 1 - inject_Z p / 100 * j /\ 1 - inject_Z p / 100 * j <= 1.
Proof.
  intros [Hp0 Hp1] Hj0 Hj1.
  assert (H0 : 0 <= inject_Z p) by (change 0 with (inject_Z 0); rewrite <- Zle_Qle; lia).
  assert (H1 : inject_Z p <= 83) by (change 83 with (inject_Z 83); rewrite <- Zle_Qle; lia).
  unfold Qdiv. change (/ 100) with (1 # 100). split; nra.
Qed.

Lemma simulated_from_bounds g r pr ir s :
  rng_ok g -> (0 <= pr <= 83)%Z -> (0 <= ir <= 83)%Z ->
  simulated_from g r pr ir s ->
  0 <= sr_new_score s /\ sr_new_score s <= inject_Z (sr_initial_score s)
  /\ 0 <= sr_reduction_percent s /\ sr_reduction_percent s <= 100
  /\ 0 <= sr_cost_effectiveness s.
Proof.
  intros Hg Hpr Hir [i1 [i2 [Hinit [Hnew [Hred Hce]]]]].
  destruct (jitter_bounds g i1 Hg) as [Hj1 Hj1'].
  destruct (jitter_bounds g i2 Hg) as [Hj2 Hj2'].
  destruct (remaining_share pr _ Hpr Hj1 Hj1') as [Ha0 Ha1].
  destruct (remaining_share ir _ Hir Hj2 Hj2') as [Hb0 Hb1].
  set (a := 1 - inject_Z pr / 100 * ((8 # 10) + (4 # 10) * source g i1)) in *.
  set (b := 1 - inject_Z ir / 100 * ((8 # 10) + (4 # 10) * source g i2)) in *.
  pose proof (convert_level_to_score_range (dict_get_default r "probability" "Medium")) as HP.
  pose proof (convert_level_to_score_range (dict_get_default r "impact" "Medium")) as HI.
  set (P := convert_level_to_score (dict_get_default r "probability" "Medium")) in *.
  set (I := convert_level_to_score (dict_get_default r "impact" "Medium")) in *.
  assert (HinitQ : inject_Z (calculate_risk_score r) == inject_Z P * inject_Z I).
  { unfold calculate_risk_score. fold P I. rewrite inject_Z_mult. reflexivity. }
  assert (HP1 : 1 <= inject_Z P) by (change 1 with (inject_Z 1); rewrite <- Zle_Qle; lia).
  assert (HI1 : 1 <= inject_Z I) by (change 1 with (inject_Z 1); rewrite <- Zle_Qle; lia).
  assert (Hpos : 0 < inject_Z P * inject_Z I) by nra.
  assert (Hab0 : 0 <= a * b) by (apply Qmult_le_0_compat; assumption).
  assert (Hab1 : a * b <= 1) by nra.
  assert (HnewQ : sr_new_score s == (inject_Z P * inject_Z I) * (a * b)).
  { rewrite Hnew. ring. }
  assert (HredQ : sr_reduction_percent s == (1 - a * b) * 100).
  { rewrite Hred, HnewQ, HinitQ. field. lra. }
  assert (Hred0 : 0 <= sr_reduction_percent s) by (rewrite HredQ; nra).
  split; [rewrite HnewQ; nra|]. split; [rewrite Hinit, HnewQ, HinitQ; nra|].
  split; [exact Hred0|]. split; [rewrite HredQ; nra|].
  rewrite Hce. destruct (0 <? sr_cost s)%Z eqn:Ec; [|lra].
  apply Z.ltb_lt in Ec.
  assert (Hc : 0 < inject_Z (sr_cost s) / 1000).
  { assert (0 < inject_Z (sr_cost s))
      by (change 0 with (inject_Z 0); rewrite <- Zlt_Qlt; exact Ec).
    unfold Qdiv. change (/ 1000) with (1 # 1000). lra. }
  apply Qle_shift_div_l; [exact Hc|]. lra.
Qed.

(** X10: when both reduction potentials are between 0 and 83 percent, no
    strategy makes the risk worse or reduces it by more than everything:
    every new score lies between 0 and the initial score, every reduction
    percent between 0 and 100, and no cost-effectiveness is negative. *)
Theorem X10_mitigation_stays_in_range r pr ir cands g :
  rng_ok g -> (0 <= pr <= 83)%Z -> (0 <= ir <= 83)%Z ->
  exists ranked g',
    rank_mitigation_strategies r pr ir cands g = (Ok ranked, g')
    /\ Forall (fun s =>
                 0 <= sr_new_score s /\ sr_new_score s <= inject_Z (sr_initial_score s)
                 /\ 0 <= sr_reduction_percent s /\ sr_reduction_percent s <= 100
                 /\ 0 <= sr_cost_effectiveness s)
              ranked.
Proof.
  intros Hg Hpr Hir.
  destruct (rank_run r pr ir cands g) as [unsorted [_ [Hrank [_ Hall]]]].
  do 2 eexists. split; [exact Hrank|]. apply Forall_list_sort.
  apply Forall_impl with (2 := Hall). intros s Hs.
  exact (simulated_from_bounds g r pr ir s Hg Hpr Hir Hs).
Qed.

Lemma X10_mitigation_stays_in_range_witness :
  rng_ok sample_rng /\ (0 <= 50 <= 83)%Z /\ (0 <= 30 <= 83)%Z
  /\ exists ranked g',
       rank_mitigation_strategies risk_high_high_low 50 30
         [("Add buffer time", 1000%Z); ("Accept the risk", 0%Z)] sample_rng = (Ok ranked, g')
       /\ Forall (fun s =>
                    0 <= sr_new_score s /\ sr_new_score s <= inject_Z (sr_initial_score s)
                    /\ 0 <= sr_reduction_percent s /\ sr_reduction_percent s <= 100
                    /\ 0 <= sr_cost_effectiveness s)
                 ranked.
Proof.
  split; [exact sample_rng_ok|]. split; [lia|]. split; [lia|].
  apply (X10_mitigation_stays_in_range risk_high_high_low 50 30
           [("Add buffer time", 1000%Z); ("Accept the risk", 0%Z)] sample_rng sample_rng_ok);
    lia.
Defined.

(** With a potential of 100 percent the bound fails: a jitter above 1
    drives the new probability score below 0. *)
Example full_potential_overshoots :
  exists ranked g',
    rank_mitigation_strategies risk_high_high_low 100 0
      [("Add buffer time", 1000%Z)] (mkRng (fun _ => 99 # 100) 0) = (Ok ranked, g')
    /\ Forall (fun s => sr_new_score s < 0 /\ 100 < sr_reduction_percent s) ranked.
Proof.
  do 2 eexists. split; [vm_compute; reflexivity|].
  repeat constructor.
Qed.

Lemma filter_all {A} (f : A -> bool) (l : list A) :
  Forall (fun x => f x = true) l -> filter f l = l.
Proof.
  induction 1 as [|x l Hx _ IH]; simpl; [reflexivity|]. rewrite Hx, IH. reflexivity.
Qed.

(** A stable sort leaves a list of equal keys as it is. *)
Lemma list_sort_equal_keys {A} (key : A -> Q) k (l : list A) :
  Forall (fun x => key x == k) l -> list_sort key true l = l.
Proof.
  intros H.
  assert (Hf : forall l', Forall (fun x => key x == k) l' ->
                          filter (fun s => Qeq_bool (key s) k) l' = l').
  { intros l' H'. apply filter_all. apply Forall_impl with (2 := H').
    intros x Hx. apply Qeq_bool_iff. exact Hx. }
  rewrite <- (Hf (list_sort key true l)) by (apply Forall_list_sort; exact H).
  rewrite list_sort_reverse_stable. apply Hf. exact H.
Qed.

Lemma simulated_from_nothing g r s :
  simulated_from g r 0 0 s ->
  sr_new_score s == inject_Z (sr_initial_score s)
  /\ sr_reduction_percent s == 0 /\ sr_cost_effectiveness s == 0.
Proof.
  intros [i1 [i2 [Hinit [Hnew [Hred Hce]]]]].
  assert (HinitQ : inject_Z (calculate_risk_score r)
                   == inject_Z (convert_level_to_score (dict_get_default r "probability" "Medium"))
                      * inject_Z (convert_level_to_score (dict_get_default r "impact" "Medium"))).
  { unfold calculate_risk_score. rewrite inject_Z_mult. reflexivity. }
  assert (HnewQ : sr_new_score s == inject_Z (calculate_risk_score r)).
  { rewrite Hnew, HinitQ. change (inject_Z 0) with 0. unfold Qdiv. ring. }
  assert (HredQ : sr_reduction_percent s == 0).
  { rewrite Hred, HnewQ. unfold Qdiv. ring. }
  split; [rewrite Hinit; exact HnewQ|]. split; [exact HredQ|].
  rewrite Hce. destruct (0 <? sr_cost s)%Z; [|reflexivity].
  rewrite HredQ. unfold Qdiv. ring.
Qed.

(** X11: with both reduction potentials at 0 nothing is reduced, every
    cost-effectiveness is 0, and the ranking returns the candidates in the
    order they were entered. *)
Theorem X11_zero_potential_keeps_order r cands g :
  exists ranked g',
    rank_mitigation_strategies r 0 0 cands g = (Ok ranked, g')
    /\ map candidate_of ranked = cands
    /\ Forall (fun s => sr_new_score s == inject_Z (sr_initial_score s)
                        /\ sr_reduction_percent s == 0
                        /\ sr_cost_effectiveness s == 0)
              ranked.
Proof.
  destruct (rank_run r 0 0 cands g) as [unsorted [_ [Hrank [Hmap Hall]]]].
  assert (Hzero : Forall (fun s => sr_new_score s == inject_Z (sr_initial_score s)
                                   /\ sr_reduction_percent s == 0
                                   /\ sr_cost_effectiveness s == 0) unsorted).
  { apply Forall_impl with (2 := Hall). intros s Hs. exact (simulated_from_nothing g r s Hs). }
  rewrite (list_sort_equal_keys sr_cost_effectiveness 0 unsorted) in Hrank.
  - do 2 eexists. split; [exact Hrank|]. split; assumption.
  - apply Forall_impl with (2 := Hzero). intros s [_ [_ H]]. exact H.
Qed.

Lemma fold_max_head r x :
  Forall (fun y => y <= x) r ->
  fold_left (fun m y => if Qlt_bool m y then y else m) r x = x.
Proof.
  induction 1 as [|y r Hy _ IH]; simpl; [reflexivity|].
  rewrite (Qlt_bool_iff_false x y Hy). exact IH.
Qed.

Lemma recommend_ranked best rest g :
  StronglySorted (fun a b => sr_cost_effectiveness b <= sr_cost_effectiveness a)
                 (best :: rest) ->
  recommend (best :: rest) g = (Ok (sr_cost_effectiveness best, Some best, best), g).
Proof.
  intros Hs. inversion Hs as [|? ? _ Hle]; subst.
  unfold recommend, bind. simpl py_max.
  rewrite fold_max_head by (apply Forall_map; exact Hle).
  unfold ret. simpl.
  replace (Qeq_bool (sr_cost_effectiveness best) (sr_cost_effectiveness best)) with true.
  - reflexivity.
  - symmetry. apply Qeq_bool_iff. reflexivity.
Qed.

(** X12: with at least one candidate the recommendation never fails: the
    recommended strategy is the head of the ranking, no candidate is more
    cost-effective, the chart's best result is the same one, and among the
    candidates that tie with it it is the one entered first.  On an empty
    result list the block raises [ValueError], from [max]. *)
Theorem X12_recommendation_is_the_best r pr ir cands g :
  cands <> [] ->
  exists unsorted ranked best g',
    mitigation_results r pr ir cands g = (Ok unsorted, g')
    /\ rank_mitigation_strategies r pr ir cands g = (Ok ranked, g')
    /\ recommend ranked g' = (Ok (sr_cost_effectiveness best, Some best, best), g')
    /\ hd_error ranked = Some best
    /\ Forall (fun s => sr_cost_effectiveness s <= sr_cost_effectiveness best) unsorted
    /\ hd_error (with_effectiveness (sr_cost_effectiveness best) unsorted) = Some best
    /\ recommend [] g' = (Err ValueError, g').
Proof.
  intros Hne.
  destruct (rank_run r pr ir cands g) as [unsorted [Hres [Hrank [Hmap _]]]].
  pose proof (list_sort_reverse_descending sr_cost_effectiveness unsorted) as Hdesc.
  pose proof (list_sort_perm sr_cost_effectiveness true unsorted) as Hperm.
  pose proof (list_sort_reverse_stable sr_cost_effectiveness) as Hstable.
  destruct (list_sort sr_cost_effectiveness true unsorted) as [|best rest] eqn:E.
  - apply Permutation_nil in Hperm. subst unsorted. simpl in Hmap. congruence.
  - exists unsorted, (best :: rest), best. eexists.
    split; [exact Hres|]. split; [exact Hrank|].
    split; [apply recommend_ranked; exact Hdesc|]. split; [reflexivity|]. split.
    + inversion Hdesc as [|? ? _ Hle]; subst.
      rewrite Forall_forall in *. intros s Hs.
      apply Permutation_sym in Hperm.
      destruct (Permutation_in _ Hperm Hs) as [<- | Hin]; [apply Qle_refl | apply Hle, Hin].
    + split; [|reflexivity].
      unfold with_effectiveness. rewrite <- (Hstable (sr_cost_effectiveness best) unsorted), E.
      simpl.
      replace (Qeq_bool (sr_cost_effectiveness best) (sr_cost_effectiveness best)) with true.
      * reflexivity.
      * symmetry. apply Qeq_bool_iff. reflexivity.
Qed.

Lemma X12_recommendation_is_the_best_witness :
  [("Add buffer time", 2000%Z); ("Accept the risk", 0%Z); ("Fast-track", 1000%Z)] <> []
  /\ exists unsorted ranked best g',
       mitigation_results risk_high_high_low 50 30
         [("Add buffer time", 2000%Z); ("Accept the risk", 0%Z); ("Fast-track", 1000%Z)]
         sample_rng = (Ok unsorted, g')
       /\ rank_mitigation_strategies risk_high_high_low 50 30
            [("Add buffer time", 2000%Z); ("Accept the risk", 0%Z); ("Fast-track", 1000%Z)]
            sample_rng = (Ok ranked, g')
       /\ recommend ranked g' = (Ok (sr_cost_effectiveness best, Some best, best), g')
       /\ hd_error ranked = Some best
       /\ Forall (fun s => sr_cost_effectiveness s <= sr_cost_effectiveness best) unsorted
       /\ hd_error (with_effectiveness (sr_cost_effectiveness best) unsorted) = Some best
       /\ recommend [] g' = (Err ValueError, g').
Proof.
  split; [discriminate|].
  apply (X12_recommendation_is_the_best risk_high_high_low 50 30
           [("Add buffer time", 2000%Z); ("Accept the risk", 0%Z); ("Fast-track", 1000%Z)]
           sample_rng).
  discriminate.
Defined.

(** ** Alternative strategies *)

Lemma dict_set_keys_in {V} (d : dict V) k v x :
  In x (dict_keys (dict_set d k v)) <-> x = k \/ In x (dict_keys d).
Proof.
  unfold dict_keys. induction d as [|[k' v'] d IH]; simpl.
  - intuition.
  - destruct (String.eqb k' k) eqn:E; simpl.
    + apply String.eqb_eq in E. subst k'. intuition.
    + rewrite IH. intuition.
Qed.

Lemma dict_set_keys_nodup {V} (d : dict V) k v :
  NoDup (dict_keys d) -> NoDup (dict_keys (dict_set d k v)).
Proof.
  induction d as [|[k' v'] d IH]; intros Hnd.
  - simpl. constructor; [intros [] | constructor].
  - unfold dict_keys in Hnd. simpl in Hnd. inversion Hnd as [|? ? Hnotin Hnd']; subst.
    simpl. destruct (String.eqb k' k) eqn:E.
    + apply String.eqb_eq in E. subst k'. unfold dict_keys. simpl. constructor; assumption.
    + apply String.eqb_neq in E. unfold dict_keys. simpl. constructor.
      * intros Hin. apply (dict_set_keys_in d k v k') in Hin. destruct Hin; [congruence|].
        contradiction.
      * apply IH. exact Hnd'.
Qed.

Lemma dict_set_keys_head {V} (d : dict V) k v :
  d <> [] -> hd_error (dict_keys (dict_set d k v)) = hd_error (dict_keys d).
Proof.
  destruct d as [|[k' v'] d]; [congruence|]. intros _. simpl.
  destruct (String.eqb k' k) eqn:E; simpl; [|reflexivity].
  apply String.eqb_eq in E. subst. reflexivity.
Qed.

Lemma dict_set_nonempty {V} (d : dict V) k v : dict_set d k v <> [].
Proof. destruct d as [|[k' v'] d]; simpl; [|destruct (String.eqb k' k)]; discriminate. Qed.

Lemma dict_set_length {V} (d : dict V) k v :
  (List.length (dict_set d k v) <= S (List.length d))%nat.
Proof.
  induction d as [|[k' v'] d IH]; simpl; [lia|].
  destruct (String.eqb k' k); simpl; lia.
Qed.

Lemma fromkeys_fold keys : forall d : dict unit,
  let d' := fold_left (fun d k => dict_set d k tt) keys d in
  (NoDup (dict_keys d) -> NoDup (dict_keys d'))
  /\ (forall x, In x (dict_keys d') <-> In x keys \/ In x (dict_keys d))
  /\ (d <> [] -> hd_error (dict_keys d') = hd_error (dict_keys d))
  /\ (List.length d' <= List.length keys + List.length d)%nat.
Proof.
  induction keys as [|k keys IH]; intros d; simpl.
  - repeat split; try tauto; intuition.
  - destruct (IH (dict_set d k tt)) as [Hnd [Hin [Hhd Hlen]]]. repeat split.
    + intros H. apply Hnd. apply dict_set_keys_nodup. exact H.
    + intros H. apply Hin in H. rewrite dict_set_keys_in in H. intuition.
    + intros H. apply Hin. rewrite dict_set_keys_in. intuition.
    + intros H. rewrite Hhd by apply dict_set_nonempty. apply dict_set_keys_head. exact H.
    + pose proof (dict_set_length d k tt). lia.
Qed.

(** [list(dict.fromkeys(keys))] removes repetitions and nothing else, and
    keeps the first key first. *)
Lemma fromkeys_spec keys :
  NoDup (dict_keys (dict_fromkeys keys))
  /\ (forall x, In x (dict_keys (dict_fromkeys keys)) <-> In x keys)
  /\ hd_error (dict_keys (dict_fromkeys keys)) = hd_error keys
  /\ (List.length (dict_keys (dict_fromkeys keys)) <= List.length keys)%nat.
Proof.
  unfold dict_fromkeys. destruct (fromkeys_fold keys []) as [Hnd [Hin [_ Hlen]]].
  split; [apply Hnd; constructor|]. split; [intros x; rewrite Hin; simpl; tauto|]. split.
  - destruct keys as [|k keys]; [reflexivity|]. simpl.
    destruct (fromkeys_fold keys [(k, tt)]) as [_ [_ [Hhd _]]].
    rewrite Hhd by discriminate. reflexivity.
  - unfold dict_keys. rewrite length_map. simpl in Hlen. lia.
Qed.

Lemma str_truthy_iff s : str_truthy s = true <-> s <> EmptyString.
Proof. destruct s; simpl; split; intros H; congruence. Qed.

(** X13: the alternative strategies offered for a risk are pairwise
    distinct and never the empty string, always include the three generic
    strategies, number between 3 and 7, and start with the risk's current
    mitigation when it has one.  Only the empty string is dropped: a
    mitigation made of white space is offered as it is. *)
Theorem X13_alternative_strategies r :
  NoDup (generate_alternative_strategies r)
  /\ Forall (fun s => s <> EmptyString) (generate_alternative_strategies r)
  /\ incl generic_strategies (generate_alternative_strategies r)
  /\ (3 <= List.length (generate_alternative_strategies r) <= 7)%nat
  /\ (forall m, dict_get r "mitigation" = Some m -> m <> EmptyString ->
                hd_error (generate_alternative_strategies r) = Some m).
Proof.
  unfold generate_alternative_strategies.
  set (specific := dict_get_default category_strategies
                     (lower (dict_get_default r "category" EmptyString)) []).
  set (current := dict_get_default r "mitigation" EmptyString).
  set (strategies := ((if str_truthy current then [current] else []) ++ specific)
                     ++ generic_strategies).
  destruct (fromkeys_spec (filter str_truthy strategies)) as [Hnd [Hin [Hhd Hlen]]].
  assert (Hgen : incl generic_strategies (dict_keys (dict_fromkeys (filter str_truthy strategies)))).
  { intros x Hx. apply Hin. apply filter_In. split.
    - subst strategies. apply in_or_app. right. exact Hx.
    - simpl in Hx. destruct Hx as [<- | [<- | [<- | []]]]; reflexivity. }
  assert (Hspec : (List.length specific <= 3)%nat).
  { subst specific.
    apply (dict_get_default_all (fun l : list string => (List.length l <= 3)%nat)).
    - unfold category_strategies. repeat (apply Forall_cons; [simpl; lia|]). apply Forall_nil.
    - simpl. lia. }
  split; [exact Hnd|]. split.
  { apply Forall_forall. intros x Hx. apply Hin, filter_In in Hx.
    apply str_truthy_iff. tauto. }
  split; [exact Hgen|]. split.
  { split.
    - apply (NoDup_incl_length (l := generic_strategies)); [|exact Hgen].
      unfold generic_strategies.
      repeat (constructor; [simpl; intuition discriminate|]). constructor.
    - pose proof (filter_length_le str_truthy strategies) as Hf.
      assert (Hs : (List.length strategies <= 7)%nat).
      { subst strategies. rewrite !length_app. simpl.
        destruct (str_truthy current); simpl; lia. }
      lia. }
  intros m Hm Hne. rewrite Hhd.
  assert (Hcur : current = m).
  { subst current. unfold dict_get_default. rewrite Hm. reflexivity. }
  subst strategies. rewrite Hcur.
  apply str_truthy_iff in Hne. rewrite Hne. simpl. rewrite Hne. reflexivity.
Qed.

Lemma X13_alternative_strategies_witness :
  dict_get [("category", "Schedule"); ("mitigation", "Add buffer time to critical path activities")]
           "mitigation" = Some "Add buffer time to critical path activities"
  /\ hd_error (generate_alternative_strategies
                 [("category", "Schedule");
                  ("mitigation", "Add buffer time to critical path activities")])
     = Some "Add buffer time to critical path activities"
  /\ List.length (generate_alternative_strategies
                    [("category", "Schedule");
                     ("mitigation", "Add buffer time to critical path activities")]) = 6%nat.
Proof.
  split; [reflexivity|]. split; [|reflexivity].
  apply (proj2 (proj2 (proj2 (proj2 (X13_alternative_strategies
           [("category", "Schedule");
            ("mitigation", "Add buffer time to critical path activities")]))))).
  - reflexivity.
  - discriminate.
Defined.

Example white_space_mitigation_is_offered :
  hd_error (generate_alternative_strategies [("mitigation", " ")]) = Some " ".
Proof. reflexivity. Qed.

(** ** The impact analysis view *)

Lemma str_in_true x l : In x l -> str_in x l = true.
Proof.
  intros H. unfold str_in. apply existsb_exists. exists x.
  split; [exact H | apply String.eqb_refl].
Qed.

Lemma str_in_false x l : ~ In x l -> str_in x l = false.
Proof.
  intros H. unfold str_in. destruct (existsb (String.eqb x) l) eqn:E; [|reflexivity].
  apply existsb_exists in E. destruct E as [y [Hy Heq]].
  apply String.eqb_eq in Heq. subst y. contradiction.
Qed.

Lemma described_label (r : risk) d fallback :
  dict_get r "description" = Some d -> dict_get_default r "description" fallback = d.
Proof. intros H. unfold dict_get_default. rewrite H. reflexivity. Qed.

Lemma filter_none {A} (f : A -> bool) (l : list A) :
  Forall (fun x => f x = false) l -> filter f l = [].
Proof.
  induction 1 as [|x l Hx _ IH]; simpl; [reflexivity|]. rewrite Hx. exact IH.
Qed.

Lemma labels_cover_described risks : forall i (r : risk),
  In r risks -> dict_get r "description" <> None ->
  In (dict_get_default r "description" EmptyString) (risk_labels_from i risks).
Proof.
  induction risks as [|r0 rest IH]; intros i r Hin Hd; [destruct Hin|].
  simpl. destruct Hin as [-> | Hin].
  - left. destruct (dict_get r "description") as [d|] eqn:E; [|congruence].
    rewrite (described_label r d _ E), (described_label r d _ E). reflexivity.
  - right. apply IH; assumption.
Qed.

Lemma placeholder_labels risks : forall i,
  Forall (fun r => dict_get r "description" = None) risks ->
  ~ In EmptyString (risk_labels_from i risks).
Proof.
  induction risks as [|r0 rest IH]; intros i Hall Hin; [destruct Hin|].
  inversion Hall as [|? ? Hr Hrest]; subst. simpl in Hin. destruct Hin as [Heq | Hin].
  - unfold dict_get_default in Heq. rewrite Hr in Heq. discriminate Heq.
  - exact (IH (S i) Hrest Hin).
Qed.

(** X14: when the user selects no risk and every risk has a description,
    the view analyses all the risks: its result is the scorer's result on
    the whole list. *)
Theorem X14_blank_selection_analyses_all risks objectives g :
  risks <> [] -> Forall (fun r => dict_get r "description" <> None) risks ->
  exists r g',
    analyze_risk_impacts risks objectives g = (Ok r, g')
    /\ show_risk_impact_analysis risks [] objectives g = (Ok (Analysed r), g').
Proof.
  intros Hne Hall.
  destruct (analyze_nonempty_spec risks objectives g Hne) as [r [g' [Hrun _]]].
  exists r, g'. split; [exact Hrun|].
  unfold show_risk_impact_analysis. destruct risks as [|r0 rest]; [congruence|].
  rewrite filter_all.
  - unfold bind. rewrite Hrun. reflexivity.
  - rewrite Forall_forall in *. intros x Hx. apply str_in_true.
    apply labels_cover_described; [exact Hx | apply Hall; exact Hx].
Qed.

Lemma X14_blank_selection_analyses_all_witness :
  [risk_schedule_high; risk_high_high_low] <> []
  /\ Forall (fun r => dict_get r "description" <> None) [risk_schedule_high; risk_high_high_low]
  /\ exists r g',
       analyze_risk_impacts [risk_schedule_high; risk_high_high_low] ["Schedule"] sample_rng
       = (Ok r, g')
       /\ show_risk_impact_analysis [risk_schedule_high; risk_high_high_low] [] ["Schedule"]
            sample_rng = (Ok (Analysed r), g').
Proof.
  assert (H : Forall (fun r => dict_get r "description" <> None)
                     [risk_schedule_high; risk_high_high_low]).
  { repeat (apply Forall_cons; [discriminate|]). apply Forall_nil. }
  split; [discriminate|]. split; [exact H|].
  apply (X14_blank_selection_analyses_all [risk_schedule_high; risk_high_high_low]
           ["Schedule"] sample_rng); [discriminate | exact H].
Defined.

(** X15: when the user selects no risk and no risk has a description, the
    view falls back to the placeholder labels "Risk 1", "Risk 2", ..., which
    match no risk: nothing is left to analyse, and with at least one
    objective the view fails with [ZeroDivisionError]. *)
Theorem X15_undescribed_risks_crash_the_view risks objective objectives g :
  risks <> [] -> Forall (fun r => dict_get r "description" = None) risks ->
  show_risk_impact_analysis risks [] (objective :: objectives) g
  = (Err ZeroDivisionError, g).
Proof.
  intros Hne Hall. unfold show_risk_impact_analysis.
  destruct risks as [|r0 rest]; [congruence|].
  assert (Hnone : filter (fun r => str_in (dict_get_default r "description" EmptyString)
                                          (risk_labels (r0 :: rest))) (r0 :: rest) = []).
  { apply filter_none. apply Forall_forall. intros x Hx.
    rewrite Forall_forall in Hall. unfold dict_get_default at 1. rewrite (Hall x Hx).
    rewrite str_in_false; [reflexivity|].
    apply placeholder_labels. apply Forall_forall. exact Hall. }
  rewrite Hnone. reflexivity.
Qed.

Lemma X15_undescribed_risks_crash_the_view_witness :
  [[("severity", "High")]] <> @nil risk
  /\ Forall (fun r : risk => dict_get r "description" = None) [[("severity", "High")]]
  /\ show_risk_impact_analysis [[("severity", "High")]] [] ["Schedule"] sample_rng
     = (Err ZeroDivisionError, sample_rng).
Proof.
  assert (H : Forall (fun r : risk => dict_get r "description" = None)
                     [[("severity", "High")]]).
  { apply Forall_cons; [reflexivity | apply Forall_nil]. }
  split; [discriminate|]. split; [exact H|].
  apply (X15_undescribed_risks_crash_the_view [[("severity", "High")]] "Schedule" []
           sample_rng); [discriminate | exact H].
Defined.

(** ** The combined impact is the mean of the radar scores *)

Lemma py_sum_radar cs :
  py_sum (map (fun c : Z => inject_Z (c * 10) / 3) cs) == inject_Z (py_sum_int cs) * (10 # 3).
Proof.
  induction cs as [|c cs IH].
  - reflexivity.
  - simpl map. rewrite py_sum_cons, IH. unfold py_sum_int. simpl.
    rewrite (py_sum_int_shift cs c), !inject_Z_plus, inject_Z_mult.
    unfold Qdiv. change (/ 3) with (1 # 3). change (inject_Z 10) with 10. ring.
Qed.

(** The column of an objective, read off the rows, against the radar
    scores at the objective's position. *)
Lemma column_matches_radar objectives j o g : forall rows rss,
  NoDup objectives -> nth_error objectives j = Some o ->
  Forall2 (same_pass objectives) rows rss ->
  exists levels,
    column_levels rows o g = (Ok levels, g)
    /\ map (fun rs => nth j (rs_scores rs) 0) rss
       = map (fun c : Z => inject_Z (c * 10) / 3) (map convert_level_to_score levels).
Proof.
  intros rows rss Hnd Hj Hall. induction Hall as [|row rs rows rss Hpass _ IH].
  - exists []. split; reflexivity.
  - destruct IH as [levels [Hcol Hmap]].
    destruct Hpass as [_ [row0 [lv [Hlen [_ [Hrow Hscores]]]]]].
    assert (Hjlt : (j < List.length lv)%nat).
    { rewrite Hlen. apply nth_error_Some. congruence. }
    destruct (nth_error lv j) as [l|] eqn:El.
    2:{ apply nth_error_None in El. lia. }
    assert (Hget : dict_get row o = Some l).
    { rewrite Hrow, (set_levels_lookup objectives lv row0 j o Hnd Hlen Hj). exact El. }
    exists (lower l :: levels). split.
    + simpl. unfold bind, dict_index. rewrite Hget. unfold ret at 1. rewrite Hcol. reflexivity.
    + simpl. f_equal; [|exact Hmap].
      rewrite Hscores.
      rewrite (nth_indep _ 0 (radar_of_level l)) by (rewrite length_map; exact Hjlt).
      rewrite (map_nth radar_of_level).
      rewrite (nth_error_nth _ _ _ El). reflexivity.
Qed.

Lemma column_levels_state rows o g : snd (column_levels rows o g) = g.
Proof.
  induction rows as [|row rows IH]; simpl; [reflexivity|].
  unfold bind, dict_index. destruct (dict_get row o); [|reflexivity].
  unfold ret at 1. destruct (column_levels rows o g) as [[ls | e] g2]; simpl in *; exact IH.
Qed.

Lemma combined_loop_columns rows : forall objectives acc g scores g',
  combined_loop rows objectives acc g = (Ok scores, g') ->
  exists new,
    scores = acc ++ new
    /\ Forall2 (fun o s =>
                  exists levels,
                    column_levels rows o g = (Ok levels, g)
                    /\ s = inject_Z (py_sum_int (map convert_level_to_score levels))
                           / inject_Z (Z.of_nat (List.length (map convert_level_to_score levels)))
                           * 10 / 3)
               objectives new.
Proof.
  induction objectives as [|o os IH]; intros acc g scores g' Hrun; simpl in Hrun.
  - inversion Hrun; subst. exists []. rewrite app_nil_r. split; [reflexivity | constructor].
  - unfold bind in Hrun.
    destruct (column_levels rows o g) as [[levels | e] g1] eqn:Hcol; [|discriminate].
    assert (Hg1 : g1 = g) by (pose proof (column_levels_state rows o g) as Hst; rewrite Hcol in Hst; exact Hst).
    subst g1. unfold py_div in Hrun.
    destruct (Qeq_bool (inject_Z (Z.of_nat (List.length (map convert_level_to_score levels)))) 0);
      [discriminate|].
    unfold ret at 1 in Hrun.
    destruct (IH _ _ _ _ Hrun) as [new [Hscores Hall]].
    eexists (_ :: new). split.
    + rewrite Hscores, <- app_assoc. reflexivity.
    + constructor; [|exact Hall]. exists levels. split; [exact Hcol | reflexivity].
Qed.

(** X16: when the objective labels are pairwise distinct, the combined
    impact of an objective is the mean, over the risks, of their radar
    scores for that objective. *)
Theorem X16_combined_is_mean_of_radar risks objectives g r g' j :
  NoDup objectives -> (j < List.length objectives)%nat ->
  analyze_risk_impacts risks objectives g = (Ok r, g') ->
  nth j (ci_impact_scores (combined_impact r)) 0
  == py_sum (map (fun rs => nth j (rs_scores rs) 0) (risk_scores r))
     / inject_Z (Z.of_nat (List.length risks)).
Proof.
  intros Hnd Hj. unfold analyze_risk_impacts, bind. intros Hrun.
  destruct (risk_loop_spec objectives risks [] [] g) as [rows [rss [g1 [Hloop [Hall Hlen]]]]].
  rewrite Hloop in Hrun. simpl in Hrun.
  destruct (combined_loop rows objectives [] g1) as [[scores | e] g2] eqn:Hcomb; [|discriminate].
  inversion Hrun; subst. simpl.
  destruct (combined_loop_columns rows objectives [] g1 scores g' Hcomb) as [new [-> Hcols]].
  simpl.
  destruct (nth_error objectives j) as [o|] eqn:Ho.
  2:{ apply nth_error_None in Ho. lia. }
  assert (Hnew : exists s, nth_error new j = Some s).
  { destruct (nth_error new j) as [s|] eqn:E; [eauto|].
    apply nth_error_None in E. rewrite <- (Forall2_length Hcols) in E. lia. }
  destruct Hnew as [s Hs].
  destruct (Forall2_nth_error_both _ _ _ Hcols j o s Ho Hs) as [levels [Hcol ->]].
  rewrite (nth_error_nth _ _ _ Hs).
  destruct (column_matches_radar objectives j o g1 rows rss Hnd Ho Hall) as [levels' [Hcol' Hmap]].
  rewrite Hcol in Hcol'. inversion Hcol'; subst levels'.
  rewrite Hmap, py_sum_radar.
  assert (Hn : List.length (map convert_level_to_score levels) = List.length risks).
  { pose proof (f_equal (@List.length Q) Hmap) as HL. rewrite !length_map in HL.
    pose proof (Forall2_length Hall) as HF. rewrite length_map. lia. }
  rewrite Hn. unfold Qdiv. change (/ 3) with (1 # 3). ring.
Qed.

Lemma X16_combined_is_mean_of_radar_witness :
  exists r g',
    NoDup ["Scope"; "Budget"] /\ (1 < List.length ["Scope"; "Budget"])%nat
    /\ analyze_risk_impacts [risk_schedule_high; risk_high_high_low] ["Scope"; "Budget"]
         sample_rng = (Ok r, g')
    /\ nth 1 (ci_impact_scores (combined_impact r)) 0
       == py_sum (map (fun rs => nth 1 (rs_scores rs) 0) (risk_scores r))
          / inject_Z (Z.of_nat (List.length [risk_schedule_high; risk_high_high_low])).
Proof.
  assert (Hnd : NoDup ["Scope"; "Budget"]).
  { repeat (constructor; [simpl; intuition discriminate|]). constructor. }
  do 2 eexists. split; [exact Hnd|]. split; [simpl; lia|].
  split; [vm_compute; reflexivity|].
  eapply (X16_combined_is_mean_of_radar [risk_schedule_high; risk_high_high_low]
            ["Scope"; "Budget"] sample_rng _ _ 1 Hnd).
  - simpl; lia.
  - vm_compute. reflexivity.
Defined.

(** ** Selecting a risk in the mitigation view *)

(** X17: selecting the non-empty description of a stored risk always finds
    a stored risk with that description; when no risk has a description,
    the placeholder labels offered instead ("Risk 1", ...) find nothing and
    the view reports "Selected risk not found". *)
Theorem X17_selected_risk_lookup (risks : list risk) :
  (forall r d, In r risks -> dict_get r "description" = Some d -> d <> EmptyString ->
     exists r', find_selected_risk risks d = Some r'
                /\ In r' risks /\ dict_get r' "description" = Some d)
  /\ (Forall (fun r => dict_get r "description" = None) risks ->
      forall i, find_selected_risk risks (risk_placeholder i) = None).
Proof.
  split.
  - intros r d Hin Hd Hne. unfold find_selected_risk.
    match goal with |- context [find ?f risks] => destruct (find f risks) as [r0|] eqn:E end.
    + apply find_some in E. destruct E as [Hin0 Heq]. apply String.eqb_eq in Heq.
      assert (Hd0 : dict_get r0 "description" = Some d).
      { unfold dict_get_default in Heq. destruct (dict_get r0 "description"); congruence. }
      destruct r0 as [|kv r0]; [discriminate Hd0|].
      exists (kv :: r0). repeat split; assumption.
    + exfalso. pose proof (find_none _ _ E r Hin) as Hf. simpl in Hf.
      rewrite (described_label r d _ Hd), String.eqb_refl in Hf. discriminate.
  - intros Hall i. unfold find_selected_risk.
    match goal with |- context [find ?f risks] => destruct (find f risks) as [r0|] eqn:E end;
      [|reflexivity].
    apply find_some in E. destruct E as [Hin0 Heq]. apply String.eqb_eq in Heq.
    rewrite Forall_forall in Hall. unfold dict_get_default in Heq.
    rewrite (Hall r0 Hin0) in Heq. discriminate Heq.
Qed.

Lemma X17_selected_risk_lookup_witness :
  In risk_high_high_low [risk_schedule_high; risk_high_high_low]
  /\ dict_get risk_high_high_low "description" = Some "Vendor delay"
  /\ "Vendor delay" <> EmptyString
  /\ exists r', find_selected_risk [risk_schedule_high; risk_high_high_low] "Vendor delay"
                = Some r'
                /\ In r' [risk_schedule_high; risk_high_high_low]
                /\ dict_get r' "description" = Some "Vendor delay".
Proof.
  split; [right; left; reflexivity|]. split; [reflexivity|]. split; [discriminate|].
  apply (proj1 (X17_selected_risk_lookup [risk_schedule_high; risk_high_high_low])
           risk_high_high_low "Vendor delay").
  - right; left; reflexivity.
  - reflexivity.
  - discriminate.
Defined.

(** ** The strategies text *)

Lemma split_newline_nonempty s : split_newline s <> [].
Proof.
  destruct s as [|c r]; simpl; [discriminate|].
  destruct (Ascii.eqb c newline); [discriminate|].
  destruct (split_newline r); discriminate.
Qed.

Lemma split_newline_line x :
  ~ In newline (list_ascii_of_string x) -> split_newline x = [x].
Proof.
  induction x as [|c r IH]; intros Hn; simpl in *; [reflexivity|].
  destruct (Ascii.eqb c newline) eqn:E.
  - apply Ascii.eqb_eq in E. subst c. tauto.
  - rewrite IH by tauto. reflexivity.
Qed.

Lemma split_newline_append x rest :
  ~ In newline (list_ascii_of_string x) ->
  split_newline (x ++ String newline rest) = x :: split_newline rest.
Proof.
  induction x as [|c r IH]; intros Hn; simpl in *.
  - try rewrite Ascii.eqb_refl. reflexivity.
  - destruct (Ascii.eqb c newline) eqn:E.
    + apply Ascii.eqb_eq in E. subst c. tauto.
    + rewrite IH by tauto. reflexivity.
Qed.

Lemma split_join l :
  l <> [] -> Forall (fun s => ~ In newline (list_ascii_of_string s)) l ->
  split_newline (join_newline l) = l.
Proof.
  intros Hne Hall. induction Hall as [|x l Hx Hl IH]; [congruence|].
  destruct l as [|y l].
  - simpl. apply split_newline_line. exact Hx.
  - change (join_newline (x :: y :: l))
      with (x ++ String newline (join_newline (y :: l)))%string.
    rewrite split_newline_append by exact Hx. rewrite IH by discriminate. reflexivity.
Qed.

Lemma map_strip_clean l : Forall clean_line l -> map strip l = l.
Proof.
  induction 1 as [|x l [_ [Hx _]] _ IH]; simpl; [reflexivity|]. rewrite Hx, IH. reflexivity.
Qed.

Lemma parse_join l : Forall clean_line l -> parse_strategies (join_newline l) = l.
Proof.
  intros Hall. unfold parse_strategies. destruct l as [|x l].
  - reflexivity.
  - rewrite split_join.
    + rewrite filter_all.
      * apply map_strip_clean. exact Hall.
      * apply Forall_impl with (2 := Hall). intros s [Hne [Hs _]].
        rewrite Hs. apply str_truthy_iff. exact Hne.
    + discriminate.
    + apply Forall_impl with (2 := Hall). intros s [_ [_ Hn]]. exact Hn.
Qed.

Lemma clean_line_by_check s :
  str_truthy s = true -> String.eqb (strip s) s = true ->
  forallb (fun c => negb (Ascii.eqb c newline)) (list_ascii_of_string s) = true ->
  clean_line s.
Proof.
  intros Ht Hs Hn. split; [apply str_truthy_iff; exact Ht|].
  split; [apply String.eqb_eq; exact Hs|].
  intros Hin. rewrite forallb_forall in Hn. specialize (Hn newline Hin).
  rewrite Ascii.eqb_refl in Hn. discriminate.
Qed.

Lemma generic_strategies_clean : Forall clean_line generic_strategies.
Proof.
  unfold generic_strategies.
  repeat (apply Forall_cons; [apply clean_line_by_check; vm_compute; reflexivity|]).
  apply Forall_nil.
Qed.

Lemma category_strategies_clean :
  Forall (fun kv : string * list string => Forall clean_line (snd kv)) category_strategies.
Proof.
  unfold category_strategies.
  repeat (apply Forall_cons;
          [simpl;
           repeat (apply Forall_cons; [apply clean_line_by_check; vm_compute; reflexivity|]);
           apply Forall_nil|]).
  apply Forall_nil.
Qed.

Lemma generated_strategies_clean (r : risk) :
  (forall m, dict_get r "mitigation" = Some m -> m = EmptyString \/ clean_line m) ->
  Forall clean_line (generate_alternative_strategies r).
Proof.
  intros Hm. unfold generate_alternative_strategies.
  apply Forall_forall. intros x Hx.
  match type of Hx with
  | In _ (dict_keys (dict_fromkeys ?k)) => destruct (fromkeys_spec k) as [_ [Hin _]]
  end.
  apply (proj1 (Hin x)) in Hx. apply filter_In in Hx.
  destruct Hx as [Hx _]. apply in_app_or in Hx. destruct Hx as [Hx | Hx].
  - apply in_app_or in Hx. destruct Hx as [Hx | Hx].
    + destruct (str_truthy (dict_get_default r "mitigation" EmptyString)) eqn:E;
        [|destruct Hx].
      destruct Hx as [<- | []]. unfold dict_get_default in *.
      destruct (dict_get r "mitigation") as [m|] eqn:Em; [|discriminate E].
      destruct (Hm m eq_refl) as [-> | Hc]; [discriminate E | exact Hc].
    + revert x Hx. apply Forall_forall.
      apply (dict_get_default_all (fun l : list string => Forall clean_line l)).
      * exact category_strategies_clean.
      * constructor.
  - revert x Hx. apply Forall_forall. exact generic_strategies_clean.
Qed.

(** X18: the strategies read back from the text area are never empty.
    Lines that are not empty, carry no white space at their ends, be it
    ASCII or not, and no line break survive the trip through the text area
    unchanged; so, unless the risk's current mitigation is not such a line,
    an unedited text area yields exactly the generated alternative
    strategies. *)
Theorem X18_strategies_text_round_trip strategies_text (l : list string) (r : risk) :
  Forall (fun s => s <> EmptyString) (parse_strategies strategies_text)
  /\ (Forall clean_line l -> parse_strategies (join_newline l) = l)
  /\ ((forall m, dict_get r "mitigation" = Some m -> m = EmptyString \/ clean_line m) ->
      parse_strategies (join_newline (generate_alternative_strategies r))
      = generate_alternative_strategies r).
Proof.
  split; [|split].
  - unfold parse_strategies. apply Forall_map, Forall_forall. intros s Hs.
    apply filter_In in Hs. apply str_truthy_iff. tauto.
  - apply parse_join.
  - intros Hm. apply parse_join. apply generated_strategies_clean. exact Hm.
Qed.

Lemma X18_strategies_text_round_trip_witness :
  Forall clean_line ["Add buffer time"; "Accept the risk"]
  /\ parse_strategies (join_newline ["Add buffer time"; "Accept the risk"])
     = ["Add buffer time"; "Accept the risk"]
  /\ parse_strategies (join_newline (generate_alternative_strategies risk_schedule_high))
     = generate_alternative_strategies risk_schedule_high.
Proof.
  assert (H : Forall clean_line ["Add buffer time"; "Accept the risk"]).
  { repeat (apply Forall_cons; [apply clean_line_by_check; vm_compute; reflexivity|]).
    apply Forall_nil. }
  split; [exact H|]. split.
  - apply (proj1 (proj2 (X18_strategies_text_round_trip EmptyString
                           ["Add buffer time"; "Accept the risk"] risk_schedule_high))).
    exact H.
  - apply (proj2 (proj2 (X18_strategies_text_round_trip EmptyString [] risk_schedule_high))).
    intros m Hm. discriminate Hm.
Defined.

(** White space beyond ASCII is stripped as well: a no-break space
    (U+00A0) in front and an em space (U+2003) behind. *)
Example strip_beyond_ascii :
  strip (utf8 [194; 160]%nat ++ "Accept the risk" ++ utf8 [226; 128; 131]%nat) = "Accept the risk"
  /\ ~ clean_line ("A" ++ utf8 [194; 160]%nat).
Proof.
  split; [reflexivity|]. intros [_ [H _]]. discriminate H.
Qed.

Example parse_drops_blank_lines :
  parse_strategies (String newline "  Accept the risk " ++ String newline "   ")
  = ["Accept the risk"].
Proof. reflexivity. Qed.
